(** * LEN5 benchmark log scraper: [scripts/parse_benchmarks.py]

    A shallow embedding of the script and the properties of its
    specification.  Python [str] values are [string]s whose characters
    are the code points 0..255; Python [int]s are [Z]; the [float] that
    the script computes (the instructions-per-cycle ratio) is a sign, a
    mantissa and a binary exponent.  Dictionaries indexed by fixed field
    names are [gmap string _]; the results table, whose iteration order
    is observable, is an association list in insertion order. *)

From Stdlib Require Import ZArith NArith Lia Ascii Bool List.
From Stdlib Require String.
From Stdlib Require HexString.
From stdpp Require Import base tactics option list strings pretty gmap.

Local Open Scope Z_scope.

(** ** Exceptions *)

Inductive exn : Type :=
  | ValueError
  | OverflowError
  | ZeroDivisionError
  | KeyError
  | TypeError
  | SystemExit (code : Z).

Inductive result (A : Type) : Type :=
  | Ok (a : A)
  | Raise (e : exn).
Arguments Ok {A} a.
Arguments Raise {A} e.

#[global] Instance result_ret : MRet result := fun A a => Ok a.
#[global] Instance result_bind : MBind result := fun A B f m =>
  match m with
  | Ok a => f a
  | Raise e => Raise e
  end.

(** ** The interpreter's limit on int/str conversions

    CPython refuses to convert between [int] and decimal text when more
    than [int_max_str_digits] digits are involved (4300 unless
    reconfigured; 0 switches the check off).  The check is only made
    above 640 digits. *)

Class PyConfig : Type := { int_max_str_digits : N }.

Definition exceeds_str_digits `{PyConfig} (digits : N) : bool :=
  ((640 <? digits) && (0 <? int_max_str_digits) && (int_max_str_digits <? digits))%N.

(** ** Strings *)

Definition LF : ascii := "010"%char.
Definition ESC : ascii := "027"%char.
Definition NL : string := String LF "".

Definition py_len (s : string) : Z := Z.of_nat (String.length s).

(** Index normalisation shared by slicing and [find]: a negative index
    counts from the end, and the result is clamped to [0, n]. *)
Definition adjust_index (n i : Z) : Z :=
  if i <? 0 then Z.max (i + n) 0 else Z.min i n.

(** [s[lo:hi]]; an omitted bound is [None]. *)
Definition py_slice (s : string) (lo hi : option Z) : string :=
  let n := py_len s in
  let a := adjust_index n (default 0 lo) in
  let b := adjust_index n (default n hi) in
  String.substring (Z.to_nat a) (Z.to_nat (b - a)) s.

(** [s.find(sub, start)]: the lowest index at or after [start] where
    [sub] occurs, or -1. *)
Definition py_find (s sub : string) (start : Z) : Z :=
  let n := py_len s in
  let a := if start <? 0 then Z.max (start + n) 0 else start in
  match String.index (Z.to_nat a) sub s with
  | Some i => Z.of_nat i
  | None => -1
  end.

Fixpoint char_in (c : ascii) (chars : string) : bool :=
  match chars with
  | EmptyString => false
  | String a chars' => Ascii.eqb a c || char_in c chars'
  end.

Fixpoint py_lstrip (chars s : string) : string :=
  match s with
  | EmptyString => EmptyString
  | String a s' => if char_in a chars then py_lstrip chars s' else s
  end.

Fixpoint py_rstrip (chars s : string) : string :=
  match s with
  | EmptyString => EmptyString
  | String a s' =>
      match py_rstrip chars s' with
      | EmptyString => if char_in a chars then EmptyString else String a EmptyString
      | r => String a r
      end
  end.

(** [s.strip(chars)] *)
Definition py_strip (chars s : string) : string :=
  py_rstrip chars (py_lstrip chars s).

Fixpoint repeat_char (c : ascii) (n : nat) : string :=
  match n with
  | O => EmptyString
  | S n' => String c (repeat_char c n')
  end.

(** ** [int(text, base)]

    What [int] accepts: optional white space, an optional sign, for base
    16 an optional [0x]/[0X] prefix (which one underscore may follow),
    then digits below the base, single underscores allowed between
    them, then optional white space.  Anything else is a [ValueError],
    rendered here as [None].  Among the code points 0..255 the white
    space of [int] is 9..13, 32, 133 and 160, and the only decimal digits
    are 0..9. *)

Definition int_space (c : ascii) : bool :=
  let n := N_of_ascii c in
  (((9 <=? n) && (n <=? 13)) || (n =? 32) || (n =? 133) || (n =? 160))%N.

Definition digit_value (c : ascii) : option N :=
  let n := N_of_ascii c in
  if ((48 <=? n) && (n <=? 57))%N then Some (n - 48)%N
  else if ((97 <=? n) && (n <=? 122))%N then Some (n - 87)%N
  else if ((65 <=? n) && (n <=? 90))%N then Some (n - 55)%N
  else None.

Fixpoint skip_space (s : string) : string :=
  match s with
  | EmptyString => EmptyString
  | String c s' => if int_space c then skip_space s' else s
  end.

(** The digit loop: consumes digits and underscores, returning the value
    read, the number of digits (underscores not counted) and the text
    left over; [None] on a doubled or trailing underscore. *)
Fixpoint scan_digits (base : N) (prev_us : bool) (acc nd : N) (s : string)
  : option (N * N * string) :=
  let finish := if prev_us then None else Some (acc, nd, s) in
  match s with
  | EmptyString => finish
  | String c s' =>
      if Ascii.eqb c "_" then
        if prev_us then None else scan_digits base true acc nd s'
      else
        match digit_value c with
        | Some d =>
            if (d <? base)%N
            then scan_digits base false (acc * base + d)%N (nd + 1)%N s'
            else finish
        | None => finish
        end
  end.

Definition split_sign (s : string) : bool * string :=
  match s with
  | String "+" s' => (false, s')
  | String "-" s' => (true, s')
  | _ => (false, s)
  end.

Definition skip_radix_prefix (base : N) (s : string) : string :=
  match s with
  | String "0" (String x s') =>
      if ((base =? 16)%N && (Ascii.eqb x "x" || Ascii.eqb x "X"))%bool then
        match s' with
        | String "_" s'' => s''
        | _ => s'
        end
      else s
  | _ => s
  end.

Definition is_binary_base (base : N) : bool := (N.land base (base - 1) =? 0)%N.

Definition py_int `{PyConfig} (base : N) (s : string) : option Z :=
  let '(neg, s) := split_sign (skip_space s) in
  let s := skip_radix_prefix base s in
  match s with
  | String "_" _ => None
  | _ =>
      match scan_digits base false 0%N 0%N s with
      | None => None
      | Some (v, nd, rest) =>
          if (nd =? 0)%N then None
          else if negb (is_binary_base base) && exceeds_str_digits nd then None
          else match skip_space rest with
               | EmptyString => Some (if neg then - Z.of_N v else Z.of_N v)
               | _ => None
               end
      end
  end.

(** ** The metric extractors *)

Definition get_report_start (stdout : string) : Z :=
  let start_string := "Program exit with code: " in
  let start_index := py_find stdout start_string 0 in
  if start_index =? -1 then 0 else start_index.

(** The text the extractors are given: [output_log[start_report:]]. *)
Definition report_of (raw : string) : string :=
  py_slice raw (Some (get_report_start raw)) None.

(** The body shared, token for token, by the ten [parse_*] functions:
    the marker, the terminator, the base of [int] and the value returned
    when the marker is missing or the conversion fails are the only
    things that differ between them. *)
Definition scrape `{PyConfig} (start_string terminator : string) (base : N)
    (fallback : Z) (stdout : string) : Z :=
  let start_index := py_find stdout start_string 0 in
  if start_index =? -1 then fallback
  else
    let start_index := start_index + py_len start_string in
    let end_index := py_find stdout terminator start_index in
    let instructions_str :=
      py_strip " " (py_slice stdout (Some start_index) (Some end_index)) in
    match py_int base instructions_str with
    | Some instructions => instructions
    | None => fallback
    end.

Definition parse_status `{PyConfig} (stdout : string) : Z :=
  scrape "Program exit with code: " "(" 16 1 stdout.

Definition parse_retired_instructions `{PyConfig} (stdout : string) : Z :=
  scrape "retired instructions:" NL 10 0 stdout.

Definition parse_cycles `{PyConfig} (stdout : string) : Z :=
  scrape "total CPU cycles: " NL 10 0 stdout.

Definition parse_jumps `{PyConfig} (stdout : string) : Z :=
  scrape "- jumps: " "(" 10 0 stdout.

Definition parse_branches `{PyConfig} (stdout : string) : Z :=
  scrape "- branches:" "(" 10 0 stdout.

Definition parse_loads `{PyConfig} (stdout : string) : Z :=
  scrape "- loads:" "(" 10 0 stdout.

Definition parse_stores `{PyConfig} (stdout : string) : Z :=
  scrape "- stores:" "(" 10 0 stdout.

Definition parse_inst_fetches `{PyConfig} (stdout : string) : Z :=
  scrape "- instruction fetches:" "(" 10 0 stdout.

Definition parse_writes `{PyConfig} (stdout : string) : Z :=
  scrape "- write requests: " "(" 10 0 stdout.

Definition parse_reads `{PyConfig} (stdout : string) : Z :=
  scrape "- read requests:" "(" 10 0 stdout.

(** ** Floats and true division

    A finite [float] is [(-1)^fneg * fman * 2^fexp]; the sign is kept on
    zeros, as the hardware does.  The script never produces an infinity
    or a NaN: integer division raises instead. *)

Record pyfloat : Type := mkfloat { fneg : bool; fman : Z; fexp : Z }.

(** The integer nearest to [num / den] for [den > 0], ties to even. *)
Definition round_half_even (num den : Z) : Z :=
  let q := num / den in
  let r := num mod den in
  if (den <? 2 * r) || ((den =? 2 * r) && Z.odd q) then q + 1 else q.

(** [a / b] on two [int]s: the double nearest to the exact quotient
    (53 bits of mantissa, exponents down to the subnormal 2^-1074),
    [OverflowError] when that would be 2^1024 or more. *)
Definition true_divide (a b : Z) : result pyfloat :=
  if b =? 0 then Raise ZeroDivisionError
  else
    let neg := xorb (a <? 0) (b <? 0) in
    if a =? 0 then Ok (mkfloat neg 0 0)
    else
      let A := Z.abs a in
      let B := Z.abs b in
      let d := Z.log2 A - Z.log2 B in
      let e0 :=
        if A * 2 ^ Z.max 0 (- d) <? B * 2 ^ Z.max 0 d then d - 53 else d - 52 in
      let e := Z.max e0 (-1074) in
      let m := round_half_even (A * 2 ^ Z.max 0 (- e)) (B * 2 ^ Z.max 0 e) in
      if (0 <=? e) && (2 ^ 1024 <=? m * 2 ^ e) then Raise OverflowError
      else Ok (mkfloat neg m e).

(** Hundredths of the absolute value of a float, rounded half to even on
    its exact binary value. *)
Definition float_cents (f : pyfloat) : Z :=
  if 0 <=? fexp f then fman f * 2 ^ fexp f * 100
  else round_half_even (fman f * 100) (2 ^ (- fexp f)).

(** [format(f, ' .2f')]: a space or a minus sign, the integer part, a
    point and two decimals. *)
Definition format_f2 (f : pyfloat) : string :=
  let cents := float_cents f in
  (if fneg f then "-" else " ") +:+ pretty (cents / 100) +:+ "."
    +:+ pretty (cents mod 100 / 10) +:+ pretty (cents mod 10).

(** ** Values held by a row of the table *)

Inductive pyval : Type :=
  | VBool (b : bool)
  | VInt (z : Z)
  | VFloat (f : pyfloat).

(** [bool] is a subclass of [int]. *)
Definition int_of_val (v : pyval) : option Z :=
  match v with
  | VBool b => Some (Z.b2z b)
  | VInt z => Some z
  | VFloat _ => None
  end.

(** Truth value, as tested by [if] and [all]. *)
Definition py_truth (v : pyval) : bool :=
  match v with
  | VBool b => b
  | VInt z => negb (z =? 0)
  | VFloat f => negb (fman f =? 0)
  end.

(** [v != 0] *)
Definition py_ne_zero (v : pyval) : bool := py_truth v.

(** [v + w] and [v / w].  Only [int] operands reach these in the script
    (the operands are values just stored by the extractors; see
    [main_raises] below), so float arithmetic is left out and answers
    [TypeError]. *)
Definition py_add (v w : pyval) : result pyval :=
  match int_of_val v, int_of_val w with
  | Some a, Some b => Ok (VInt (a + b))
  | _, _ => Raise TypeError
  end.

Definition py_truediv (v w : pyval) : result pyval :=
  match int_of_val v, int_of_val w with
  | Some a, Some b => f ← true_divide a b; Ok (VFloat f)
  | _, _ => Raise TypeError
  end.

(** [str(z)] for an [int], subject to the digit limit. *)
Definition str_int `{PyConfig} (z : Z) : result string :=
  let s := pretty z in
  let digits := N.of_nat (String.length (pretty (Z.abs z))) in
  if exceeds_str_digits digits then Raise ValueError else Ok s.

(** [f"{v}"].  A float would be printed by [repr], which is left out
    and answers [TypeError]: the script formats no float this way (see
    [main_raises] below). *)
Definition py_str `{PyConfig} (v : pyval) : result string :=
  match v with
  | VBool true => Ok "True"
  | VBool false => Ok "False"
  | VInt z => str_int z
  | VFloat _ => Raise TypeError
  end.

(** [f"{v: .2f}"]; an [int] is converted to the nearest float first. *)
Definition py_format_f2 (v : pyval) : result string :=
  match v with
  | VFloat f => Ok (format_f2 f)
  | VInt z => f ← true_divide z 1; Ok (format_f2 f)
  | VBool b => f ← true_divide (Z.b2z b) 1; Ok (format_f2 f)
  end.

(** [f"{z:4d}"], and [f"{s:15}"] for a string. *)
Definition py_format_d `{PyConfig} (width : nat) (z : Z) : result string :=
  s ← str_int z;
  Ok (repeat_char " " (width - String.length s) +:+ s).

Definition py_format_s (width : nat) (s : string) : string :=
  s +:+ repeat_char " " (width - String.length s).

(** ** The results table

    A Python [dict] keeps insertion order, and assigning to a key that
    is present keeps its place. *)

Abbreviation row := (gmap string pyval).
Abbreviation table := (list (string * gmap string pyval)).

Definition init_table : table := [].

Fixpoint dict_get (t : table) (k : string) : option row :=
  match t with
  | [] => None
  | (k', r) :: t' => if decide (k' = k) then Some r else dict_get t' k
  end.

Fixpoint dict_set (t : table) (k : string) (r : row) : table :=
  match t with
  | [] => [(k, r)]
  | (k', r') :: t' =>
      if decide (k' = k) then (k, r) :: t' else (k', r') :: dict_set t' k r
  end.

Definition dict_mem (t : table) (k : string) : bool :=
  match dict_get t k with Some _ => true | None => false end.

(** [d[k]] *)
Definition getitem {V : Type} (d : gmap string V) (k : string) : result V :=
  match d !! k with
  | Some v => Ok v
  | None => Raise KeyError
  end.

Definition table_getitem (t : table) (k : string) : result row :=
  match dict_get t k with
  | Some r => Ok r
  | None => Raise KeyError
  end.

(** [table[benchmark]] names one dict object for the whole call; its
    successive states are the successive bindings of [r] below, and the
    table is looked at again only once the call has returned. *)
Definition update_table `{PyConfig} (t : table) (benchmark output_log : string)
  : result table :=
  let t := if dict_mem t benchmark then t else dict_set t benchmark ∅ in
  r ← table_getitem t benchmark;
  let r := <["status" := VBool (parse_status output_log =? 0)]> r in
  let r := <["instructions" := VInt (parse_retired_instructions output_log)]> r in
  let r := <["cycles" := VInt (parse_cycles output_log)]> r in
  cycles ← getitem r "cycles";
  ipc ← (if py_ne_zero cycles
         then instructions ← getitem r "instructions";
              cycles ← getitem r "cycles";
              py_truediv instructions cycles
         else Ok (VInt 0));
  let r := <["ipc" := ipc]> r in
  let r := <["jumps" := VInt (parse_jumps output_log)]> r in
  let r := <["branches" := VInt (parse_branches output_log)]> r in
  jumps ← getitem r "jumps";
  branches ← getitem r "branches";
  branch_jump ← py_add jumps branches;
  let r := <["branch/jump" := branch_jump]> r in
  let r := <["loads" := VInt (parse_loads output_log)]> r in
  let r := <["stores" := VInt (parse_stores output_log)]> r in
  loads ← getitem r "loads";
  stores ← getitem r "stores";
  load_store ← py_add loads stores;
  let r := <["load/store" := load_store]> r in
  let r := <["instr_fetches" := VInt (parse_inst_fetches output_log)]> r in
  let r := <["read_req" := VInt (parse_reads output_log)]> r in
  let r := <["write_req" := VInt (parse_writes output_log)]> r in
  instr_fetches ← getitem r "instr_fetches";
  write_req ← getitem r "write_req";
  read_req ← getitem r "read_req";
  fw ← py_add instr_fetches write_req;
  memory_req ← py_add fw read_req;
  let r := <["memory_req" := memory_req]> r in
  Ok (dict_set t benchmark r).

(** ** The process: standard output, the CSV file, early exit

    What a run leaves behind is the text written to standard output and
    the content of [output/benchmarks.csv] ([None] while the file does
    not exist).  Reading the log files and creating the directory are
    taken to succeed; other I/O failures are outside this model. *)

Record world : Type := mkworld { stdout : string; csv_file : option string }.

Definition IO (A : Type) : Type := world → world * result A.

#[global] Instance io_ret : MRet IO := fun A a w => (w, Ok a).
#[global] Instance io_bind : MBind IO := fun A B f m w =>
  match m w with
  | (w', Ok a) => f a w'
  | (w', Raise e) => (w', Raise e)
  end.

Definition lift {A : Type} (r : result A) : IO A := fun w => (w, r).

(** [print(s, end=e)] *)
Definition print (s e : string) : IO unit := fun w =>
  (mkworld (stdout w +:+ s +:+ e) (csv_file w), Ok ()).

(** The world after [s] has been written to standard output. *)
Definition wprint (w : world) (s : string) : world :=
  mkworld (stdout w +:+ s) (csv_file w).

(** The world after [s] has been written to the CSV file. *)
Definition wfile (w : world) (s : string) : world :=
  mkworld (stdout w) (Some (default "" (csv_file w) +:+ s)).

Definition sys_exit (code : Z) : IO unit := fun w => (w, Raise (SystemExit code)).

(** [open(output_file, "w")] and [file.write(s)] *)
Definition open_w : IO unit := fun w => (mkworld (stdout w) (Some ""), Ok ()).

Definition file_write (s : string) : IO unit := fun w =>
  (mkworld (stdout w) (Some (default "" (csv_file w) +:+ s)), Ok ()).

Fixpoint io_for {A : Type} (l : list A) (body : A → IO unit) : IO unit :=
  match l with
  | [] => mret ()
  | x :: l' => body x;; io_for l' body
  end.

(** The exit status the operating system sees: 0 when the script runs to
    its end, the argument of [sys.exit], and 1 after an uncaught
    exception. *)
Definition exit_status (r : result unit) : Z :=
  match r with
  | Ok _ => 0
  | Raise (SystemExit code) => code
  | Raise _ => 1
  end.

(** ** Writing the CSV file *)

Definition csv_header : string :=
  "Benchmark,Status,Instructions,Cycles,IPC,Jumps,Branches,Branch/Jump Instructions,Loads,Stores,Load/Store Instructions,Instruction fetches,Write Requests,Read Requests,Memory Requests"
  +:+ NL.

(** [benchmark[:-4]] *)
Definition bench_id (benchmark : string) : string :=
  py_slice benchmark None (Some (-4)).

(** [file.write(f"{results[key]}" + sep)] *)
Definition write_field `{PyConfig} (results : row) (key sep : string) : IO unit :=
  v ← lift (getitem results key);
  s ← lift (py_str v);
  file_write (s +:+ sep).

Definition write_row `{PyConfig} (item : string * row) : IO unit :=
  let '(benchmark, results) := item in
  file_write (bench_id benchmark +:+ ",");;
  write_field results "status" ",";;
  write_field results "instructions" ",";;
  write_field results "cycles" ",";;
  (v ← lift (getitem results "ipc");
   s ← lift (py_format_f2 v);
   file_write (s +:+ ","));;
  write_field results "jumps" ",";;
  write_field results "branches" ",";;
  write_field results "branch/jump" ",";;
  write_field results "loads" ",";;
  write_field results "stores" ",";;
  write_field results "load/store" ",";;
  write_field results "instr_fetches" ",";;
  write_field results "read_req" ",";;
  write_field results "write_req" ",";;
  write_field results "memory_req" NL.

Definition print_table_to_file_csv `{PyConfig} (t : table) : IO unit :=
  open_w;;
  file_write csv_header;;
  io_for t write_row.

(** ** The main program *)

(** The command line once [parser.parse_args()] has returned, and the
    file system as the script finds it: the values of the two options
    ([None] for an option that was not given), and the entries of
    [<cwd>/<path>/logs/sim] in the order [os.listdir] gives them, each
    with the text of the file ([None] when the directory does not
    exist).  A command line that [argparse] refuses, or [-h], ends the
    process inside [parse_args] and is no run of this model. *)
Record env : Type := mkenv {
  arg_s : option string;
  arg_p : option string;
  cwd : string;
  sim_logs : option (list (string * string))
}.

(** [os.path.join(a, b)] on a POSIX system. *)
Definition path_join (a b : string) : string :=
  match b with
  | String "/" _ => b
  | _ =>
      match String.rev a with
      | EmptyString | String "/" _ => a +:+ b
      | _ => a +:+ "/" +:+ b
      end
  end.

Definition BENCH_WHITE_LISTE : list string :=
  ["cubic"; "nbody"; "nettle-sha256"; "st"; "ud"].

Definition whitelisted (benchmark : string) : bool :=
  bool_decide (bench_id benchmark ∈ BENCH_WHITE_LISTE).

(** [not args.s]: the option is missing or empty. *)
Definition arg_missing (a : option string) : bool :=
  match a with
  | None | Some EmptyString => true
  | Some _ => false
  end.

Definition get_benchmarks (e : env) (benchmarks_dir : string)
  : IO (list (string * string)) :=
  match sim_logs e with
  | None =>
      print ("Error: " +:+ benchmarks_dir +:+ " does not exist") NL;;
      sys_exit 2;;
      mret []
  | Some benchmarks => mret benchmarks
  end.

Definition SUCCESS_TAG : string :=
  String ESC "[92mSUCCESS" +:+ String ESC "[00m".
Definition FAILURE_TAG : string :=
  String ESC "[91mFAILURE" +:+ String ESC "[00m".

(** One turn of the [for i, b in enumerate(benchmarks)] loop; [stats] and
    [correctly_ex] are the two variables the loop assigns. *)
Definition summary_step `{PyConfig} (i : Z) (b contents : string)
    (stats : table) (correctly_ex : Z) : IO (table * Z) :=
  let output_log := contents in
  let start_report := get_report_start output_log in
  let output_log := py_slice output_log (Some start_report) None in
  stats ← lift (update_table stats b output_log);
  r ← lift (table_getitem stats b);
  status ← lift (getitem r "status");
  if py_truth status then
    n ← lift (py_format_d 4 (i + 1));
    ipc ← lift (getitem r "ipc");
    x ← lift (py_format_f2 ipc);
    print (n +:+ ") " +:+ py_format_s 15 (bench_id b) +:+ ": " +:+ SUCCESS_TAG
             +:+ " (IPC=" +:+ x +:+ ")") NL;;
    mret (stats, correctly_ex + 1)
  else
    n ← lift (py_format_d 4 i);
    ipc ← lift (getitem r "ipc");
    x ← lift (py_format_f2 ipc);
    print (n +:+ ") " +:+ py_format_s 15 (bench_id b) +:+ ": " +:+ FAILURE_TAG
             +:+ " (IPC=" +:+ x +:+ ")") NL;;
    mret (stats, correctly_ex).

Fixpoint summary_loop `{PyConfig} (i : Z) (benchmarks : list (string * string))
    (stats : table) (correctly_ex : Z) : IO (table * Z) :=
  match benchmarks with
  | [] => mret (stats, correctly_ex)
  | (b, contents) :: rest =>
      '(stats, correctly_ex) ← summary_step i b contents stats correctly_ex;
      summary_loop (i + 1) rest stats correctly_ex
  end.

(** [[s["status"] for b, s in stats.items() if b[:-4] not in BENCH_WHITE_LISTE]] *)
Definition gated_statuses (stats : table) : result (list pyval) :=
  mapM (fun item : string * row => getitem item.2 "status")
       (filter (fun item : string * row => negb (whitelisted item.1)) stats).

(** The loop that collects the names of the failed benchmarks. *)
Fixpoint failed_names (items : table) (benchmarks_fail : string) : result string :=
  match items with
  | [] => Ok benchmarks_fail
  | (b, s) :: rest =>
      if negb (whitelisted b) then
        status ← getitem s "status";
        if negb (py_truth status)
        then failed_names rest (benchmarks_fail +:+ ", " +:+ bench_id b)
        else failed_names rest benchmarks_fail
      else failed_names rest benchmarks_fail
  end.

(** The end of the script, from the gating check on: the failure
    message and exit status 1, or the CSV file. *)
Definition gate_and_export `{PyConfig} (PATH : string) (stats : table) : IO unit :=
  statuses ← lift (gated_statuses stats);
  (if negb (forallb py_truth statuses) then
     print (String ESC "[91mFailed tests: ") "";;
     benchmarks_fail ← lift (failed_names stats "");
     let benchmarks_fail :=
       py_slice benchmarks_fail (Some 2) None +:+ "." +:+ String ESC "[00m" in
     print benchmarks_fail NL;;
     sys_exit 1
   else mret ());;
  print ("Saving the csv report to " +:+ PATH +:+ "/output.") NL;;
  print_table_to_file_csv stats.

Definition main `{PyConfig} (e : env) : IO unit :=
  (if arg_missing (arg_s e)
   then print "Usage: python parse_benchmarks.py -s <suite>" NL;; sys_exit 2
   else mret ());;
  (if arg_missing (arg_p e)
   then print "Usage: python parse_benchmarks.py -p <path>" NL;; sys_exit 2
   else mret ());;
  let PATH := default "" (arg_p e) in
  let stats := init_table in
  let benchmarks_dir := path_join (path_join (cwd e) PATH) "logs/sim" in
  print "Benchmark summary:" NL;;
  benchmarks ← get_benchmarks e benchmarks_dir;
  '(stats, correctly_ex) ← summary_loop 0 benchmarks stats 0;
  a ← lift (str_int correctly_ex);
  b ← lift (str_int (Z.of_nat (length stats)));
  print ("Correctly executed testbenches " +:+ a +:+ " out of " +:+ b +:+ ".") NL;;
  gate_and_export PATH stats.

(** Running the script from an initial state of the world. *)
Definition run `{PyConfig} (e : env) (w : world) : world * Z :=
  let '(w', r) := main e w in (w', exit_status r).

(** ** The specification's words, for comparison

    The specification describes the number opening a console line as a
    1-based running success counter.  Two readings are written down: the
    number of successful benchmarks met so far, this one included, and
    the 1-based position of the benchmark in the listing. *)

Fixpoint successes_upto (flags : list bool) : list Z :=
  match flags with
  | [] => []
  | f :: rest => Z.b2z f :: map (Z.add (Z.b2z f)) (successes_upto rest)
  end.

Definition positions_from_one (flags : list bool) : list Z :=
  map (fun i : nat => Z.of_nat i + 1) (seq 0 (length flags)).

Definition one_plus_successes_before (flags : list bool) : list Z :=
  map (fun p : Z * bool => p.1 - Z.b2z p.2 + 1)
      (zip (successes_upto flags) flags).

(** ** The marker table

    The ten extractors, indexed by the metric they serve, with the four
    things that tell them apart. *)

Inductive metric : Type :=
  | Status | Instructions | Cycles | Jumps | Branches
  | Loads | Stores | InstrFetches | WriteReq | ReadReq.

#[global] Instance metric_eq_dec : EqDecision metric.
Proof. solve_decision. Defined.

Definition marker (m : metric) : string :=
  match m with
  | Status => "Program exit with code: "
  | Instructions => "retired instructions:"
  | Cycles => "total CPU cycles: "
  | Jumps => "- jumps: "
  | Branches => "- branches:"
  | Loads => "- loads:"
  | Stores => "- stores:"
  | InstrFetches => "- instruction fetches:"
  | WriteReq => "- write requests: "
  | ReadReq => "- read requests:"
  end.

Definition terminator (m : metric) : string :=
  match m with
  | Instructions | Cycles => NL
  | _ => "("
  end.

Definition radix (m : metric) : N :=
  match m with
  | Status => 16
  | _ => 10
  end%N.

Definition fallback_of (m : metric) : Z :=
  match m with
  | Status => 1
  | _ => 0
  end.

Definition extract `{PyConfig} (m : metric) : string → Z :=
  match m with
  | Status => parse_status
  | Instructions => parse_retired_instructions
  | Cycles => parse_cycles
  | Jumps => parse_jumps
  | Branches => parse_branches
  | Loads => parse_loads
  | Stores => parse_stores
  | InstrFetches => parse_inst_fetches
  | WriteReq => parse_writes
  | ReadReq => parse_reads
  end.

(** The text between the marker and the terminator, as the extractors
    cut it out, when the marker starts at [i] and the terminator is
    found at [j] (or not found, [j = -1]). *)
Definition value_text (m : metric) (stdout : string) (i j : Z) : string :=
  py_strip " " (py_slice stdout (Some (i + py_len (marker m))) (Some j)).

(** A text made of hexadecimal digits only, as the Standard Library's
    [HexString] reads them (either case). *)
Fixpoint all_hex_digits (s : string) : bool :=
  match s with
  | EmptyString => true
  | String c s' =>
      match HexString.ascii_to_digit c with
      | Some _ => all_hex_digits s'
      | None => false
      end
  end.

(** [sub] occurs in [s] at position [n]. *)
Definition occurs_at (sub s : string) (n : nat) : Prop :=
  String.substring n (String.length sub) s = sub.

(** ** The row that one call of [update_table] leaves behind

    [update_table] in closed form: the fourteen fields it assigns, in
    the order it assigns them, on top of the row that was there. *)

Definition ipc_of (instructions cycles : Z) : result pyval :=
  if cycles =? 0 then Ok (VInt 0)
  else f ← true_divide instructions cycles; Ok (VFloat f).

Definition store_metrics `{PyConfig} (output_log : string) (ipc : pyval) (r : row) : row :=
  let r := <["status" := VBool (parse_status output_log =? 0)]> r in
  let r := <["instructions" := VInt (parse_retired_instructions output_log)]> r in
  let r := <["cycles" := VInt (parse_cycles output_log)]> r in
  let r := <["ipc" := ipc]> r in
  let r := <["jumps" := VInt (parse_jumps output_log)]> r in
  let r := <["branches" := VInt (parse_branches output_log)]> r in
  let r := <["branch/jump" :=
               VInt (parse_jumps output_log + parse_branches output_log)]> r in
  let r := <["loads" := VInt (parse_loads output_log)]> r in
  let r := <["stores" := VInt (parse_stores output_log)]> r in
  let r := <["load/store" :=
               VInt (parse_loads output_log + parse_stores output_log)]> r in
  let r := <["instr_fetches" := VInt (parse_inst_fetches output_log)]> r in
  let r := <["read_req" := VInt (parse_reads output_log)]> r in
  let r := <["write_req" := VInt (parse_writes output_log)]> r in
  <["memory_req" :=
      VInt (parse_inst_fetches output_log + parse_writes output_log
            + parse_reads output_log)]> r.

(** The names of the fourteen fields. *)
Definition FIELDS : list string :=
  ["status"; "instructions"; "cycles"; "ipc"; "jumps"; "branches";
   "branch/jump"; "loads"; "stores"; "load/store"; "instr_fetches";
   "read_req"; "write_req"; "memory_req"].

(** A row with no other key than the fourteen fields. *)
Definition only_fields (r : row) : Prop :=
  dom r ⊆ list_to_set (C := gset string) FIELDS.

(** ** A row seen as a MetricSet *)

Record metricset : Type := mkms {
  ms_status : bool;
  ms_instructions : Z;
  ms_cycles : Z;
  ms_ipc : pyval;
  ms_jumps : Z;
  ms_branches : Z;
  ms_branch_jump : Z;
  ms_loads : Z;
  ms_stores : Z;
  ms_load_store : Z;
  ms_instr_fetches : Z;
  ms_read_req : Z;
  ms_write_req : Z;
  ms_memory_req : Z
}.

(** The row [r] holds the values of [ms] under the fourteen field
    names. *)
Definition holds (r : row) (ms : metricset) : Prop :=
  r !! "status" = Some (VBool (ms_status ms))
  ∧ r !! "instructions" = Some (VInt (ms_instructions ms))
  ∧ r !! "cycles" = Some (VInt (ms_cycles ms))
  ∧ r !! "ipc" = Some (ms_ipc ms)
  ∧ r !! "jumps" = Some (VInt (ms_jumps ms))
  ∧ r !! "branches" = Some (VInt (ms_branches ms))
  ∧ r !! "branch/jump" = Some (VInt (ms_branch_jump ms))
  ∧ r !! "loads" = Some (VInt (ms_loads ms))
  ∧ r !! "stores" = Some (VInt (ms_stores ms))
  ∧ r !! "load/store" = Some (VInt (ms_load_store ms))
  ∧ r !! "instr_fetches" = Some (VInt (ms_instr_fetches ms))
  ∧ r !! "read_req" = Some (VInt (ms_read_req ms))
  ∧ r !! "write_req" = Some (VInt (ms_write_req ms))
  ∧ r !! "memory_req" = Some (VInt (ms_memory_req ms)).

(** The MetricSet of a log, given the value computed for [ipc]. *)
Definition metrics_of `{PyConfig} (output_log : string) (ipc : pyval) : metricset :=
  {| ms_status := parse_status output_log =? 0;
     ms_instructions := parse_retired_instructions output_log;
     ms_cycles := parse_cycles output_log;
     ms_ipc := ipc;
     ms_jumps := parse_jumps output_log;
     ms_branches := parse_branches output_log;
     ms_branch_jump := parse_jumps output_log + parse_branches output_log;
     ms_loads := parse_loads output_log;
     ms_stores := parse_stores output_log;
     ms_load_store := parse_loads output_log + parse_stores output_log;
     ms_instr_fetches := parse_inst_fetches output_log;
     ms_read_req := parse_reads output_log;
     ms_write_req := parse_writes output_log;
     ms_memory_req :=
       parse_inst_fetches output_log + parse_writes output_log
       + parse_reads output_log |}.

(** The float [f] is within half a unit in its last place, [2^fexp f],
    of the exact quotient [a / b]: it is a nearest float of that
    precision.  Stated on integers, with both sides scaled by [|b|] and
    by the power of two that clears the exponent. *)
Definition float_nearest (f : pyfloat) (a b : Z) : Prop :=
  let den := Z.abs b * 2 ^ Z.max 0 (fexp f) in
  let num := Z.abs a * 2 ^ Z.max 0 (- fexp f) in
  fneg f = xorb (a <? 0) (b <? 0)
  ∧ 0 ≤ fman f
  ∧ 2 * Z.abs (fman f * den - num) ≤ den.

(** A binary64 value: zero, or a mantissa of at most 53 bits (full,
    unless the exponent is the subnormal one) with an exponent from
    -1074 up, below [2^1024]. *)
Definition is_double (f : pyfloat) : Prop :=
  fman f = 0
  ∨ (-1074 ≤ fexp f
     ∧ 0 ≤ fman f ≤ 2 ^ 53
     ∧ (-1074 < fexp f → 2 ^ 52 ≤ fman f)
     ∧ (0 ≤ fexp f → fman f * 2 ^ fexp f < 2 ^ 1024)).

(** What the script guarantees of a row: the three sums, and an [ipc]
    that is the integer 0 when [cycles] is 0 and the float quotient
    otherwise. *)
Definition consistent (ms : metricset) : Prop :=
  ms_branch_jump ms = ms_jumps ms + ms_branches ms
  ∧ ms_load_store ms = ms_loads ms + ms_stores ms
  ∧ ms_memory_req ms = ms_instr_fetches ms + ms_read_req ms + ms_write_req ms
  ∧ ((ms_cycles ms = 0 ∧ ms_ipc ms = VInt 0)
     ∨ (ms_cycles ms ≠ 0
        ∧ ∃ f, true_divide (ms_instructions ms) (ms_cycles ms) = Ok f
               ∧ ms_ipc ms = VFloat f)).

Definition row_ok (r : row) : Prop := ∃ ms, holds r ms ∧ consistent ms.

(** ** What is printed, as text

    The line a turn of the main loop prints, and the line
    [print_table_to_file_csv] writes, as functions of the row they are
    about. *)

Definition line_with_number `{PyConfig} (number : Z) (b : string) (r : row)
  : result string :=
  status ← getitem r "status";
  n ← py_format_d 4 number;
  ipc ← getitem r "ipc";
  x ← py_format_f2 ipc;
  Ok ((n +:+ ") " +:+ py_format_s 15 (bench_id b) +:+ ": "
         +:+ (if py_truth status then SUCCESS_TAG else FAILURE_TAG)
         +:+ " (IPC=" +:+ x +:+ ")") +:+ NL).

Definition console_line `{PyConfig} (i : Z) (b : string) (r : row) : result string :=
  status ← getitem r "status";
  line_with_number (if py_truth status then i + 1 else i) b r.

Definition field_text `{PyConfig} (results : row) (key : string) : result string :=
  v ← getitem results key; py_str v.

Definition csv_row `{PyConfig} (item : string * row) : result string :=
  let '(benchmark, results) := item in
  status ← field_text results "status";
  instructions ← field_text results "instructions";
  cycles ← field_text results "cycles";
  ipc ← (v ← getitem results "ipc"; py_format_f2 v);
  jumps ← field_text results "jumps";
  branches ← field_text results "branches";
  branch_jump ← field_text results "branch/jump";
  loads ← field_text results "loads";
  stores ← field_text results "stores";
  load_store ← field_text results "load/store";
  instr_fetches ← field_text results "instr_fetches";
  read_req ← field_text results "read_req";
  write_req ← field_text results "write_req";
  memory_req ← field_text results "memory_req";
  Ok (bench_id benchmark +:+ "," +:+ status +:+ "," +:+ instructions +:+ ","
        +:+ cycles +:+ "," +:+ ipc +:+ "," +:+ jumps +:+ "," +:+ branches +:+ ","
        +:+ branch_jump +:+ "," +:+ loads +:+ "," +:+ stores +:+ ","
        +:+ load_store +:+ "," +:+ instr_fetches +:+ "," +:+ read_req +:+ ","
        +:+ write_req +:+ "," +:+ memory_req +:+ NL).

Fixpoint concat_all (l : list string) : string :=
  match l with
  | [] => ""
  | s :: l' => s +:+ concat_all l'
  end.

(** The main loop without its printing: the lines, the table and the
    count it ends with. *)
Fixpoint summary_pure `{PyConfig} (i : Z) (benchmarks : list (string * string))
    (stats : table) (correctly_ex : Z) : result (list string * table * Z) :=
  match benchmarks with
  | [] => Ok ([], stats, correctly_ex)
  | (b, contents) :: rest =>
      stats ← update_table stats b (report_of contents);
      r ← table_getitem stats b;
      line ← console_line i b r;
      status ← getitem r "status";
      '(lines, stats, correctly_ex) ←
        summary_pure (i + 1) rest stats
          (if py_truth status then correctly_ex + 1 else correctly_ex);
      Ok (line :: lines, stats, correctly_ex)
  end.

(** The status recorded in a row. *)
Definition status_of (r : row) : bool :=
  match r !! "status" with
  | Some v => py_truth v
  | None => false
  end.

(** The rows that make the run fail: not exempted, and with a false
    status. *)
Definition failing (stats : table) : table :=
  filter (fun item : string * row =>
            negb (whitelisted item.1) && negb (status_of item.2)) stats.

(** An integer short enough to be converted to text. *)
Definition printable `{PyConfig} (z : Z) : Prop :=
  exceeds_str_digits (N.of_nat (String.length (pretty (Z.abs z)))) = false.

Definition printable_metrics `{PyConfig} (ms : metricset) : Prop :=
  printable (ms_instructions ms) ∧ printable (ms_cycles ms)
  ∧ printable (ms_jumps ms) ∧ printable (ms_branches ms)
  ∧ printable (ms_branch_jump ms) ∧ printable (ms_loads ms)
  ∧ printable (ms_stores ms) ∧ printable (ms_load_store ms)
  ∧ printable (ms_instr_fetches ms) ∧ printable (ms_read_req ms)
  ∧ printable (ms_write_req ms) ∧ printable (ms_memory_req ms).

(** A number written with two decimals: a space or a minus sign, the
    integer part, a point, two digits. *)
Definition two_decimals (x : string) : Prop :=
  ∃ (sign : string) (whole d1 d2 : Z),
    (sign = " " ∨ sign = "-")
    ∧ 0 ≤ whole ∧ 0 ≤ d1 ≤ 9 ∧ 0 ≤ d2 ≤ 9
    ∧ x = sign +:+ pretty whole +:+ "." +:+ pretty d1 +:+ pretty d2.

(** The text of [True] and [False]. *)
Definition bool_text (b : bool) : string := if b then "True" else "False".

(** The fifteen fields of a CSV line, for the benchmark file [b] whose
    row holds [ms], with [x] the text of the IPC. *)
Definition csv_fields (b : string) (ms : metricset) (x : string) : list string :=
  [bench_id b; bool_text (ms_status ms); pretty (ms_instructions ms);
   pretty (ms_cycles ms); x; pretty (ms_jumps ms); pretty (ms_branches ms);
   pretty (ms_branch_jump ms); pretty (ms_loads ms); pretty (ms_stores ms);
   pretty (ms_load_store ms); pretty (ms_instr_fetches ms);
   pretty (ms_read_req ms); pretty (ms_write_req ms);
   pretty (ms_memory_req ms)].


(** The console summary as the specification words it, for a way of
    numbering the lines: one line per row of the table, in table order. *)
Definition specified_summary `{PyConfig} (numbering : list bool → list Z)
    (stats : table) : result string :=
  lines ← mapM (fun p : Z * (string * row) => line_with_number p.1 p.2.1 p.2.2)
               (zip (numbering (map (fun item : string * row => status_of item.2) stats))
                    stats);
  Ok (concat_all lines).


(** The message of the gating check. *)
Definition failure_message (stats : table) : string :=
  String ESC "[91mFailed tests: "
  +:+ String.concat ", " (map (fun item : string * row => bench_id item.1)
                              (failing stats))
  +:+ "." +:+ String ESC "[00m" +:+ NL.

(** A run over a directory that holds one log, of a benchmark that
    exited with status 1. *)
Definition one_failed : env :=
  mkenv (Some "embench") (Some "run") "/home/len5"
        (Some [("crc.log", "Program exit with code: 1 (")]).


(** CPython's default for the digit limit. *)
Definition cpython_default : PyConfig := {| int_max_str_digits := 4300 |}.

(** ** Notions used by the further properties *)

(** The logs whose quotient [instructions / cycles] is not computed, or
    is below [2^1023] in absolute value. *)
Definition quotient_fits `{PyConfig} (contents : string) : Prop :=
  parse_cycles (report_of contents) = 0
  ∨ Z.abs (parse_retired_instructions (report_of contents))
    < 2 ^ 1023 * Z.abs (parse_cycles (report_of contents)).

(** The MetricSet of a log in which no marker occurs. *)
Definition blank_metrics : metricset :=
  {| ms_status := false; ms_instructions := 0; ms_cycles := 0;
     ms_ipc := VInt 0; ms_jumps := 0; ms_branches := 0; ms_branch_jump := 0;
     ms_loads := 0; ms_stores := 0; ms_load_store := 0;
     ms_instr_fetches := 0; ms_read_req := 0; ms_write_req := 0;
     ms_memory_req := 0 |}.

(** An action that, once the CSV file is open, only appends to it and
    writes nothing to standard output. *)
Definition file_grows {A : Type} (m : IO A) : Prop :=
  ∀ (w : world) (f : string),
    csv_file w = Some f →
    ∃ s, (m w).1 = mkworld (stdout w) (Some (f +:+ s)).


(** A log whose quotient overflows, and a run that meets it after a
    failed benchmark. *)
Definition huge_log : string :=
  "retired instructions: " +:+ pretty (2 ^ 1024) +:+ NL
  +:+ "total CPU cycles: 1" +:+ NL.

Definition one_overflows : env :=
  mkenv (Some "embench") (Some "run") "/home/len5"
        (Some ([("crc.log", "Program exit with code: 1 (")]
               ++ ("big.log", huge_log) :: [])).

(** A run in which a whitelisted benchmark fails and another one
    succeeds. *)
Definition whitelisted_failure : env :=
  mkenv (Some "embench") (Some "run") "/home/len5"
        (Some [("cubic.log", "Program exit with code: 1 (");
               ("crc.log", "Program exit with code: 0 (")]).

(** A run in which the first benchmark fails and the second one
    succeeds, neither being whitelisted. *)
Definition failed_then_ok : env :=
  mkenv (Some "embench") (Some "run") "/home/len5"
        (Some [("aha.log", "Program exit with code: 1 (");
               ("crc.log", "Program exit with code: 0 (")]).

(** A successful benchmark whose jumps are 4300 nines, the most digits
    that [int] reads by default; with one branch the sum takes 4301. *)
Definition long_sum_log : string :=
  "Program exit with code: 0 (" +:+ NL
  +:+ "- jumps: " +:+ repeat_char "9" 4300 +:+ " (" +:+ NL
  +:+ "- branches: 1 (".

Definition long_sum : env :=
  mkenv (Some "embench") (Some "run") "/home/len5"
        (Some [("aha.log", long_sum_log)]).

(** * Properties *)

(** ** Strings: length, substring, index *)

Lemma string_length_app (s1 s2 : string) :
  String.length (s1 +:+ s2) = (String.length s1 + String.length s2)%nat.
Proof.
  induction s1 as [|c s1 IH]; [done|].
  change (S (String.length (s1 +:+ s2)) = S (String.length s1 + String.length s2)).
  by f_equal.
Qed.

Lemma string_app_nil_r (s : string) : s +:+ "" = s.
Proof.
  induction s as [|c s IH]; [done|].
  change (String c (s +:+ "") = String c s). by f_equal.
Qed.

Lemma string_app_assoc (s1 s2 s3 : string) : (s1 +:+ s2) +:+ s3 = s1 +:+ s2 +:+ s3.
Proof.
  induction s1 as [|c s1 IH]; [done|].
  change (String c ((s1 +:+ s2) +:+ s3) = String c (s1 +:+ s2 +:+ s3)).
  by f_equal.
Qed.

Lemma substring_nil (n m : nat) : String.substring n m "" = "".
Proof. by destruct n, m. Qed.

Lemma substring_zero (n : nat) (s : string) : String.substring n 0 s = "".
Proof.
  revert n. induction s as [|c s IH]; intros [|n]; simpl; auto.
Qed.

Lemma substring_all (s : string) : String.substring 0 (String.length s) s = s.
Proof. induction s as [|c s IH]; simpl; [done|]. by f_equal. Qed.

Lemma substring_length (n m : nat) (s : string) :
  String.length (String.substring n m s)
  = Nat.min m (String.length s - n).
Proof.
  revert n m. induction s as [|c s IH]; intros n m.
  - rewrite substring_nil. simpl. lia.
  - destruct n as [|n].
    + destruct m as [|m]; simpl; [done|]. rewrite IH. lia.
    + simpl. rewrite IH. done.
Qed.

(** A string is what comes before position [n] followed by the rest. *)
Lemma substring_split (n : nat) (s : string) :
  s = String.substring 0 n s +:+ String.substring n (String.length s - n) s.
Proof.
  revert n. induction s as [|c s IH]; intros n.
  - by rewrite !substring_nil.
  - destruct n as [|n].
    + simpl. by rewrite substring_all.
    + change (String c s
              = String c (String.substring 0 n s
                          +:+ String.substring n (String.length s - n) s)).
      f_equal. apply IH.
Qed.

Lemma substring_app_skip (p s : string) (k m : nat) :
  String.substring (String.length p + k) m (p +:+ s) = String.substring k m s.
Proof. induction p as [|c p IH]; [done|]. exact IH. Qed.



Lemma index_succ (n : nat) (sub : string) (c : ascii) (s : string) :
  String.index (S n) sub (String c s) = S <$> String.index n sub s.
Proof. simpl. by destruct (String.index n sub s). Qed.

Lemma index_app_skip (p s sub : string) (k : nat) :
  String.index (String.length p + k) sub (p +:+ s)
  = (fun i => String.length p + i)%nat <$> String.index k sub s.
Proof.
  induction p as [|c p IH].
  - change (String.index k sub s = (fun i => i) <$> String.index k sub s).
    by destruct (String.index k sub s).
  - change (String.index (S (String.length p + k)) sub (String c (p +:+ s))
            = (fun i => S (String.length p + i)) <$> String.index k sub s).
    rewrite index_succ, IH. by destruct (String.index k sub s).
Qed.

Lemma index_ge (n i : nat) (sub s : string) :
  String.index n sub s = Some i → (n ≤ i)%nat.
Proof.
  revert n i. induction s as [|c s IH]; intros n i.
  - destruct n; simpl; [|done]. destruct sub; [|done]. intros [= <-]. lia.
  - destruct n as [|n].
    + lia.
    + rewrite index_succ. destruct (String.index n sub s) eqn:E; [|done].
      intros [= <-]. apply IH in E. lia.
Qed.

Lemma index_bound (n i : nat) (sub s : string) :
  String.index n sub s = Some i → (i + String.length sub ≤ String.length s)%nat.
Proof.
  intros Hi. pose proof (String.index_correct1 _ _ _ _ Hi) as Hsub.
  apply (f_equal String.length) in Hsub. rewrite substring_length in Hsub.
  destruct sub as [|a sub].
  - clear Hsub. revert n i Hi. induction s as [|c s IH]; intros n i.
    + destruct n; simpl; [|done]. intros [= <-]. simpl. lia.
    + destruct n as [|n].
      * simpl. intros [= <-]. simpl. lia.
      * rewrite index_succ. destruct (String.index n "" s) eqn:E; [|done].
        intros [= <-]. apply IH in E. simpl in *. lia.
  - assert (0 < String.length (String a sub))%nat by (simpl; lia). lia.
Qed.

Lemma of_nat_ltb_0 (n : nat) : (Z.of_nat n <? 0) = false.
Proof. apply Z.ltb_ge. lia. Qed.

(** [find] in terms of occurrences: what it returns is the first place
    at or after [start] where [sub] occurs, and -1 says there is none. *)
Lemma py_find_found (s sub : string) (start : nat) (i : nat) :
  py_find s sub (Z.of_nat start) = Z.of_nat i →
  (start ≤ i)%nat ∧ occurs_at sub s i
  ∧ ∀ p, (start ≤ p < i)%nat → ¬ occurs_at sub s p.
Proof.
  unfold py_find, occurs_at.
  rewrite of_nat_ltb_0.
  rewrite Nat2Z.id.
  destruct (String.index start sub s) as [k|] eqn:E; [|lia].
  intros Hk. apply Nat2Z.inj in Hk. subst k.
  split; [by eapply index_ge|]. split; [by eapply String.index_correct1|].
  intros p [H1 H2]. by eapply String.index_correct2.
Qed.


Lemma py_find_range (s sub : string) (start : Z) :
  py_find s sub start = -1
  ∨ ∃ i : nat, py_find s sub start = Z.of_nat i
               ∧ (i + String.length sub ≤ String.length s)%nat.
Proof.
  unfold py_find.
  destruct (String.index _ sub s) as [k|] eqn:E; [right|by left].
  exists k. split; [done|]. by eapply index_bound.
Qed.

(** Slices with both ends inside the string, and with an open end. *)
Lemma py_slice_from (s : string) (i : nat) :
  (i ≤ String.length s)%nat →
  py_slice s (Some (Z.of_nat i)) None
  = String.substring i (String.length s - i) s.
Proof.
  intros Hi. unfold py_slice, adjust_index, py_len. simpl.
  rewrite !of_nat_ltb_0.
  rewrite Z.min_l by lia. rewrite Z.min_id.
  rewrite Nat2Z.id. f_equal. lia.
Qed.

Lemma py_slice_whole (s : string) : py_slice s (Some 0) None = s.
Proof.
  change 0 with (Z.of_nat 0).
  rewrite py_slice_from by lia.
  rewrite Nat.sub_0_r. apply substring_all.
Qed.

Lemma py_slice_between (s : string) (i j : nat) :
  (i ≤ String.length s)%nat → (j ≤ String.length s)%nat →
  py_slice s (Some (Z.of_nat i)) (Some (Z.of_nat j))
  = String.substring i (j - i) s.
Proof.
  intros Hi Hj. unfold py_slice, adjust_index, py_len. simpl.
  rewrite !of_nat_ltb_0.
  rewrite !Z.min_l by lia.
  rewrite Nat2Z.id. f_equal. lia.
Qed.

(** An end index of -1 stops one character short of the end. *)
Lemma py_slice_minus_one (s : string) (i : nat) :
  (i ≤ String.length s)%nat →
  py_slice s (Some (Z.of_nat i)) (Some (-1))
  = String.substring i (String.length s - 1 - i) s.
Proof.
  intros Hi. unfold py_slice, adjust_index, py_len. simpl.
  rewrite !of_nat_ltb_0.
  rewrite Z.min_l by lia. rewrite Nat2Z.id.
  destruct (String.length s) as [|n] eqn:E.
  - simpl. assert (i = 0)%nat as -> by lia. destruct s; [done|discriminate].
  - rewrite Z.max_l by lia. f_equal. lia.
Qed.


Section Scraper.
Context {cfg : PyConfig}.

(** ** The extractors *)

Lemma extract_scrape (m : metric) (log : string) :
  extract m log = scrape (marker m) (terminator m) (radix m) (fallback_of m) log.
Proof. by destruct m. Qed.

Lemma scrape_missing (M T : string) (base : N) (d : Z) (log : string) :
  py_find log M 0 = -1 → scrape M T base d log = d.
Proof. unfold scrape. by intros ->. Qed.

Lemma scrape_found (M T : string) (base : N) (d : Z) (log : string) (i : nat) :
  py_find log M 0 = Z.of_nat i →
  scrape M T base d log
  = default d (py_int base (py_strip " "
      (py_slice log (Some (Z.of_nat i + py_len M))
                    (Some (py_find log T (Z.of_nat i + py_len M)))))).
Proof.
  unfold scrape. intros ->.
  destruct (Z.eqb_spec (Z.of_nat i) (-1)) as [?|_]; [lia|].
  by destruct (py_int _ _).
Qed.

(** The extractor of a metric whose marker starts at [i], with [j] the
    answer of the search for the terminator. *)
Lemma extract_found (m : metric) (log : string) (i : nat) :
  py_find log (marker m) 0 = Z.of_nat i →
  extract m log
  = default (fallback_of m)
      (py_int (radix m)
         (value_text m log (Z.of_nat i)
            (py_find log (terminator m) (Z.of_nat i + py_len (marker m))))).
Proof.
  intros Hi. rewrite extract_scrape. by rewrite (scrape_found _ _ _ _ _ i).
Qed.

Lemma extract_missing (m : metric) (log : string) :
  py_find log (marker m) 0 = -1 → extract m log = fallback_of m.
Proof. intros Hi. rewrite extract_scrape. by apply scrape_missing. Qed.

(** ** The table *)

Lemma dict_get_set_eq (t : table) (k : string) (r : row) :
  dict_get (dict_set t k r) k = Some r.
Proof.
  induction t as [|[k' r'] t IH]; simpl.
  - by rewrite decide_True.
  - destruct (decide (k' = k)) as [->|Hne]; simpl.
    + by rewrite decide_True.
    + by rewrite decide_False.
Qed.

Lemma dict_get_set_ne (t : table) (k k' : string) (r : row) :
  k ≠ k' → dict_get (dict_set t k r) k' = dict_get t k'.
Proof.
  intros Hne. induction t as [|[k0 r0] t IH]; simpl.
  - by rewrite decide_False.
  - destruct (decide (k0 = k)) as [->|Hne0]; simpl.
    + by rewrite !decide_False.
    + destruct (decide (k0 = k')); [done|]. apply IH.
Qed.

Lemma dict_set_set (t : table) (k : string) (r r' : row) :
  dict_set (dict_set t k r) k r' = dict_set t k r'.
Proof.
  induction t as [|[k0 r0] t IH]; simpl.
  - by rewrite decide_True.
  - destruct (decide (k0 = k)) as [->|Hne]; simpl.
    + by rewrite decide_True.
    + rewrite decide_False by done. by rewrite IH.
Qed.

(** Assigning to a key that is present, with the value it has, changes
    nothing. *)
Lemma dict_set_same (t : table) (k : string) (r : row) :
  dict_get t k = Some r → dict_set t k r = t.
Proof.
  induction t as [|[k0 r0] t IH]; simpl; [done|].
  destruct (decide (k0 = k)) as [->|Hne].
  - by intros [= ->].
  - intros Hg. by rewrite IH.
Qed.

Lemma dict_set_keys_present (t : table) (k : string) (r : row) :
  dict_mem t k = true → (dict_set t k r).*1 = t.*1.
Proof.
  unfold dict_mem. induction t as [|[k0 r0] t IH]; simpl; [done|].
  destruct (decide (k0 = k)) as [->|Hne]; simpl; [done|].
  intros Hm. f_equal. by apply IH.
Qed.

Lemma dict_set_keys_absent (t : table) (k : string) (r : row) :
  dict_mem t k = false → dict_set t k r = t ++ [(k, r)].
Proof.
  unfold dict_mem. induction t as [|[k0 r0] t IH]; simpl; [done|].
  destruct (decide (k0 = k)) as [->|Hne]; simpl; [done|].
  intros Hm. by rewrite IH.
Qed.

Lemma dict_mem_elem (t : table) (k : string) :
  dict_mem t k = true ↔ k ∈ t.*1.
Proof.
  unfold dict_mem. induction t as [|[k0 r0] t IH]; simpl.
  - split; [done|]. by intros ?%elem_of_nil.
  - destruct (decide (k0 = k)) as [->|Hne].
    + split; [|done]. intros _. apply elem_of_cons. by left.
    + rewrite IH, elem_of_cons. split; [by right|]. by intros [?|?].
Qed.

Lemma getitem_insert_eq (m : row) (k : string) (v : pyval) :
  getitem (<[k:=v]> m) k = Ok v.
Proof. unfold getitem. by rewrite lookup_insert_eq. Qed.

Lemma getitem_insert_ne (m : row) (k k' : string) (v : pyval) :
  k ≠ k' → getitem (<[k:=v]> m) k' = getitem m k'.
Proof. intros Hne. unfold getitem. by rewrite lookup_insert_ne. Qed.

Lemma bind_Ok {A B : Type} (a : A) (f : A → result B) : (Ok a ≫= f) = f a.
Proof. done. Qed.

Lemma bind_Raise {A B : Type} (e : exn) (f : A → result B) :
  (Raise e ≫= f) = Raise e.
Proof. done. Qed.

Lemma py_add_int (a b : Z) : py_add (VInt a) (VInt b) = Ok (VInt (a + b)).
Proof. done. Qed.

Lemma py_truediv_int (a b : Z) :
  py_truediv (VInt a) (VInt b) = f ← true_divide a b; Ok (VFloat f).
Proof. done. Qed.

Lemma py_ne_zero_int (a : Z) : py_ne_zero (VInt a) = negb (a =? 0).
Proof. done. Qed.

Ltac read_fields :=
  repeat first [ rewrite getitem_insert_eq
               | rewrite getitem_insert_ne by done
               | rewrite bind_Ok
               | rewrite bind_Raise
               | rewrite py_add_int ].

(** [update_table] in closed form. *)
Lemma update_table_unfold (t : table) (b log : string) :
  update_table t b log
  = ipc ← ipc_of (parse_retired_instructions log) (parse_cycles log);
    Ok (dict_set t b (store_metrics log ipc (default ∅ (dict_get t b)))).
Proof.
  unfold update_table, table_getitem, dict_mem, ipc_of, store_metrics.
  assert (∃ t1, (if match dict_get t b with Some _ => true | None => false end
                 then t else dict_set t b ∅) = t1
                ∧ dict_get t1 b = Some (default ∅ (dict_get t b))
                ∧ ∀ r', dict_set t1 b r' = dict_set t b r') as (t1 & -> & -> & Hset).
  { destruct (dict_get t b) as [r|] eqn:E.
    - exists t. by rewrite E.
    - exists (dict_set t b ∅). rewrite dict_get_set_eq.
      split; [done|]. split; [done|]. intros r'. apply dict_set_set. }
  generalize (default ∅ (dict_get t b)). intros r0.
  read_fields. rewrite py_ne_zero_int.
  destruct (parse_cycles log =? 0); cbn [negb].
  - read_fields. by rewrite Hset.
  - read_fields. rewrite py_truediv_int.
    destruct (true_divide _ _); read_fields; [|done].
    by rewrite Hset.
Qed.


Lemma store_metrics_holds (log : string) (ipc : pyval) (r : row) :
  holds (store_metrics log ipc r) (metrics_of log ipc).
Proof.
  unfold holds, store_metrics, metrics_of; cbn [ms_status ms_instructions
    ms_cycles ms_ipc ms_jumps ms_branches ms_branch_jump ms_loads ms_stores
    ms_load_store ms_instr_fetches ms_read_req ms_write_req ms_memory_req].
  repeat split;
    repeat (rewrite lookup_insert_ne by done); by rewrite lookup_insert_eq.
Qed.

Lemma store_metrics_other (log : string) (ipc : pyval) (r : row) (k : string) :
  k ∉ FIELDS → store_metrics log ipc r !! k = r !! k.
Proof.
  intros Hk. unfold store_metrics.
  repeat (rewrite lookup_insert_ne;
          [|intros <-; apply Hk; unfold FIELDS; set_solver]).
  done.
Qed.

Lemma holds_functional (r : row) (ms ms' : metricset) :
  holds r ms → holds r ms' → ms = ms'.
Proof.
  destruct ms, ms'. unfold holds. simpl. intros H1 H2.
  repeat match goal with
         | H : _ ∧ _ |- _ => destruct H
         end.
  repeat match goal with
         | H1 : ?x = Some _, H2 : ?x = Some _ |- _ =>
             rewrite H1 in H2; injection H2 as ->
         end.
  done.
Qed.

(** Storing the metrics of a log in a row that already holds them leaves
    the row as it is. *)
Lemma store_metrics_idem (log : string) (ipc : pyval) (r : row) :
  store_metrics log ipc (store_metrics log ipc r) = store_metrics log ipc r.
Proof.
  pose proof (store_metrics_holds log ipc r) as H.
  unfold holds, metrics_of in H; cbn [ms_status ms_instructions
    ms_cycles ms_ipc ms_jumps ms_branches ms_branch_jump ms_loads ms_stores
    ms_load_store ms_instr_fetches ms_read_req ms_write_req ms_memory_req] in H.
  destruct H as (H1&H2&H3&H4&H5&H6&H7&H8&H9&H10&H11&H12&H13&H14).
  generalize dependent (store_metrics log ipc r). intros R **.
  unfold store_metrics.
  rewrite (insert_id R "status") by done.
  rewrite (insert_id R "instructions") by done.
  rewrite (insert_id R "cycles") by done.
  rewrite (insert_id R "ipc") by done.
  rewrite (insert_id R "jumps") by done.
  rewrite (insert_id R "branches") by done.
  rewrite (insert_id R "branch/jump") by done.
  rewrite (insert_id R "loads") by done.
  rewrite (insert_id R "stores") by done.
  rewrite (insert_id R "load/store") by done.
  rewrite (insert_id R "instr_fetches") by done.
  rewrite (insert_id R "read_req") by done.
  rewrite (insert_id R "write_req") by done.
  by rewrite (insert_id R "memory_req").
Qed.

(** Whatever the fourteen fields held before is overwritten: two rows
    that agree outside them are made equal. *)
Lemma store_metrics_overwrites (log : string) (ipc : pyval) (r r' : row) :
  (∀ k, k ∉ FIELDS → r !! k = r' !! k) →
  store_metrics log ipc r = store_metrics log ipc r'.
Proof.
  intros Hout. apply map_eq. intros k.
  destruct (decide (k ∈ FIELDS)) as [Hin|Hnotin].
  - pose proof (store_metrics_holds log ipc r) as H.
    pose proof (store_metrics_holds log ipc r') as H'.
    unfold holds in H, H'.
    destruct H as (H1&H2&H3&H4&H5&H6&H7&H8&H9&H10&H11&H12&H13&H14).
    destruct H' as (G1&G2&G3&G4&G5&G6&G7&G8&G9&G10&G11&G12&G13&G14).
    unfold FIELDS in Hin.
    repeat (apply elem_of_cons in Hin as [->|Hin]; [congruence|]).
    inversion Hin.
  - rewrite !store_metrics_other by done. by apply Hout.
Qed.

Lemma round_half_even_near (num den : Z) :
  0 < den → 2 * Z.abs (round_half_even num den * den - num) ≤ den.
Proof.
  intros Hden. unfold round_half_even.
  pose proof (Z.div_mod num den ltac:(lia)) as Hdm.
  pose proof (Z.mod_pos_bound num den Hden) as Hr.
  set (q := num / den) in *. set (r := num mod den) in *.
  destruct (Z.ltb_spec den (2 * r)); simpl.
  - nia.
  - destruct (Z.eqb_spec den (2 * r)); simpl.
    + destruct (Z.odd q); nia.
    + nia.
Qed.

Lemma round_half_even_nonneg (num den : Z) :
  0 ≤ num → 0 < den → 0 ≤ round_half_even num den.
Proof.
  intros Hn Hd. unfold round_half_even.
  pose proof (Z.div_pos num den Hn Hd).
  destruct (_ || _); lia.
Qed.

(** True division returns a float nearest to the quotient, or overflows;
    it divides by zero only when asked to. *)
Lemma true_divide_Ok (a b : Z) (f : pyfloat) :
  true_divide a b = Ok f → b ≠ 0 ∧ float_nearest f a b.
Proof.
  unfold true_divide.
  destruct (Z.eqb_spec b 0) as [?|Hb]; [done|].
  destruct (Z.eqb_spec a 0) as [->|Ha].
  - intros [= <-]. split; [done|]. unfold float_nearest. simpl. lia.
  - match goal with
    | |- context [if ?c then Raise OverflowError else _] => destruct c
    end; [done|].
    intros [= <-]. split; [done|]. unfold float_nearest.
    cbn [fneg fman fexp].
    set (e := Z.max _ (-1074)).
    assert (0 < Z.abs b * 2 ^ Z.max 0 e).
    { apply Z.mul_pos_pos; [lia|]. apply Z.pow_pos_nonneg; lia. }
    split; [done|]. split.
    + apply round_half_even_nonneg; [|done].
      apply Z.mul_nonneg_nonneg; [lia|]. apply Z.pow_nonneg. lia.
    + by apply round_half_even_near.
Qed.

Lemma true_divide_spec (a b : Z) :
  b ≠ 0 →
  true_divide a b = Raise OverflowError
  ∨ ∃ f, true_divide a b = Ok f ∧ float_nearest f a b.
Proof.
  intros Hb. destruct (true_divide a b) as [f|e] eqn:E.
  - right. exists f. split; [done|]. by apply true_divide_Ok in E as [_ ?].
  - left. revert E. unfold true_divide.
    destruct (Z.eqb_spec b 0) as [?|_]; [done|].
    destruct (a =? 0); [done|].
    match goal with
    | |- context [if ?c then Raise OverflowError else _] => destruct c
    end; [|done].
    by intros [= <-].
Qed.

(** Comparing [A / B] with [2^c * 2^k], all scaled to exponents that are
    not negative. *)
Lemma scaled_lt (A B k c s : Z) :
  0 ≤ c → c + Z.max 0 k ≤ s →
  (A * 2 ^ Z.max 0 (- k) < 2 ^ c * (B * 2 ^ Z.max 0 k)
   ↔ A * 2 ^ (s - k - c) < B * 2 ^ s).
Proof.
  intros Hc Hs.
  assert (0 < 2 ^ (s - c - Z.max 0 k)) as Hpos by (apply Z.pow_pos_nonneg; lia).
  assert (2 ^ (s - k - c) = 2 ^ Z.max 0 (- k) * 2 ^ (s - c - Z.max 0 k)) as ->.
  { rewrite <- Z.pow_add_r by lia. f_equal. lia. }
  assert (2 ^ s = 2 ^ c * 2 ^ Z.max 0 k * 2 ^ (s - c - Z.max 0 k)) as ->.
  { rewrite <- !Z.pow_add_r by lia. f_equal. lia. }
  set (P := 2 ^ (s - c - Z.max 0 k)) in *.
  set (X := 2 ^ Z.max 0 (- k)). set (Y := 2 ^ Z.max 0 k). set (C := 2 ^ c).
  split; intros H; nia.
Qed.

Lemma scaled_le (A B k c s : Z) :
  0 ≤ c → c + Z.max 0 k ≤ s →
  (2 ^ c * (B * 2 ^ Z.max 0 k) ≤ A * 2 ^ Z.max 0 (- k)
   ↔ B * 2 ^ s ≤ A * 2 ^ (s - k - c)).
Proof.
  intros Hc Hs. pose proof (scaled_lt A B k c s Hc Hs). lia.
Qed.

Lemma round_half_even_le (num den bound : Z) :
  0 < den → num < bound * den → round_half_even num den ≤ bound.
Proof.
  intros Hden Hlt. unfold round_half_even.
  assert (num / den < bound) by (apply Z.div_lt_upper_bound; lia).
  destruct (_ || _); lia.
Qed.

Lemma round_half_even_ge (num den bound : Z) :
  0 < den → bound * den ≤ num → bound ≤ round_half_even num den.
Proof.
  intros Hden Hle. unfold round_half_even.
  assert (bound ≤ num / den) by (apply Z.div_le_lower_bound; lia).
  destruct (_ || _); lia.
Qed.

(** The quotient of two positive integers lies between two consecutive
    powers of two given by their binary lengths. *)
Lemma quotient_log2 (A B s : Z) :
  0 < A → 0 < B →
  let d := Z.log2 A - Z.log2 B in
  Z.abs d + 2 ≤ s →
  B * 2 ^ s < A * 2 ^ (s - (d - 1)) ∧ A * 2 ^ (s - (d + 1)) < B * 2 ^ s.
Proof.
  intros HA HB d Hs.
  pose proof (Z.log2_spec A HA) as [HA1 HA2].
  pose proof (Z.log2_spec B HB) as [HB1 HB2].
  pose proof (Z.log2_nonneg A). pose proof (Z.log2_nonneg B).
  rewrite <- Z.add_1_r in HA2, HB2.
  split.
  - (* B < 2^(lB+1), 2^lA ≤ A *)
    assert (2 ^ (Z.log2 B + 1) * 2 ^ s = 2 ^ (Z.log2 A) * 2 ^ (s - (d - 1))) as E.
    { rewrite <- !Z.pow_add_r by lia. f_equal. lia. }
    assert (0 < 2 ^ s) by (apply Z.pow_pos_nonneg; lia).
    assert (0 < 2 ^ (s - (d - 1))) by (apply Z.pow_pos_nonneg; lia).
    nia.
  - assert (2 ^ (Z.log2 A + 1) * 2 ^ (s - (d + 1)) = 2 ^ (Z.log2 B) * 2 ^ s) as E.
    { rewrite <- !Z.pow_add_r by lia. f_equal. lia. }
    assert (0 < 2 ^ s) by (apply Z.pow_pos_nonneg; lia).
    assert (0 < 2 ^ (s - (d + 1))) by (apply Z.pow_pos_nonneg; lia).
    nia.
Qed.

(** The float that true division returns is a double: 53 bits of
    mantissa at most, an exponent not below the subnormal one, a full
    mantissa unless it is subnormal, and a value below [2^1024]. *)
Lemma true_divide_nonzero (a b : Z) (f : pyfloat) :
  a ≠ 0 → true_divide a b = Ok f →
  -1074 ≤ fexp f
  ∧ fman f ≤ 2 ^ 53
  ∧ (-1074 < fexp f → 2 ^ 52 ≤ fman f)
  ∧ (0 ≤ fexp f → fman f * 2 ^ fexp f < 2 ^ 1024).
Proof.
  intros Ha. unfold true_divide.
  destruct (Z.eqb_spec b 0) as [?|Hb]; [done|].
  destruct (Z.eqb_spec a 0) as [?|_]; [done|].
  set (A := Z.abs a). set (B := Z.abs b).
  assert (0 < A) as HA by (subst A; lia).
  assert (0 < B) as HB by (subst B; lia).
  clearbody A B. clear Ha Hb.
  set (d := Z.log2 A - Z.log2 B).
  set (s := Z.abs d + 1200).
  assert (Z.abs d + 2 ≤ s) as Hs2 by (subst s; lia).
  destruct (quotient_log2 A B s HA HB Hs2) as [Hlo Hhi].
  fold d in Hlo, Hhi.
  set (e0 := if A * 2 ^ Z.max 0 (- d) <? B * 2 ^ Z.max 0 d
             then d - 53 else d - 52).
  assert (Z.max 0 d ≤ s) as Hsd by (subst s; lia).
  assert (A * 2 ^ (s - (e0 + 53)) < B * 2 ^ s
          ∧ B * 2 ^ s ≤ A * 2 ^ (s - (e0 + 52))) as [F1 F2].
  { pose proof (scaled_lt A B d 0 s ltac:(done) Hsd) as Hsc.
    rewrite Z.pow_0_r, Z.mul_1_l, Z.sub_0_r in Hsc.
    subst e0. destruct (Z.ltb_spec (A * 2 ^ Z.max 0 (- d)) (B * 2 ^ Z.max 0 d))
      as [Ht|Ht].
    - apply Hsc in Ht.
      replace (s - (d - 53 + 53)) with (s - d) by (clear; lia).
      replace (s - (d - 53 + 52)) with (s - (d - 1)) by (clear; lia).
      split; [exact Ht|]. apply Z.lt_le_incl. exact Hlo.
    - replace (s - (d - 52 + 53)) with (s - (d + 1)) by (clear; lia).
      replace (s - (d - 52 + 52)) with (s - d) by (clear; lia).
      split; [exact Hhi|].
      apply Z.le_ngt. intros Hlt. apply Hsc in Hlt.
      apply (Z.lt_irrefl (A * 2 ^ Z.max 0 (- d))).
      eapply Z.lt_le_trans; [exact Hlt|exact Ht]. }
  assert (e0 ≤ d - 52) as He0.
  { subst e0. destruct (_ <? _); clear; lia. }
  clear Hlo Hhi. clearbody e0.
  set (e := Z.max e0 (-1074)).
  assert (-1074 ≤ e ∧ e0 ≤ e ∧ (-1074 < e → e = e0)
          ∧ 53 + Z.max 0 e ≤ s ∧ 52 + Z.max 0 e0 ≤ s) as (E1 & E2 & E3 & E4 & E5).
  { subst e s. clear -He0. lia. }
  clearbody e.
  set (den := B * 2 ^ Z.max 0 e).
  assert (0 < den) as Hden.
  { subst den. apply Z.mul_pos_pos; [done|].
    apply Z.pow_pos_nonneg; [done|]. apply Z.le_max_l. }
  set (m := round_half_even (A * 2 ^ Z.max 0 (- e)) den).
  assert (m ≤ 2 ^ 53) as Hm53.
  { apply round_half_even_le; [done|].
    apply (scaled_lt A B e 53 s); [done|exact E4|].
    eapply Z.le_lt_trans; [|exact F1].
    apply Z.mul_le_mono_nonneg_l; [by apply Z.lt_le_incl|].
    apply Z.pow_le_mono_r; [done|]. clear -E2. lia. }
  assert (-1074 < e → 2 ^ 52 ≤ m) as Hm52.
  { intros He. apply E3 in He. subst m den. rewrite He.
    apply round_half_even_ge.
    - apply Z.mul_pos_pos; [done|].
      apply Z.pow_pos_nonneg; [done|]. apply Z.le_max_l.
    - apply (scaled_le A B e0 52 s); [done|exact E5|].
      by replace (s - e0 - 52) with (s - (e0 + 52)) by (clear; lia). }
  clearbody m. clear F1 F2 Hden. clearbody den.
  destruct (Z.leb_spec 0 e) as [He|He]; cbn [andb].
  - destruct (Z.leb_spec (2 ^ 1024) (m * 2 ^ e)) as [Hov|Hov]; [done|].
    intros [= <-]. cbn [fexp fman]. done.
  - intros [= <-]. cbn [fexp fman].
    split; [done|]. split; [done|]. split; [done|].
    intros He'. exfalso. clear -He He'. lia.
Qed.

Lemma true_divide_double (a b : Z) (f : pyfloat) :
  true_divide a b = Ok f → is_double f.
Proof.
  intros Hf. destruct (Z.eq_dec a 0) as [->|Ha].
  - left. revert Hf. unfold true_divide.
    destruct (b =? 0); [done|]. by intros [= <-].
  - right. pose proof (true_divide_Ok _ _ _ Hf) as (_ & _ & Hm & _).
    destruct (true_divide_nonzero a b f Ha Hf) as (H1 & H2 & H3 & H4).
    done.
Qed.

Lemma ipc_of_spec (instructions cycles : Z) :
  ipc_of instructions cycles ≠ Raise ZeroDivisionError
  ∧ (cycles = 0 → ipc_of instructions cycles = Ok (VInt 0))
  ∧ (cycles ≠ 0 →
     ipc_of instructions cycles = Raise OverflowError
     ∨ ∃ f, true_divide instructions cycles = Ok f
            ∧ ipc_of instructions cycles = Ok (VFloat f)
            ∧ float_nearest f instructions cycles
            ∧ is_double f).
Proof.
  unfold ipc_of. destruct (Z.eqb_spec cycles 0) as [->|Hc].
  - split; [done|]. split; [done|]. by intros [].
  - destruct (true_divide_spec instructions cycles Hc) as [E|(f & E & Hf)].
    + rewrite E. split; [done|]. split; [done|]. intros _. by left.
    + pose proof (true_divide_double _ _ _ E) as Hd. rewrite E.
      split; [done|]. split; [done|]. intros _. right. by exists f.
Qed.

Lemma metrics_of_consistent (log : string) (ipc : pyval) :
  ipc_of (parse_retired_instructions log) (parse_cycles log) = Ok ipc →
  consistent (metrics_of log ipc).
Proof.
  intros Hipc. unfold consistent, metrics_of. simpl.
  split; [done|]. split; [done|]. split; [lia|].
  unfold ipc_of in Hipc.
  destruct (Z.eqb_spec (parse_cycles log) 0) as [E|E].
  - left. split; [done|]. by injection Hipc as <-.
  - right. split; [done|].
    destruct (true_divide _ _) as [f|]; [|done].
    exists f. split; [done|]. by injection Hipc as <-.
Qed.

(** What a successful call returns. *)
Lemma update_table_Ok (t : table) (b log : string) (t' : table) :
  update_table t b log = Ok t' ↔
  ∃ ipc, ipc_of (parse_retired_instructions log) (parse_cycles log) = Ok ipc
         ∧ t' = dict_set t b (store_metrics log ipc (default ∅ (dict_get t b))).
Proof.
  rewrite update_table_unfold.
  destruct (ipc_of _ _) as [ipc|e]; simpl.
  - split.
    + intros [= <-]. by exists ipc.
    + by intros (? & [= <-] & ->).
  - split; [done|]. by intros (? & ? & _).
Qed.

Lemma update_table_row_ok (t : table) (b log : string) (t' : table) :
  update_table t b log = Ok t' →
  ∃ r, dict_get t' b = Some r ∧ row_ok r.
Proof.
  intros (ipc & Hipc & ->)%update_table_Ok.
  eexists. split; [apply dict_get_set_eq|].
  exists (metrics_of log ipc). split; [apply store_metrics_holds|].
  by apply metrics_of_consistent.
Qed.



(** ** The report start *)

Lemma occurs_at_0_index (sub s : string) :
  sub ≠ "" → occurs_at sub s 0 → String.index 0 sub s = Some 0%nat.
Proof.
  unfold occurs_at. intros Hne Hocc.
  destruct s as [|c s].
  - rewrite substring_nil in Hocc. congruence.
  - apply String.prefix_correct in Hocc.
    change (String.index 0 sub (String c s))
      with (if String.prefix sub (String c s) then Some 0%nat
            else match String.index 0 sub s with
                 | Some n => Some (S n)
                 | None => None
                 end).
    by rewrite Hocc.
Qed.




(** ** Exit status *)

Lemma eqb_bool_decide (a b : Z) : (a =? b) = bool_decide (a = b).
Proof.
  destruct (Z.eqb_spec a b).
  - by rewrite bool_decide_eq_true_2.
  - by rewrite bool_decide_eq_false_2.
Qed.

Lemma update_table_status (t : table) (b log : string) (t' : table) :
  update_table t b log = Ok t' →
  ∃ r, dict_get t' b = Some r
       ∧ r !! "status" = Some (VBool (bool_decide (parse_status log = 0))).
Proof.
  intros (ipc & _ & ->)%update_table_Ok.
  eexists. split; [apply dict_get_set_eq|].
  rewrite <- eqb_bool_decide.
  apply (store_metrics_holds log ipc).
Qed.

(** ** Reading hexadecimal *)

Lemma hex_digit_facts (c : ascii) (d : N) :
  HexString.ascii_to_digit c = Some d →
  Ascii.eqb c "_" = false ∧ digit_value c = Some d ∧ (d <? 16)%N = true
  ∧ c ≠ "x"%char ∧ c ≠ "X"%char.
Proof.
  destruct c as [[] [] [] [] [] [] [] []]; intros H; vm_compute in H;
    try discriminate H; injection H as <-; vm_compute;
    repeat split; congruence.
Qed.

Lemma scan_digits_hex (s : string) :
  ∀ acc nd : N,
    all_hex_digits s = true →
    scan_digits 16 false acc nd s
    = Some (HexString.Raw.to_N s acc, (nd + N.of_nat (String.length s))%N, "").
Proof.
  induction s as [|c s IH]; intros acc nd Hs.
  - simpl. do 3 f_equal. lia.
  - cbn [all_hex_digits] in Hs.
    destruct (HexString.ascii_to_digit c) as [d|] eqn:Hd; [|done].
    destruct (hex_digit_facts c d Hd) as (Hus & Hdv & Hlt & _).
    cbn [scan_digits HexString.Raw.to_N]. rewrite Hus, Hdv, Hlt, Hd.
    replace (acc * 16 + d)%N with (d + 16 * acc)%N by lia.
    rewrite (IH _ _ Hs). cbn [String.length].
    by replace (nd + 1 + N.of_nat (String.length s))%N
      with (nd + N.of_nat (S (String.length s)))%N by lia.
Qed.

Lemma py_int_16_head (c : ascii) (d : N) (s' : string) :
  HexString.ascii_to_digit c = Some d →
  (∀ x s'', s' = String x s'' → x ≠ "x"%char ∧ x ≠ "X"%char) →
  py_int 16 (String c s')
  = match scan_digits 16 false 0 0 (String c s') with
    | None => None
    | Some (v, nd, rest) =>
        if (nd =? 0)%N then None
        else match skip_space rest with
             | EmptyString => Some (Z.of_N v)
             | _ => None
             end
    end.
Proof.
  intros Hd Hx.
  destruct c as [[] [] [] [] [] [] [] []]; vm_compute in Hd;
    try discriminate Hd; try reflexivity.
  destruct s' as [|x s'']; [reflexivity|].
  destruct (Hx x s'' eq_refl) as [H1 H2].
  unfold py_int.
  assert (skip_space (String "0" (String x s'')) = String "0" (String x s''))
    as -> by reflexivity.
  assert (split_sign (String "0" (String x s''))
          = (false, String "0" (String x s''))) as -> by reflexivity.
  assert (skip_radix_prefix 16 (String "0" (String x s''))
          = String "0" (String x s'')) as ->.
  { unfold skip_radix_prefix.
    by rewrite (proj2 (Ascii.eqb_neq x "x") H1), (proj2 (Ascii.eqb_neq x "X") H2). }
  reflexivity.
Qed.

(** [int(text, 16)] on a text made of hexadecimal digits is the number
    the Standard Library's reader of hexadecimal gives. *)
Lemma py_int_hex (s : string) :
  s ≠ "" → all_hex_digits s = true →
  py_int 16 s = Some (Z.of_N (HexString.Raw.to_N s 0)).
Proof.
  intros Hne Hs. destruct s as [|c s']; [done|].
  pose proof Hs as Hs0. cbn [all_hex_digits] in Hs0.
  destruct (HexString.ascii_to_digit c) as [d|] eqn:Hd; [|done].
  rewrite (py_int_16_head c d s' Hd).
  - rewrite (scan_digits_hex _ 0 0 Hs).
    replace (0 + N.of_nat (String.length (String c s')) =? 0)%N with false
      by (symmetry; apply N.eqb_neq; simpl; lia).
    done.
  - intros x s'' ->. cbn [all_hex_digits] in Hs0.
    destruct (HexString.ascii_to_digit x) as [dx|] eqn:Hdx; [|done].
    by destruct (hex_digit_facts x dx Hdx) as (_ & _ & _ & ? & ?).
Qed.

(** A text that starts with a visible character which is neither a sign
    nor a hexadecimal digit is no number in base 16. *)
Lemma py_int_16_unreadable (c : ascii) (s' : string) :
  (33 ≤ N_of_ascii c ≤ 126)%N → c ≠ "+"%char → c ≠ "-"%char →
  HexString.ascii_to_digit c = None →
  py_int 16 (String c s') = None.
Proof.
  intros Hr Hp Hm Hd.
  destruct c as [[] [] [] [] [] [] [] []]; vm_compute in Hd;
    try discriminate Hd; try reflexivity;
    first [by destruct Hp | by destruct Hm | simpl in Hr; lia].
Qed.

(** C2: the text after the exit-status marker, up to the next opening
    parenthesis and stripped of spaces, is read as a base-16 integer;
    the status of the benchmark is true exactly when that integer is 0;
    a missing marker or an unreadable number gives the raw status 1,
    hence a false status.  Base 16 means this: a text made of
    hexadecimal digits, in either case, gives the number the Standard
    Library's [HexString] reads in it ([1F] gives 31), while an empty
    text, or one that starts with a visible character that is neither a
    sign nor a hexadecimal digit ([zz]), gives 1. *)
Theorem exit_status_parsed_base16 (log : string) :
  (py_find log (marker Status) 0 = -1 → parse_status log = 1)
  ∧ (∀ i j : nat,
       py_find log (marker Status) 0 = Z.of_nat i →
       py_find log "(" (Z.of_nat i + 24) = Z.of_nat j →
       (i + 24 ≤ j)%nat ∧ occurs_at "(" log j
       ∧ (∀ p, (i + 24 ≤ p < j)%nat → ¬ occurs_at "(" log p)
       ∧ parse_status log
         = default 1 (py_int 16 (py_strip " "
                        (String.substring (i + 24) (j - (i + 24)) log))))
  ∧ (∀ (t : table) (b : string) (t' : table),
       update_table t b log = Ok t' →
       ∃ r, dict_get t' b = Some r
            ∧ r !! "status" = Some (VBool (bool_decide (parse_status log = 0))))
  ∧ (∀ (i j : nat) (text : string),
       py_find log (marker Status) 0 = Z.of_nat i →
       py_find log "(" (Z.of_nat i + 24) = Z.of_nat j →
       text = py_strip " " (String.substring (i + 24) (j - (i + 24)) log) →
       (text ≠ "" → all_hex_digits text = true →
        parse_status log = Z.of_N (HexString.Raw.to_N text 0))
       ∧ (text = "" → parse_status log = 1)
       ∧ (∀ (c : ascii) (rest : string),
            text = String c rest →
            (33 ≤ N_of_ascii c ≤ 126)%N → c ≠ "+"%char → c ≠ "-"%char →
            HexString.ascii_to_digit c = None →
            parse_status log = 1)).
Proof.
  assert (∀ i j : nat,
            py_find log (marker Status) 0 = Z.of_nat i →
            py_find log "(" (Z.of_nat i + 24) = Z.of_nat j →
            (i + 24 ≤ j)%nat ∧ occurs_at "(" log j
            ∧ (∀ p, (i + 24 ≤ p < j)%nat → ¬ occurs_at "(" log p)
            ∧ parse_status log
              = default 1 (py_int 16 (py_strip " "
                             (String.substring (i + 24) (j - (i + 24)) log))))
    as Hread.
  { intros i j Hi Hj.
    change (Z.of_nat i + 24) with (Z.of_nat i + Z.of_nat 24) in Hj.
    rewrite <- Nat2Z.inj_add in Hj.
    destruct (py_find_found _ _ _ _ Hj) as (Hle & Hocc & Hfirst).
    split; [done|]. split; [done|]. split; [done|].
    change (parse_status log) with (extract Status log).
    rewrite (extract_found Status log i Hi). unfold value_text.
    change (terminator Status) with "(".
    change (py_len (marker Status)) with (Z.of_nat 24).
    rewrite <- Nat2Z.inj_add, Hj.
    destruct (py_find_range log "(" (Z.of_nat (i + 24))) as [E|(j' & E & Hb)];
      [lia|].
    assert (j' = j) as -> by lia. simpl in Hb.
    by rewrite py_slice_between by lia. }
  split; [apply (extract_missing Status)|].
  split; [exact Hread|].
  split; [intros t b t'; apply update_table_status|].
  intros i j text Hi Hj Htext.
  destruct (Hread i j Hi Hj) as (_ & _ & _ & ->). rewrite <- Htext.
  split; [|split].
  - intros Hne Hhex. by rewrite py_int_hex.
  - by intros ->.
  - intros c rest -> Hr Hp Hm Hd. by rewrite py_int_16_unreadable.
Qed.

(** ** Defaults *)

(** C3, as the code has it: a metric whose marker is missing, or whose
    text does not read as an integer in its base, comes out as its
    default, 1 for the exit status and 0 for every counter, and nothing
    is raised.  For a log without the exit-status marker the whole text
    is searched: the status is false, and each counter whose own marker
    is missing too is 0. *)
Theorem missing_or_malformed_gives_default (m : metric) (log : string) :
  (py_find log (marker m) 0 = -1 → extract m log = fallback_of m)
  ∧ (∀ i : nat,
       py_find log (marker m) 0 = Z.of_nat i →
       py_int (radix m)
         (value_text m log (Z.of_nat i)
            (py_find log (terminator m) (Z.of_nat i + py_len (marker m))))
       = None →
       extract m log = fallback_of m)
  ∧ fallback_of m = (if decide (m = Status) then 1 else 0)
  ∧ (py_find log (marker Status) 0 = -1 →
     report_of log = log
     ∧ parse_status (report_of log) = 1
     ∧ (py_find log (marker m) 0 = -1 → extract m (report_of log) = fallback_of m)
     ∧ ∀ (t : table) (b : string) (t' : table),
         update_table t b (report_of log) = Ok t' →
         ∃ r, dict_get t' b = Some r ∧ r !! "status" = Some (VBool false)).
Proof.
  split; [apply extract_missing|].
  split.
  { intros i Hi Hnone. by rewrite (extract_found m log i Hi), Hnone. }
  split; [by destruct m|].
  intros Habs.
  assert (report_of log = log) as Hrep.
  { unfold report_of, get_report_start.
    change "Program exit with code: " with (marker Status).
    rewrite Habs. simpl. apply py_slice_whole. }
  rewrite Hrep. split; [done|].
  assert (parse_status log = 1) as Hst by apply (extract_missing Status log Habs).
  split; [done|]. split; [apply extract_missing|].
  intros t b t' (r & Hr & Hs)%update_table_status.
  exists r. split; [done|]. by rewrite Hs, Hst.
Qed.


(** ** A terminator that never comes *)

Lemma py_find_app_skip (p s sub : string) (k : nat) :
  py_find (p +:+ s) sub (Z.of_nat (String.length p + k))
  = match String.index k sub s with
    | Some j => Z.of_nat (String.length p + j)
    | None => -1
    end.
Proof.
  unfold py_find. rewrite of_nat_ltb_0, Nat2Z.id, index_app_skip.
  by destruct (String.index k sub s).
Qed.

Lemma extract_unterminated (m : metric) (log : string) (i : nat) :
  py_find log (marker m) 0 = Z.of_nat i →
  py_find log (terminator m) (Z.of_nat i + py_len (marker m)) = -1 →
  extract m log
  = default (fallback_of m)
      (py_int (radix m)
         (py_strip " "
            (String.substring (i + String.length (marker m))
               (String.length log - 1 - (i + String.length (marker m)))
               log))).
Proof.
  intros Hi Hj. rewrite (extract_found m log i Hi), Hj. unfold value_text.
  destruct (py_find_range log (marker m) 0) as [E|(i' & E & Hb)]; [lia|].
  assert (i' = i) as -> by lia.
  unfold py_len. rewrite <- Nat2Z.inj_add.
  by rewrite py_slice_minus_one by lia.
Qed.

(** C10: when the marker of a metric is present and its terminator does
    not occur after it, the value is read from the text that runs from
    the end of the marker to the last character but one of the log (the
    end index of the slice is -1).  So a log that ends in
    [total CPU cycles: 500], with no newline after it, gives 50 cycles,
    and one that ends in [Program exit with code: 0], with no opening
    parenthesis, gives the raw status 1, that is a false status. *)
Theorem missing_terminator_drops_last_char :
  (∀ (m : metric) (log : string) (i : nat),
     py_find log (marker m) 0 = Z.of_nat i →
     py_find log (terminator m) (Z.of_nat i + py_len (marker m)) = -1 →
     extract m log
     = default (fallback_of m)
         (py_int (radix m)
            (py_strip " "
               (String.substring (i + String.length (marker m))
                  (String.length log - 1 - (i + String.length (marker m)))
                  log))))
  ∧ (∀ pre : string,
       py_find (pre +:+ "total CPU cycles: 500") (marker Cycles) 0
       = Z.of_nat (String.length pre) →
       parse_cycles (pre +:+ "total CPU cycles: 500") = 50)
  ∧ (∀ pre : string,
       py_find (pre +:+ "Program exit with code: 0") (marker Status) 0
       = Z.of_nat (String.length pre) →
       parse_status (pre +:+ "Program exit with code: 0") = 1
       ∧ (parse_status (pre +:+ "Program exit with code: 0") =? 0) = false).
Proof.
  split; [exact extract_unterminated|]. split.
  - intros pre Hi.
    change (parse_cycles ?s) with (extract Cycles s).
    rewrite (extract_unterminated Cycles _ _ Hi).
    + rewrite string_length_app.
      replace (String.length pre + String.length "total CPU cycles: 500" - 1
               - (String.length pre + String.length (marker Cycles)))%nat
        with 2%nat by (simpl; lia).
      by rewrite substring_app_skip.
    + unfold py_len. rewrite <- Nat2Z.inj_add. by rewrite py_find_app_skip.
  - intros pre Hi.
    assert (parse_status (pre +:+ "Program exit with code: 0") = 1) as ->;
      [|done].
    change (parse_status ?s) with (extract Status s).
    rewrite (extract_unterminated Status _ _ Hi).
    + rewrite string_length_app.
      replace (String.length pre + String.length "Program exit with code: 0" - 1
               - (String.length pre + String.length (marker Status)))%nat
        with 0%nat by (simpl; lia).
      by rewrite substring_zero.
    + unfold py_len. rewrite <- Nat2Z.inj_add. by rewrite py_find_app_skip.
Qed.

(** ** Derived fields *)

(** When the divisor divides the dividend and the quotient has at most
    53 bits, true division is exact. *)
Lemma true_divide_exact (a b q : Z) (f : pyfloat) :
  true_divide a b = Ok f → a = q * b → Z.abs q ≤ 2 ^ 52 →
  fman f * 2 ^ Z.max 0 (fexp f) = Z.abs q * 2 ^ Z.max 0 (- fexp f)
  ∧ (q ≠ 0 → fneg f = (q <? 0)).
Proof.
  intros Hf Ha Hq.
  pose proof (true_divide_Ok _ _ _ Hf) as (Hb & Hsign & Hm0 & Hnear).
  destruct (Z.eq_dec q 0) as [->|Hq0].
  { rewrite Z.mul_0_l in Ha. subst a. revert Hf. unfold true_divide.
    destruct (Z.eqb_spec b 0) as [?|_]; [done|]. simpl.
    intros [= <-]. by split. }
  assert (a ≠ 0) as Ha0 by (subst a; by apply Z.neq_mul_0).
  pose proof (true_divide_nonzero _ _ _ Ha0 Hf) as (He & _ & Hnorm & _).
  split.
  2:{ intros _. rewrite Hsign. subst a.
      destruct (Z.ltb_spec (q * b) 0), (Z.ltb_spec b 0), (Z.ltb_spec q 0);
        simpl; try done; exfalso; nia. }
  assert (Z.abs a = Z.abs q * Z.abs b) as Habs by (subst a; apply Z.abs_mul).
  rewrite Habs in Hnear. clear Hsign Ha Ha0 Hf Habs.
  set (Q := Z.abs q) in *. set (B := Z.abs b) in *.
  assert (0 < Q) as HQ by (unfold Q; lia).
  assert (0 < B) as HB by (unfold B; lia).
  clearbody Q B. clear q b Hb Hq0.
  set (m := fman f) in *. set (e := fexp f) in *. clearbody m e. clear f.
  set (K := 2 ^ 52) in *. assert (2 ≤ K) as HK by done. clearbody K.
  destruct (Z.le_gt_cases e 0) as [Hle|Hgt].
  - rewrite (Z.max_l 0 e) in * by lia. rewrite (Z.max_r 0 (- e)) in * by lia.
    rewrite Z.pow_0_r, !Z.mul_1_r in *.
    assert (0 < 2 ^ (- e)) as HR by (apply Z.pow_pos_nonneg; lia).
    set (R := 2 ^ (- e)) in *. clearbody R. clear - Hnear HR HQ HB Hm0. nia.
  - exfalso. specialize (Hnorm ltac:(lia)).
    rewrite (Z.max_r 0 e) in * by lia. rewrite (Z.max_l 0 (- e)) in * by lia.
    rewrite Z.pow_0_r, !Z.mul_1_r in *.
    assert (2 ≤ 2 ^ e) as HP.
    { change 2 with (2 ^ 1) at 1. apply Z.pow_le_mono_r; lia. }
    set (P := 2 ^ e) in *. clearbody P. clear - Hnear HP HQ HB Hnorm Hq HK. nia.
Qed.

(** C4: in the row that [update_table] writes, [ipc] is the integer 0
    when [cycles] is 0, and no division is attempted; otherwise [ipc] is
    the quotient of [instructions] by [cycles], as a nearest double: a
    mantissa of 53 bits (full, unless the exponent is the subnormal one)
    within half a unit in the last place of the exact quotient, and the
    exact quotient itself when [cycles] divides [instructions] and the
    quotient has at most 53 bits.  The call never fails with a division
    by zero. *)
Theorem ipc_zero_guard (t : table) (b log : string) :
  update_table t b log ≠ Raise ZeroDivisionError
  ∧ (parse_cycles log = 0 →
     ∃ t' r, update_table t b log = Ok t'
             ∧ dict_get t' b = Some r
             ∧ r !! "cycles" = Some (VInt 0)
             ∧ r !! "ipc" = Some (VInt 0))
  ∧ (parse_cycles log ≠ 0 →
     ∀ t', update_table t b log = Ok t' →
     ∃ r f, dict_get t' b = Some r
            ∧ r !! "instructions" = Some (VInt (parse_retired_instructions log))
            ∧ r !! "cycles" = Some (VInt (parse_cycles log))
            ∧ r !! "ipc" = Some (VFloat f)
            ∧ true_divide (parse_retired_instructions log) (parse_cycles log) = Ok f
            ∧ float_nearest f (parse_retired_instructions log) (parse_cycles log)
            ∧ is_double f
            ∧ (parse_retired_instructions log ≠ 0 →
               -1074 ≤ fexp f
               ∧ fman f ≤ 2 ^ 53
               ∧ (-1074 < fexp f → 2 ^ 52 ≤ fman f)
               ∧ (0 ≤ fexp f → fman f * 2 ^ fexp f < 2 ^ 1024))
            ∧ (∀ q : Z,
                 parse_retired_instructions log = q * parse_cycles log →
                 Z.abs q ≤ 2 ^ 52 →
                 fman f * 2 ^ Z.max 0 (fexp f)
                 = Z.abs q * 2 ^ Z.max 0 (- fexp f)
                 ∧ (q ≠ 0 → fneg f = (q <? 0)))).
Proof.
  pose proof (ipc_of_spec (parse_retired_instructions log) (parse_cycles log))
    as (Hnz & Hzero & Hdiv).
  split; [|split].
  - rewrite update_table_unfold. destruct (ipc_of _ _) as [?|[]]; done.
  - intros Hc. specialize (Hzero Hc).
    set (r := store_metrics log (VInt 0) (default ∅ (dict_get t b))).
    exists (dict_set t b r), r.
    split; [apply update_table_Ok; by exists (VInt 0)|].
    split; [apply dict_get_set_eq|]. subst r.
    pose proof (store_metrics_holds log (VInt 0) (default ∅ (dict_get t b)))
      as (_ & _ & H3 & H4 & _).
    simpl in H3, H4. rewrite Hc in H3. done.
  - intros Hc t' (ipc & Hipc & ->)%update_table_Ok.
    destruct (Hdiv Hc) as [E|(f & Hf & E & Hnear & Hdbl)]; [congruence|].
    rewrite E in Hipc. injection Hipc as <-.
    exists (store_metrics log (VFloat f) (default ∅ (dict_get t b))), f.
    split; [apply dict_get_set_eq|].
    pose proof (store_metrics_holds log (VFloat f) (default ∅ (dict_get t b)))
      as (_ & H2 & H3 & H4 & _).
    split; [done|]. split; [done|]. split; [done|]. split; [done|].
    split; [done|]. split; [done|]. split.
    + intros Hi. by apply (true_divide_nonzero _ _ _ Hi Hf).
    + intros q Hq Hsmall. by apply (true_divide_exact _ _ q f Hf).
Qed.

(** ** Aggregating twice *)

Lemma update_table_twice (t : table) (b log : string) (t1 : table) :
  update_table t b log = Ok t1 → update_table t1 b log = Ok t1.
Proof.
  intros (ipc & Hipc & ->)%update_table_Ok.
  apply update_table_Ok. exists ipc. split; [done|].
  rewrite dict_get_set_eq. simpl.
  by rewrite dict_set_set, store_metrics_idem.
Qed.



(** ** The main loop *)

Lemma io_bind_unfold {A B : Type} (m : IO A) (f : A → IO B) (w : world) :
  (m ≫= f) w
  = match m w with
    | (w', Ok a) => f a w'
    | (w', Raise e) => (w', Raise e)
    end.
Proof. done. Qed.

Lemma io_lift_bind {A B : Type} (r : result A) (f : A → IO B) (w : world) :
  (lift r ≫= f) w
  = match r with
    | Ok a => f a w
    | Raise e => (w, Raise e)
    end.
Proof. by destruct r. Qed.

Lemma io_print_bind {B : Type} (s e : string) (f : unit → IO B) (w : world) :
  (print s e ≫= f) w = f () (wprint w (s +:+ e)).
Proof. done. Qed.

Lemma io_ret_bind {A B : Type} (a : A) (f : A → IO B) (w : world) :
  (mret a ≫= f) w = f a w.
Proof. done. Qed.

Lemma wprint_wprint (w : world) (s1 s2 : string) :
  wprint (wprint w s1) s2 = wprint w (s1 +:+ s2).
Proof. unfold wprint. simpl. by rewrite string_app_assoc. Qed.

Lemma wprint_nil (w : world) : wprint w "" = w.
Proof. destruct w. unfold wprint. simpl. by rewrite string_app_nil_r. Qed.

(** One turn of the loop: the table is updated, one line is printed,
    and the count goes up by one when the status is true. *)
Lemma summary_step_eq (i : Z) (b contents : string) (stats : table) (c : Z)
    (w : world) :
  summary_step i b contents stats c w
  = match
      (stats' ← update_table stats b (report_of contents);
       r ← table_getitem stats' b;
       line ← console_line i b r;
       status ← getitem r "status";
       Ok (line, stats', if py_truth status then c + 1 else c))
    with
    | Ok (line, stats', c') => (wprint w line, Ok (stats', c'))
    | Raise e => (w, Raise e)
    end.
Proof.
  unfold summary_step. fold (report_of contents).
  rewrite io_lift_bind.
  destruct (update_table stats b (report_of contents)) as [stats'|e];
    [|done].
  rewrite bind_Ok, io_lift_bind.
  destruct (table_getitem stats' b) as [r|e]; [|done].
  rewrite bind_Ok, io_lift_bind. unfold console_line, line_with_number.
  destruct (getitem r "status") as [status|e]; [|done].
  rewrite !bind_Ok.
  destruct (py_truth status) eqn:E.
  - rewrite io_lift_bind.
    destruct (py_format_d 4 (i + 1)) as [n|e]; [|done].
    rewrite bind_Ok, io_lift_bind.
    destruct (getitem r "ipc") as [ipc|e]; [|done].
    rewrite bind_Ok, io_lift_bind.
    destruct (py_format_f2 ipc) as [x|e]; [|done].
    by rewrite !bind_Ok, E.
  - rewrite io_lift_bind.
    destruct (py_format_d 4 i) as [n|e]; [|done].
    rewrite bind_Ok, io_lift_bind.
    destruct (getitem r "ipc") as [ipc|e]; [|done].
    rewrite bind_Ok, io_lift_bind.
    destruct (py_format_f2 ipc) as [x|e]; [|done].
    by rewrite !bind_Ok, E.
Qed.

(** The loop, when it runs to its end, has printed the lines of
    [summary_pure] and returns its table and count. *)
Lemma summary_loop_Ok (bs : list (string * string)) :
  ∀ (i : Z) (stats : table) (c : Z) (w w' : world) (stats' : table) (c' : Z),
    summary_loop i bs stats c w = (w', Ok (stats', c')) ↔
    ∃ lines, summary_pure i bs stats c = Ok (lines, stats', c')
             ∧ w' = wprint w (concat_all lines).
Proof.
  induction bs as [|[b contents] bs IH]; intros i stats c w w' stats' c'.
  - simpl. split.
    + intros [= <- <- <-]. exists []. by rewrite wprint_nil.
    + intros (lines & [= <- <- <-] & ->). by rewrite wprint_nil.
  - cbn [summary_loop summary_pure].
    rewrite io_bind_unfold, summary_step_eq.
    destruct (update_table stats b (report_of contents)) as [s1|e];
      [rewrite !bind_Ok|by split; [|intros (? & ? & _)]].
    destruct (table_getitem s1 b) as [r|e];
      [rewrite !bind_Ok|by split; [|intros (? & ? & _)]].
    destruct (console_line i b r) as [line|e];
      [rewrite !bind_Ok|by split; [|intros (? & ? & _)]].
    destruct (getitem r "status") as [status|e];
      [rewrite !bind_Ok|by split; [|intros (? & ? & _)]].
    rewrite IH. split.
    + intros (lines & Hp & ->). exists (line :: lines).
      rewrite Hp, bind_Ok. split; [done|]. by rewrite wprint_wprint.
    + intros (lines & Hp & ->).
      destruct (summary_pure _ _ _ _) as [[[lines' s2] c2]|e]; [|done].
      rewrite bind_Ok in Hp. injection Hp as <- <- <-.
      exists lines'. split; [done|]. by rewrite wprint_wprint.
Qed.


Lemma dict_get_None (t : table) (k : string) :
  k ∉ t.*1 → dict_get t k = None.
Proof.
  intros Hk. destruct (dict_get t k) eqn:E; [|done].
  exfalso. apply Hk, dict_mem_elem. unfold dict_mem. by rewrite E.
Qed.

Lemma dict_set_fresh (t : table) (k : string) (r : row) :
  k ∉ t.*1 → dict_set t k r = t ++ [(k, r)].
Proof.
  intros Hk. apply dict_set_keys_absent. unfold dict_mem.
  by rewrite dict_get_None.
Qed.

Lemma dict_set_Forall (P : string * row → Prop) (t : table) (k : string) (r : row) :
  Forall P t → P (k, r) → Forall P (dict_set t k r).
Proof.
  intros Ht Hr. induction Ht as [|[k0 r0] t H0 Ht IH]; simpl.
  - by constructor.
  - destruct (decide (k0 = k)); by constructor.
Qed.

Lemma dict_get_elem (t : table) (k : string) (r : row) :
  dict_get t k = Some r → (k, r) ∈ t.
Proof.
  induction t as [|[k0 r0] t IH]; simpl; [done|].
  destruct (decide (k0 = k)) as [->|Hne].
  - intros [= ->]. by left.
  - intros Hg. right. by apply IH.
Qed.

(** ** Every row of the table is consistent *)

Lemma update_table_rows_ok (t : table) (b log : string) (t' : table) :
  Forall (fun item => row_ok item.2) t →
  update_table t b log = Ok t' →
  Forall (fun item => row_ok item.2) t'.
Proof.
  intros Ht Hup. pose proof Hup as (ipc & Hipc & ->)%update_table_Ok.
  apply dict_set_Forall; [done|]. simpl.
  exists (metrics_of log ipc). split; [apply store_metrics_holds|].
  by apply metrics_of_consistent.
Qed.

(** A property of the rows that every call of [update_table] keeps is
    kept by the main loop. *)
Lemma summary_pure_Forall (P : string * row → Prop) (bs : list (string * string)) :
  (∀ t b log t', Forall P t → update_table t b log = Ok t' → Forall P t') →
  ∀ (i : Z) (stats : table) (c : Z) lines stats' c',
    Forall P stats →
    summary_pure i bs stats c = Ok (lines, stats', c') →
    Forall P stats'.
Proof.
  intros Hkeep.
  induction bs as [|[b contents] bs IH]; intros i stats c lines stats' c' Hok.
  - simpl. by intros [= <- <- <-].
  - cbn [summary_pure].
    destruct (update_table stats b (report_of contents)) as [s1|e] eqn:Hup;
      [rewrite bind_Ok|done].
    destruct (table_getitem s1 b) as [r|e]; [rewrite bind_Ok|done].
    destruct (console_line i b r) as [line|e]; [rewrite bind_Ok|done].
    destruct (getitem r "status") as [status|e]; [rewrite bind_Ok|done].
    destruct (summary_pure _ _ _ _) as [[[lines' s2] c2]|e] eqn:Hrest;
      [rewrite bind_Ok|done].
    intros [= <- <- <-].
    eapply IH; [|exact Hrest]. by eapply Hkeep.
Qed.

Lemma summary_pure_rows_ok (bs : list (string * string)) :
  ∀ (i : Z) (stats : table) (c : Z) lines stats' c',
    Forall (fun item => row_ok item.2) stats →
    summary_pure i bs stats c = Ok (lines, stats', c') →
    Forall (fun item => row_ok item.2) stats'.
Proof. apply summary_pure_Forall. apply update_table_rows_ok. Qed.

Lemma store_metrics_only_fields (log : string) (ipc : pyval) (r : row) :
  only_fields r → only_fields (store_metrics log ipc r).
Proof.
  intros Hr k Hk. apply elem_of_dom in Hk as [v Hv].
  destruct (decide (k ∈ FIELDS)) as [Hin|Hout].
  - by apply elem_of_list_to_set.
  - rewrite store_metrics_other in Hv by done.
    apply Hr. apply elem_of_dom. by exists v.
Qed.

Lemma update_table_only_fields (t : table) (b log : string) (t' : table) :
  Forall (fun item => only_fields item.2) t →
  update_table t b log = Ok t' →
  Forall (fun item => only_fields item.2) t'.
Proof.
  intros Ht (ipc & _ & ->)%update_table_Ok.
  apply dict_set_Forall; [done|]. simpl.
  apply store_metrics_only_fields.
  destruct (dict_get t b) as [r|] eqn:Hr; simpl.
  - rewrite Forall_forall in Ht. apply (Ht (b, r)). by apply dict_get_elem.
  - unfold only_fields. rewrite dom_empty_L. set_solver.
Qed.

(** With distinct file names the table lists the benchmarks in the order
    of the listing, one row each, and the line printed for a benchmark
    is the line of its row. *)
Lemma summary_pure_fresh (bs : list (string * string)) :
  ∀ (i : Z) (stats : table) (c : Z) lines stats' c',
    NoDup bs.*1 →
    (∀ b, b ∈ bs.*1 → b ∉ stats.*1) →
    summary_pure i bs stats c = Ok (lines, stats', c') →
    ∃ new : table,
      stats' = stats ++ new
      ∧ new.*1 = bs.*1
      ∧ length lines = length new
      ∧ (∀ (k : nat) b r, new !! k = Some (b, r) →
           ∃ line, lines !! k = Some line
                   ∧ console_line (i + Z.of_nat k) b r = Ok line)
      ∧ c' = c + Z.of_nat (length (filter (fun item : string * row =>
                                              status_of item.2 = true) new)).
Proof.
  induction bs as [|[b contents] bs IH];
    intros i stats c lines stats' c' Hnd Hfresh.
  - simpl. intros [= <- <- <-]. exists []. rewrite app_nil_r.
    repeat split; [|simpl; lia]. intros k b r Hk. by rewrite lookup_nil in Hk.
  - cbn [summary_pure].
    destruct (update_table stats b (report_of contents)) as [s1|e] eqn:Hup;
      [rewrite bind_Ok|done].
    apply update_table_Ok in Hup as (ipc & Hipc & ->).
    assert (b ∉ stats.*1) as Hb by (apply Hfresh; simpl; by left).
    rewrite dict_get_None by done. cbn [default from_option id].
    set (r := store_metrics (report_of contents) ipc ∅).
    unfold table_getitem. rewrite dict_get_set_eq, bind_Ok.
    rewrite dict_set_fresh by done.
    destruct (console_line i b r) as [line|e] eqn:Hline; [rewrite bind_Ok|done].
    assert (r !! "status"
            = Some (VBool (parse_status (report_of contents) =? 0))) as Hs
      by apply (store_metrics_holds (report_of contents) ipc ∅).
    assert (getitem r "status"
            = Ok (VBool (parse_status (report_of contents) =? 0))) as Hst
      by (unfold getitem; by rewrite Hs).
    rewrite Hst, bind_Ok. cbn [py_truth].
    destruct (summary_pure _ _ _ _) as [[[lines' s2] c2]|e] eqn:Hrest;
      [rewrite bind_Ok|done].
    intros [= <- <- <-].
    rewrite fmap_cons in Hnd. cbn [fst] in Hnd.
    apply NoDup_cons in Hnd as [Hbn Hnd].
    apply IH in Hrest as (new & -> & Hkeys & Hlen & Hlines & ->); [|done|].
    + exists ((b, r) :: new). rewrite <- app_assoc. split; [done|].
      split; [rewrite !fmap_cons; cbn [fst]; by rewrite Hkeys|].
      split; [simpl; by rewrite Hlen|].
      split.
      * intros [|k] b' r' Hk; simpl in Hk.
        -- injection Hk as <- <-. exists line. split; [done|].
           by rewrite Z.add_0_r.
        -- destruct (Hlines k b' r' Hk) as (l & Hl & Hc).
           exists l. split; [done|].
           by replace (i + Z.of_nat (S k)) with (i + 1 + Z.of_nat k) by lia.
      * rewrite filter_cons. simpl.
        assert (status_of r = (parse_status (report_of contents) =? 0)) as ->
          by (unfold status_of; by rewrite Hs).
        destruct (parse_status (report_of contents) =? 0).
        -- rewrite decide_True by done. simpl. lia.
        -- rewrite decide_False by done. lia.
    + intros b' Hb'. rewrite fmap_app. simpl.
      rewrite elem_of_app, list_elem_of_singleton.
      intros [Hin| ->]; [|done].
      eapply Hfresh; [|exact Hin]. simpl. by right.
Qed.

Lemma dict_set_length (t : table) (k : string) (r : row) :
  (length (dict_set t k r) ≤ S (length t))%nat.
Proof.
  induction t as [|[k0 r0] t IH]; simpl; [lia|].
  destruct (decide (k0 = k)); simpl; lia.
Qed.

(** The count of successes and the size of the table grow by at most
    one per log. *)
Lemma summary_pure_bounds (bs : list (string * string)) :
  ∀ (i : Z) (stats : table) (c : Z) lines stats' c',
    summary_pure i bs stats c = Ok (lines, stats', c') →
    c ≤ c' ≤ c + Z.of_nat (length bs)
    ∧ (length stats' ≤ length stats + length bs)%nat.
Proof.
  induction bs as [|[b contents] bs IH]; intros i stats c lines stats' c'.
  - simpl. intros [= <- <- <-]. lia.
  - cbn [summary_pure].
    destruct (update_table stats b (report_of contents)) as [s1|e] eqn:Hup;
      [rewrite bind_Ok|done].
    destruct (table_getitem s1 b) as [r|e]; [rewrite bind_Ok|done].
    destruct (console_line i b r) as [line|e]; [rewrite bind_Ok|done].
    destruct (getitem r "status") as [status|e]; [rewrite bind_Ok|done].
    destruct (summary_pure _ _ _ _) as [[[lines' s2] c2]|e] eqn:Hrest;
      [rewrite bind_Ok|done].
    intros [= <- <- <-].
    apply IH in Hrest as [Hc Hlen].
    apply update_table_Ok in Hup as (ipc & _ & ->).
    pose proof (dict_set_length stats b
                  (store_metrics (report_of contents) ipc
                     (default ∅ (dict_get stats b)))).
    cbn [length]. destruct (py_truth status); lia.
Qed.

(** C5: in every row the three totals are the sums of their parts.  It
    holds of the row a call of [update_table] writes, and of every row
    of the table the main loop builds. *)
Theorem derived_sums_hold :
  (∀ (t : table) (b log : string) (t' : table),
     update_table t b log = Ok t' →
     ∃ r ms, dict_get t' b = Some r ∧ holds r ms
             ∧ ms_memory_req ms
               = ms_instr_fetches ms + ms_read_req ms + ms_write_req ms
             ∧ ms_branch_jump ms = ms_jumps ms + ms_branches ms
             ∧ ms_load_store ms = ms_loads ms + ms_stores ms)
  ∧ (∀ (bs : list (string * string)) (w w' : world) (stats : table) (c : Z),
       summary_loop 0 bs init_table 0 w = (w', Ok (stats, c)) →
       ∀ b r, (b, r) ∈ stats →
       ∃ ms, holds r ms
             ∧ ms_memory_req ms
               = ms_instr_fetches ms + ms_read_req ms + ms_write_req ms
             ∧ ms_branch_jump ms = ms_jumps ms + ms_branches ms
             ∧ ms_load_store ms = ms_loads ms + ms_stores ms).
Proof.
  split.
  - intros t b log t' (r & Hr & ms & Hms & H1 & H2 & H3 & _)%update_table_row_ok.
    by exists r, ms.
  - intros bs w w' stats c (lines & Hp & _)%summary_loop_Ok b r Hin.
    apply summary_pure_rows_ok in Hp; [|by constructor].
    rewrite Forall_forall in Hp.
    destruct (Hp _ Hin) as (ms & Hms & H1 & H2 & H3 & _).
    by exists ms.
Qed.

(** C7: aggregating the same log a second time under the same name
    leaves the table exactly as the first time left it; and the row a
    call writes does not depend on what the fourteen fields held
    before: it replaces them all, so that on a row of the script's own
    making, which has no other key, it is the row a fresh table would
    get. *)
Theorem update_table_idempotent :
  (∀ (t : table) (b log : string) (t1 : table),
     update_table t b log = Ok t1 → update_table t1 b log = Ok t1)
  ∧ (∀ (t t0 : table) (b log : string) (t1 t2 : table) (r r0 : row),
       dict_get t b = Some r → dict_get t0 b = Some r0 →
       (∀ k, k ∉ FIELDS → r !! k = r0 !! k) →
       update_table t b log = Ok t1 →
       update_table t0 b log = Ok t2 →
       dict_get t2 b = dict_get t1 b)
  ∧ (∀ (t : table) (b log : string) (t1 : table) (r : row),
       dict_get t b = Some r → only_fields r →
       update_table t b log = Ok t1 →
       ∃ r1, update_table init_table b log = Ok [(b, r1)]
             ∧ dict_get t1 b = Some r1)
  ∧ (∀ (bs : list (string * string)) (w w' : world) (stats : table) (c : Z),
       summary_loop 0 bs init_table 0 w = (w', Ok (stats, c)) →
       ∀ b r, (b, r) ∈ stats → only_fields r).
Proof.
  split; [exact update_table_twice|]. split; [|split].
  - intros t t0 b log t1 t2 r r0 Hr Hr0 Hout
           (ipc & Hipc & ->)%update_table_Ok (ipc' & Hipc' & ->)%update_table_Ok.
    rewrite Hipc in Hipc'. injection Hipc' as <-.
    rewrite !dict_get_set_eq, Hr, Hr0. simpl. f_equal.
    symmetry. by apply store_metrics_overwrites.
  - intros t b log t1 r Hr Hdom (ipc & Hipc & ->)%update_table_Ok.
    eexists. split.
    + apply update_table_Ok. exists ipc. split; [done|]. simpl. done.
    + rewrite dict_get_set_eq, Hr. simpl. f_equal.
      apply store_metrics_overwrites. intros k Hk.
      rewrite lookup_empty. apply not_elem_of_dom. intros Hin.
      apply Hdom in Hin. apply Hk. by apply elem_of_list_to_set in Hin.
  - intros bs w w' stats c (lines & Hp & _)%summary_loop_Ok b r Hin.
    eapply (summary_pure_Forall (fun item => only_fields item.2)) in Hp;
      [|exact update_table_only_fields|constructor].
    rewrite Forall_forall in Hp. apply (Hp (b, r) Hin).
Qed.


(** ** Formatting *)

Lemma float_cents_nonneg (f : pyfloat) : 0 ≤ fman f → 0 ≤ float_cents f.
Proof.
  intros Hm. unfold float_cents. destruct (Z.leb_spec 0 (fexp f)).
  - apply Z.mul_nonneg_nonneg; [|lia].
    apply Z.mul_nonneg_nonneg; [done|]. by apply Z.pow_nonneg.
  - apply round_half_even_nonneg; [lia|]. apply Z.pow_pos_nonneg; lia.
Qed.

Lemma format_f2_two_decimals (f : pyfloat) :
  0 ≤ fman f → two_decimals (format_f2 f).
Proof.
  intros Hm. pose proof (float_cents_nonneg f Hm) as Hc.
  unfold format_f2.
  exists (if fneg f then "-" else " "), (float_cents f / 100),
         (float_cents f mod 100 / 10), (float_cents f mod 10).
  split; [destruct (fneg f); auto|].
  split; [by apply Z.div_pos|].
  pose proof (Z.mod_pos_bound (float_cents f) 100 ltac:(lia)).
  pose proof (Z.mod_pos_bound (float_cents f) 10 ltac:(lia)).
  split; [split; [apply Z.div_pos; lia|]|].
  { apply Z.lt_succ_r. apply Z.div_lt_upper_bound; lia. }
  split; [lia|]. done.
Qed.

(** The IPC of a consistent row always formats, to two decimals. *)
Lemma consistent_ipc_text (ms : metricset) :
  consistent ms →
  ∃ x, py_format_f2 (ms_ipc ms) = Ok x ∧ two_decimals x.
Proof.
  intros (_ & _ & _ & [[_ ->]|(_ & f & Hf & ->)]).
  - eexists. split; [done|]. by apply format_f2_two_decimals.
  - exists (format_f2 f). split; [done|].
    apply format_f2_two_decimals.
    apply true_divide_Ok in Hf as (_ & _ & Hm & _). done.
Qed.

Lemma str_int_printable (z : Z) : printable z → str_int z = Ok (pretty z).
Proof. unfold printable, str_int. by intros ->. Qed.

Lemma field_text_int (r : row) (k : string) (z : Z) :
  r !! k = Some (VInt z) → printable z → field_text r k = Ok (pretty z).
Proof.
  intros Hk Hz. unfold field_text, getitem. rewrite Hk, bind_Ok.
  by apply str_int_printable.
Qed.

Lemma field_text_bool (r : row) (k : string) (b : bool) :
  r !! k = Some (VBool b) → field_text r k = Ok (bool_text b).
Proof.
  intros Hk. unfold field_text, getitem. rewrite Hk, bind_Ok. by destruct b.
Qed.

(** The identifier is the file name without its last four characters. *)
Lemma bench_id_spec (b : string) :
  ((4 ≤ String.length b)%nat →
   ∃ ext, b = bench_id b +:+ ext ∧ String.length ext = 4%nat)
  ∧ ((String.length b < 4)%nat → bench_id b = "").
Proof.
  unfold bench_id, py_slice, adjust_index, py_len.
  cbn [default from_option id]. change (-4 <? 0) with true. cbv iota.
  change (0 <? 0) with false. cbv iota.
  rewrite Z.min_l by lia. change (Z.to_nat 0) with 0%nat. rewrite Z.sub_0_r.
  split.
  - intros Hlen. rewrite Z.max_l by lia.
    exists (String.substring (String.length b - 4) 4 b). split.
    + replace (Z.to_nat (-4 + Z.of_nat (String.length b)))
        with (String.length b - 4)%nat by lia.
      rewrite (substring_split (String.length b - 4) b) at 1.
      do 2 f_equal. lia.
    + rewrite substring_length. lia.
  - intros Hlen. rewrite Z.max_r by lia. apply substring_zero.
Qed.

(** Decimal text is short for small numbers: below [10^k] there are at
    most [k] digits, so an integer below [10^640] in absolute value
    always converts. *)
Lemma pretty_N_go_length (k : nat) :
  ∀ (x : N) (s : string),
    (x < 10 ^ N.of_nat k)%N →
    (String.length (pretty_N_go x s) ≤ String.length s + k)%nat.
Proof.
  induction k as [|k IH]; intros x s Hx.
  - assert (x = 0%N) as -> by (simpl in Hx; lia).
    rewrite pretty_N_go_0. lia.
  - destruct (decide (x = 0%N)) as [->|Hne].
    + rewrite pretty_N_go_0. lia.
    + rewrite pretty_N_go_step by lia.
      etrans; [apply IH|simpl; lia].
      rewrite Nat2N.inj_succ, N.pow_succ_r' in Hx.
      apply N.Div0.div_lt_upper_bound. lia.
Qed.

Lemma pretty_Z_length (z : Z) (k : nat) :
  0 ≤ z < 10 ^ Z.of_nat k → (0 < k)%nat →
  (String.length (pretty z) ≤ k)%nat.
Proof.
  intros [Hz Hk] Hpos. destruct z as [|p|p]; [simpl; lia| |lia].
  unfold pretty, pretty_Z, pretty, pretty_positive, pretty, pretty_N.
  rewrite decide_False by done.
  etrans; [apply (pretty_N_go_length k)|simpl; lia].
  apply N2Z.inj_lt. rewrite N2Z.inj_pow, nat_N_Z. simpl. lia.
Qed.

Lemma small_printable (z : Z) : Z.abs z < 10 ^ 640 → printable z.
Proof.
  intros Hz. unfold printable, exceeds_str_digits.
  pose proof (pretty_Z_length (Z.abs z) 640 ltac:(split; [lia|exact Hz]) ltac:(lia)).
  replace (640 <? N.of_nat (String.length (pretty (Z.abs z))))%N with false;
    [done|].
  symmetry. apply N.ltb_ge. lia.
Qed.

Lemma str_int_small (z : Z) : Z.abs z < 10 ^ 640 → str_int z = Ok (pretty z).
Proof. intros Hz. by apply str_int_printable, small_printable. Qed.

Lemma py_format_d_small (width : nat) (z : Z) :
  Z.abs z < 10 ^ 640 →
  py_format_d width z
  = Ok (repeat_char " " (width - String.length (pretty z)) +:+ pretty z).
Proof. intros Hz. unfold py_format_d. by rewrite str_int_small. Qed.

(** ** The CSV file *)

Lemma wfile_wfile (w : world) (s1 s2 : string) :
  wfile (wfile w s1) s2 = wfile w (s1 +:+ s2).
Proof. unfold wfile. simpl. by rewrite string_app_assoc. Qed.

Lemma io_file_write_bind {B : Type} (s : string) (f : unit → IO B) (w : world) :
  (file_write s ≫= f) w = f () (wfile w s).
Proof. done. Qed.

Lemma write_field_bind {B : Type} (r : row) (k sep s : string)
    (f : unit → IO B) (w : world) :
  field_text r k = Ok s →
  (write_field r k sep ≫= f) w = f () (wfile w (s +:+ sep)).
Proof.
  unfold field_text, write_field. intros Hs.
  rewrite io_bind_unfold, io_lift_bind.
  destruct (getitem r k) as [v|e]; [|done].
  rewrite bind_Ok in Hs. by rewrite io_lift_bind, Hs.
Qed.

Lemma write_field_last (r : row) (k sep s : string) (w : world) :
  field_text r k = Ok s →
  write_field r k sep w = (wfile w (s +:+ sep), Ok ()).
Proof.
  unfold field_text, write_field. intros Hs.
  rewrite io_lift_bind.
  destruct (getitem r k) as [v|e]; [|done].
  rewrite bind_Ok in Hs. by rewrite io_lift_bind, Hs.
Qed.

(** A row whose fields all format is written as the one line
    [csv_row] computes. *)
Lemma write_row_Ok (item : string * row) (line : string) (w : world) :
  csv_row item = Ok line → write_row item w = (wfile w line, Ok ()).
Proof.
  destruct item as [b r]. unfold csv_row, write_row.
  destruct (field_text r "status") as [s1|?] eqn:E1; [rewrite bind_Ok|done].
  destruct (field_text r "instructions") as [s2|?] eqn:E2; [rewrite bind_Ok|done].
  destruct (field_text r "cycles") as [s3|?] eqn:E3; [rewrite bind_Ok|done].
  destruct (getitem r "ipc") as [v|?] eqn:E4; [rewrite bind_Ok|done].
  destruct (py_format_f2 v) as [s4|?] eqn:E4'; [rewrite bind_Ok|done].
  destruct (field_text r "jumps") as [s5|?] eqn:E5; [rewrite bind_Ok|done].
  destruct (field_text r "branches") as [s6|?] eqn:E6; [rewrite bind_Ok|done].
  destruct (field_text r "branch/jump") as [s7|?] eqn:E7; [rewrite bind_Ok|done].
  destruct (field_text r "loads") as [s8|?] eqn:E8; [rewrite bind_Ok|done].
  destruct (field_text r "stores") as [s9|?] eqn:E9; [rewrite bind_Ok|done].
  destruct (field_text r "load/store") as [s10|?] eqn:E10; [rewrite bind_Ok|done].
  destruct (field_text r "instr_fetches") as [s11|?] eqn:E11; [rewrite bind_Ok|done].
  destruct (field_text r "read_req") as [s12|?] eqn:E12; [rewrite bind_Ok|done].
  destruct (field_text r "write_req") as [s13|?] eqn:E13; [rewrite bind_Ok|done].
  destruct (field_text r "memory_req") as [s14|?] eqn:E14; [rewrite bind_Ok|done].
  intros [= <-].
  rewrite io_file_write_bind.
  rewrite (write_field_bind _ _ _ _ _ _ E1).
  rewrite (write_field_bind _ _ _ _ _ _ E2).
  rewrite (write_field_bind _ _ _ _ _ _ E3).
  rewrite io_bind_unfold, io_lift_bind. cbv beta iota.
  rewrite io_lift_bind, E4'. cbv beta iota.
  unfold file_write at 1. fold (wfile (wfile (wfile (wfile (wfile w
    (bench_id b +:+ ",")) (s1 +:+ ",")) (s2 +:+ ",")) (s3 +:+ ","))
    (s4 +:+ ",")).
  rewrite (write_field_bind _ _ _ _ _ _ E5).
  rewrite (write_field_bind _ _ _ _ _ _ E6).
  rewrite (write_field_bind _ _ _ _ _ _ E7).
  rewrite (write_field_bind _ _ _ _ _ _ E8).
  rewrite (write_field_bind _ _ _ _ _ _ E9).
  rewrite (write_field_bind _ _ _ _ _ _ E10).
  rewrite (write_field_bind _ _ _ _ _ _ E11).
  rewrite (write_field_bind _ _ _ _ _ _ E12).
  rewrite (write_field_bind _ _ _ _ _ _ E13).
  rewrite (write_field_last _ _ _ _ _ E14).
  rewrite !wfile_wfile. by rewrite !string_app_assoc.
Qed.

Lemma io_for_write_rows (t : table) :
  ∀ (lines : list string) (w : world),
    is_Some (csv_file w) →
    mapM csv_row t = Ok lines →
    io_for t write_row w = (wfile w (concat_all lines), Ok ())
    ∧ length lines = length t
    ∧ ∀ k item, t !! k = Some item →
        ∃ line, lines !! k = Some line ∧ csv_row item = Ok line.
Proof.
  induction t as [|item t IH]; intros lines w Hfile.
  - intros [= <-]. simpl. split; [|split; [done|]].
    + unfold wfile. destruct w as [o [f|]]; simpl.
      * by rewrite string_app_nil_r.
      * by destruct Hfile.
    + intros k item Hk. by rewrite lookup_nil in Hk.
  - cbn [mapM]. destruct (csv_row item) as [line|e] eqn:Hrow; [|done].
    rewrite bind_Ok.
    destruct (mapM csv_row t) as [lines'|e] eqn:Hrest; [|done].
    rewrite bind_Ok. intros [= <-].
    cbn [io_for]. rewrite io_bind_unfold, (write_row_Ok _ _ _ Hrow).
    destruct (IH lines' (wfile w line) ltac:(by eexists) eq_refl)
      as (Hio & Hlen & Hk).
    rewrite Hio, wfile_wfile. split; [done|]. split; [simpl; by rewrite Hlen|].
    intros [|k] item' Hit; simpl in Hit.
    + injection Hit as <-. by exists line.
    + by apply Hk.
Qed.


Lemma csv_row_text (b : string) (r : row) (ms : metricset) :
  holds r ms → consistent ms → printable_metrics ms →
  ∃ x, py_format_f2 (ms_ipc ms) = Ok x ∧ two_decimals x
       ∧ csv_row (b, r) = Ok (String.concat "," (csv_fields b ms x) +:+ NL).
Proof.
  intros (H1&H2&H3&H4&H5&H6&H7&H8&H9&H10&H11&H12&H13&H14) Hc
         (P2&P3&P5&P6&P7&P8&P9&P10&P11&P12&P13&P14).
  destruct (consistent_ipc_text ms Hc) as (x & Hx & Hdec).
  exists x. split; [done|]. split; [done|].
  unfold csv_row.
  rewrite (field_text_bool _ _ _ H1), bind_Ok.
  rewrite (field_text_int _ _ _ H2 P2), bind_Ok.
  rewrite (field_text_int _ _ _ H3 P3), bind_Ok.
  unfold getitem at 1. rewrite H4, !bind_Ok, Hx, bind_Ok.
  rewrite (field_text_int _ _ _ H5 P5), bind_Ok.
  rewrite (field_text_int _ _ _ H6 P6), bind_Ok.
  rewrite (field_text_int _ _ _ H7 P7), bind_Ok.
  rewrite (field_text_int _ _ _ H8 P8), bind_Ok.
  rewrite (field_text_int _ _ _ H9 P9), bind_Ok.
  rewrite (field_text_int _ _ _ H10 P10), bind_Ok.
  rewrite (field_text_int _ _ _ H11 P11), bind_Ok.
  rewrite (field_text_int _ _ _ H12 P12), bind_Ok.
  rewrite (field_text_int _ _ _ H13 P13), bind_Ok.
  rewrite (field_text_int _ _ _ H14 P14), bind_Ok.
  f_equal. unfold csv_fields. cbn [String.concat].
  by rewrite !string_app_assoc.
Qed.

Lemma print_table_to_file_csv_Ok (t : table) (lines : list string) (w : world) :
  mapM csv_row t = Ok lines →
  print_table_to_file_csv t w
  = (mkworld (stdout w) (Some (csv_header +:+ concat_all lines)), Ok ()).
Proof.
  intros Hl. unfold print_table_to_file_csv.
  rewrite io_bind_unfold. unfold open_w at 1.
  rewrite io_file_write_bind.
  destruct (io_for_write_rows t lines
              (wfile (mkworld (stdout w) (Some "")) csv_header)
              ltac:(by eexists) Hl) as (-> & _ & _).
  by rewrite wfile_wfile.
Qed.


(** ** The gating check *)

Lemma filter_cons_bool {A : Type} (f : A → bool) (x : A) (l : list A) :
  filter (fun a => f a) (x :: l)
  = if f x then x :: filter (fun a => f a) l else filter (fun a => f a) l.
Proof.
  rewrite filter_cons. destruct (f x).
  - by rewrite decide_True.
  - rewrite decide_False; [done|]. by intros [].
Qed.

Lemma row_ok_status (r : row) :
  row_ok r → r !! "status" = Some (VBool (status_of r)).
Proof.
  intros (ms & (Hs & _) & _). unfold status_of. by rewrite Hs.
Qed.

Lemma getitem_status (r : row) :
  row_ok r → getitem r "status" = Ok (VBool (status_of r)).
Proof. intros Hr. unfold getitem. by rewrite (row_ok_status r Hr). Qed.

Lemma gated_statuses_Ok (stats : table) :
  Forall (fun item => row_ok item.2) stats →
  ∃ flags, gated_statuses stats = Ok flags
           ∧ forallb py_truth flags
             = match failing stats with [] => true | _ => false end.
Proof.
  unfold gated_statuses, failing.
  induction 1 as [|[b r] stats Hr Hrest (flags & Hf & Hall)].
  - by exists [].
  - rewrite !filter_cons_bool. cbn [fst snd].
    destruct (whitelisted b); cbn [negb andb].
    + by exists flags.
    + cbn [mapM]. change ((b, r).2) with r.
      rewrite (getitem_status r Hr), bind_Ok, Hf, bind_Ok.
      eexists. split; [done|]. cbn [forallb py_truth].
      destruct (status_of r); cbn [negb andb]; done.
Qed.

Lemma failed_names_Ok (stats : table) :
  Forall (fun item => row_ok item.2) stats →
  ∀ acc, failed_names stats acc
         = Ok (acc +:+ concat_all (map (fun item : string * row =>
                                           ", " +:+ bench_id item.1)
                                        (failing stats))).
Proof.
  unfold failing.
  induction 1 as [|[b r] stats Hr Hrest IH]; intros acc.
  - simpl. by rewrite string_app_nil_r.
  - cbn [failed_names]. rewrite filter_cons_bool. cbn [fst snd].
    destruct (whitelisted b); cbn [negb andb]; [apply IH|].
    rewrite (getitem_status r Hr), bind_Ok. cbn [py_truth].
    destruct (status_of r); cbn [negb]; [apply IH|].
    rewrite IH. cbn [map concat_all fst]. by rewrite !string_app_assoc.
Qed.

Lemma concat_all_sep (l : list string) :
  l ≠ [] →
  concat_all (map (fun s => ", " +:+ s) l) = ", " +:+ String.concat ", " l.
Proof.
  induction l as [|x [|y l] IH]; [done| |]; intros _.
  - simpl. by rewrite string_app_nil_r.
  - change (concat_all (map (fun s => ", " +:+ s) (x :: y :: l)))
      with ((", " +:+ x) +:+ concat_all (map (fun s => ", " +:+ s) (y :: l))).
    rewrite IH by done.
    change (String.concat ", " (x :: y :: l))
      with (x +:+ ", " +:+ String.concat ", " (y :: l)).
    by rewrite string_app_assoc.
Qed.

Lemma py_slice_drop2 (s : string) : py_slice (", " +:+ s) (Some 2) None = s.
Proof.
  change 2 with (Z.of_nat 2). rewrite py_slice_from.
  - change (String.length (", " +:+ s)) with (S (S (String.length s))).
    change (", " +:+ s) with (String "," (String " " s)).
    simpl. rewrite Nat.sub_0_r. apply substring_all.
  - change (String.length (", " +:+ s)) with (S (S (String.length s))). lia.
Qed.



Lemma failing_nil_iff (stats : table) :
  failing stats = [] ↔
  ∀ b r, (b, r) ∈ stats → whitelisted b = false → status_of r = true.
Proof.
  unfold failing. split.
  - intros Hnil b r Hin Hw.
    destruct (status_of r) eqn:Hs; [done|].
    assert ((b, r) ∈ filter (fun item : string * row =>
              negb (whitelisted item.1) && negb (status_of item.2)) stats) as Hf.
    { apply list_elem_of_filter. split; [|done]. simpl. by rewrite Hw, Hs. }
    rewrite Hnil in Hf. inversion Hf.
  - intros Hall.
    destruct (filter _ stats) as [|[b r] l] eqn:Hf; [done|].
    assert ((b, r) ∈ filter (fun item : string * row =>
              negb (whitelisted item.1) && negb (status_of item.2)) stats) as Hin
      by (rewrite Hf; by left).
    apply list_elem_of_filter in Hin as [Hp Hin]. simpl in Hp.
    destruct (whitelisted b) eqn:Hw; [done|].
    by rewrite (Hall b r Hin Hw) in Hp.
Qed.

(** The gating check fails: the message, exit status 1, no CSV. *)
Lemma gate_and_export_fail (PATH : string) (stats : table) (w : world) :
  Forall (fun item => row_ok item.2) stats →
  failing stats ≠ [] →
  gate_and_export PATH stats w
  = (wprint w (failure_message stats), Raise (SystemExit 1)).
Proof.
  intros Hok Hfail. unfold gate_and_export.
  destruct (gated_statuses_Ok stats Hok) as (flags & -> & Hall).
  rewrite io_lift_bind. rewrite Hall.
  destruct (failing stats) as [|item rest] eqn:Hf; [done|]. cbn [negb].
  rewrite io_bind_unfold, io_print_bind.
  rewrite io_lift_bind, (failed_names_Ok stats Hok), Hf.
  rewrite <- (List.map_map (fun item0 : string * row => bench_id item0.1)
                (fun s => ", " +:+ s)).
  rewrite concat_all_sep by done.
  change ("" +:+ ", " +:+ ?s) with (", " +:+ s).
  rewrite py_slice_drop2, io_print_bind.
  unfold sys_exit, failure_message. rewrite Hf, wprint_wprint.
  by rewrite !string_app_assoc.
Qed.

(** The gating check passes: the CSV file is written. *)
Lemma gate_and_export_pass (PATH : string) (stats : table) (w : world) :
  Forall (fun item => row_ok item.2) stats →
  failing stats = [] →
  gate_and_export PATH stats w
  = print_table_to_file_csv stats
      (wprint w ("Saving the csv report to " +:+ PATH +:+ "/output." +:+ NL)).
Proof.
  intros Hok Hpass. unfold gate_and_export.
  destruct (gated_statuses_Ok stats Hok) as (flags & -> & Hall).
  rewrite io_lift_bind, Hall, Hpass. cbn [negb].
  rewrite io_bind_unfold. unfold mret at 1, io_ret at 1.
  rewrite io_print_bind. by rewrite !string_app_assoc.
Qed.

(** The script up to the end of the main loop. *)
Lemma main_run (e : env) (w : world) (bs : list (string * string)) :
  arg_missing (arg_s e) = false →
  arg_missing (arg_p e) = false →
  sim_logs e = Some bs →
  main e w
  = match summary_loop 0 bs init_table 0
            (wprint w ("Benchmark summary:" +:+ NL)) with
    | (w1, Ok (stats, c)) =>
        (a ← lift (str_int c);
         n ← lift (str_int (Z.of_nat (length stats)));
         print ("Correctly executed testbenches " +:+ a +:+ " out of "
                  +:+ n +:+ ".") NL;;
         gate_and_export (default "" (arg_p e)) stats) w1
    | (w1, Raise ex) => (w1, Raise ex)
    end.
Proof.
  intros Hs Hp Hl. unfold main. rewrite Hs, Hp.
  rewrite !io_ret_bind, io_print_bind.
  unfold get_benchmarks. rewrite Hl, io_ret_bind, io_bind_unfold.
  destruct (summary_loop _ _ _ _ _) as [w1 [[stats c]|ex]]; done.
Qed.

Lemma main_summary (e : env) (w : world) (bs : list (string * string))
    (w1 : world) (stats : table) (c : Z) :
  arg_missing (arg_s e) = false →
  arg_missing (arg_p e) = false →
  sim_logs e = Some bs →
  Z.of_nat (length bs) < 10 ^ 640 →
  summary_loop 0 bs init_table 0 (wprint w ("Benchmark summary:" +:+ NL))
  = (w1, Ok (stats, c)) →
  main e w
  = gate_and_export (default "" (arg_p e)) stats
      (wprint w1 ("Correctly executed testbenches " +:+ pretty c +:+ " out of "
                    +:+ pretty (Z.of_nat (length stats)) +:+ "." +:+ NL)).
Proof.
  intros Hs Hp Hl Hsmall Hloop.
  rewrite (main_run e w bs Hs Hp Hl), Hloop.
  apply summary_loop_Ok in Hloop as (lines & Hpure & _).
  apply summary_pure_bounds in Hpure as [Hc Hlen]. simpl in Hlen.
  rewrite io_lift_bind, str_int_small by lia.
  rewrite io_lift_bind, str_int_small by lia.
  rewrite io_print_bind. by rewrite !string_app_assoc.
Qed.

Lemma summary_loop_rows_ok (bs : list (string * string)) (w w1 : world)
    (stats : table) (c : Z) :
  summary_loop 0 bs init_table 0 w = (w1, Ok (stats, c)) →
  Forall (fun item => row_ok item.2) stats ∧ csv_file w1 = csv_file w.
Proof.
  intros (lines & Hp & ->)%summary_loop_Ok. split; [|done].
  eapply summary_pure_rows_ok; [|exact Hp]. constructor.
Qed.

(** The rows of a table whose numbers can all be printed make up the
    lines of the CSV file. *)
Lemma csv_rows_Ok (stats : table) :
  Forall (fun item => row_ok item.2) stats →
  (∀ b r ms, (b, r) ∈ stats → holds r ms → printable_metrics ms) →
  ∃ lines, mapM csv_row stats = Ok lines.
Proof.
  induction 1 as [|[b r] stats (ms & Hh & Hc) Hrest IH]; intros Hprint.
  - by exists [].
  - destruct (csv_row_text b r ms Hh Hc) as (x & _ & _ & Hrow).
    { apply (Hprint b r); [by left|done]. }
    destruct IH as (lines & Hlines).
    { intros b' r' ms' Hin Hh'. apply (Hprint b' r'); [by right|done]. }
    eexists. cbn [mapM]. by rewrite Hrow, bind_Ok, Hlines, bind_Ok.
Qed.


(** ** The console summary *)

Lemma console_line_shape (i : Z) (b : string) (r : row) (line : string) :
  row_ok r →
  console_line i b r = Ok line →
  ∃ n x,
    (status_of r = true → py_format_d 4 (i + 1) = Ok n)
    ∧ (∃ ms, holds r ms ∧ py_format_f2 (ms_ipc ms) = Ok x)
    ∧ two_decimals x
    ∧ line = (n +:+ ") " +:+ py_format_s 15 (bench_id b) +:+ ": "
                +:+ (if status_of r then SUCCESS_TAG else FAILURE_TAG)
                +:+ " (IPC=" +:+ x +:+ ")") +:+ NL.
Proof.
  intros Hr. pose proof Hr as (ms & Hh & Hc).
  destruct (consistent_ipc_text ms Hc) as (x & Hx & Hd).
  unfold console_line, line_with_number.
  rewrite (getitem_status r Hr), !bind_Ok. cbn [py_truth].
  destruct (py_format_d 4 _) as [n|?] eqn:Hn; [rewrite bind_Ok|done].
  assert (getitem r "ipc" = Ok (ms_ipc ms)) as ->.
  { unfold getitem. by rewrite (proj1 (proj2 (proj2 (proj2 Hh)))). }
  rewrite bind_Ok, Hx, bind_Ok. intros [= <-].
  exists n, x. split; [|split; [by exists ms|by split]].
  intros Hs. by rewrite Hs in Hn.
Qed.

(** The line of a benchmark, with the number it opens with. *)
Lemma console_line_number (i : Z) (b : string) (r : row) (line : string) :
  row_ok r → 0 ≤ i → i + 1 < 10 ^ 640 →
  console_line i b r = Ok line →
  line_with_number (i + Z.b2z (status_of r)) b r = Ok line
  ∧ ∃ x,
      (∃ ms, holds r ms ∧ py_format_f2 (ms_ipc ms) = Ok x)
      ∧ two_decimals x
      ∧ line = (repeat_char " "
                  (4 - String.length (pretty (i + Z.b2z (status_of r))))
                +:+ pretty (i + Z.b2z (status_of r)) +:+ ") "
                +:+ py_format_s 15 (bench_id b) +:+ ": "
                +:+ (if status_of r then SUCCESS_TAG else FAILURE_TAG)
                +:+ " (IPC=" +:+ x +:+ ")") +:+ NL.
Proof.
  intros Hr Hi Hsmall. pose proof Hr as (ms & Hh & Hc).
  destruct (consistent_ipc_text ms Hc) as (x & Hx & Hd).
  unfold console_line. rewrite (getitem_status r Hr), bind_Ok. cbn [py_truth].
  assert ((if status_of r then i + 1 else i) = i + Z.b2z (status_of r)) as ->
    by (destruct (status_of r); simpl; lia).
  intros Hline. split; [done|]. revert Hline.
  unfold line_with_number.
  rewrite (getitem_status r Hr), !bind_Ok. cbn [py_truth].
  rewrite py_format_d_small by (destruct (status_of r); simpl; lia).
  rewrite bind_Ok.
  assert (getitem r "ipc" = Ok (ms_ipc ms)) as ->.
  { unfold getitem. by rewrite (proj1 (proj2 (proj2 (proj2 Hh)))). }
  rewrite bind_Ok, Hx, bind_Ok. intros [= <-].
  exists x. split; [by exists ms|]. split; [done|].
  by rewrite !string_app_assoc.
Qed.

Lemma mapM_pointwise {A B : Type} (f : A → result B) (l : list A) :
  ∀ ys : list B,
    length ys = length l →
    (∀ k x, l !! k = Some x → ∃ y, ys !! k = Some y ∧ f x = Ok y) →
    mapM f l = Ok ys.
Proof.
  induction l as [|x l IH]; intros ys Hlen Hk.
  - by destruct ys.
  - destruct ys as [|y ys]; [done|].
    destruct (Hk 0%nat x eq_refl) as (y' & [= <-] & Hy).
    cbn [mapM]. rewrite Hy, bind_Ok, (IH ys), bind_Ok; [done|by injection Hlen|].
    intros k x' Hx'. apply (Hk (S k) x' Hx').
Qed.

(** When every benchmark succeeded the lines are numbered by position,
    from one. *)
Lemma lines_numbered_by_position (stats : table) (lines : list string) :
  length lines = length stats →
  (∀ (k : nat) b r, stats !! k = Some (b, r) →
     status_of r = true
     ∧ ∃ line, lines !! k = Some line
               ∧ line_with_number (Z.of_nat k + Z.b2z (status_of r)) b r = Ok line) →
  specified_summary positions_from_one stats = Ok (concat_all lines).
Proof.
  intros Hlen Hk. unfold specified_summary.
  rewrite (mapM_pointwise _ _ lines), bind_Ok; [done| |].
  - rewrite length_zip_with. unfold positions_from_one.
    rewrite !length_map, length_seq. lia.
  - intros k [n [b r]] Hz.
    apply lookup_zip_with_Some in Hz as (n' & item & Heq & Hn & Hitem).
    injection Heq as E1 E2. subst n' item.
    destruct (Hk k b r Hitem) as (Hs & line & Hline & Hnum).
    exists line. split; [done|]. simpl.
    unfold positions_from_one in Hn.
    rewrite list_lookup_fmap in Hn.
    destruct (seq 0 _ !! k) as [k'|] eqn:Hseq; [|done].
    apply lookup_seq in Hseq as [-> _]. simpl in Hn. injection Hn as <-.
    by rewrite Hs in Hnum.
Qed.

(** C8, as the code prints it: with distinct file names the table lists
    the benchmarks in the order of the listing, and the console shows
    one line for each, in that order: a number, the file name without
    its last four characters, padded to 15, the SUCCESS or FAILURE tag
    according to the status, and the IPC with two decimals.  The number
    is the 1-based position of the benchmark in the listing on a
    SUCCESS line, and one less, the 0-based position, on a FAILURE
    line; so the lines are numbered from one by position exactly as
    long as no benchmark fails.  The line that follows gives the number
    of rows with a true status out of the number of rows. *)
Theorem console_summary (e : env) (w : world) (bs : list (string * string))
    (w1 : world) (stats : table) (c : Z) :
  arg_missing (arg_s e) = false →
  arg_missing (arg_p e) = false →
  sim_logs e = Some bs →
  NoDup bs.*1 →
  Z.of_nat (length bs) < 10 ^ 640 →
  summary_loop 0 bs init_table 0 (wprint w ("Benchmark summary:" +:+ NL))
  = (w1, Ok (stats, c)) →
  stats.*1 = bs.*1
  ∧ c = Z.of_nat (length (filter (fun item : string * row =>
                                     status_of item.2 = true) stats))
  ∧ (∃ lines,
       length lines = length stats
       ∧ stdout w1 = stdout w +:+ "Benchmark summary:" +:+ NL +:+ concat_all lines
       ∧ (∀ (k : nat) b r, stats !! k = Some (b, r) →
            ∃ line n x,
              lines !! k = Some line
              ∧ (status_of r = true →
                 n = repeat_char " " (4 - String.length (pretty (Z.of_nat k + 1)))
                     +:+ pretty (Z.of_nat k + 1))
              ∧ (status_of r = false →
                 n = repeat_char " " (4 - String.length (pretty (Z.of_nat k)))
                     +:+ pretty (Z.of_nat k))
              ∧ (∃ ms, holds r ms ∧ py_format_f2 (ms_ipc ms) = Ok x)
              ∧ two_decimals x
              ∧ line = (n +:+ ") " +:+ py_format_s 15 (bench_id b) +:+ ": "
                          +:+ (if status_of r then SUCCESS_TAG else FAILURE_TAG)
                          +:+ " (IPC=" +:+ x +:+ ")") +:+ NL)
       ∧ ((∀ b r, (b, r) ∈ stats → status_of r = true) →
          specified_summary positions_from_one stats = Ok (concat_all lines)))
  ∧ main e w
    = gate_and_export (default "" (arg_p e)) stats
        (wprint w1 ("Correctly executed testbenches " +:+ pretty c +:+ " out of "
                      +:+ pretty (Z.of_nat (length stats)) +:+ "." +:+ NL)).
Proof.
  intros Hs Hp Hl Hnd Hsmall Hloop.
  pose proof Hloop as (lines & Hpure & ->)%summary_loop_Ok.
  pose proof (summary_pure_rows_ok _ _ _ _ _ _ _ ltac:(constructor) Hpure) as Hok.
  apply summary_pure_fresh in Hpure as (new & Hnew & Hkeys & Hlen & Hlines & Hc);
    [|done|by intros b _ ?%elem_of_nil].
  simpl in Hnew. subst new.
  assert (length stats = length bs) as Hsame
    by (rewrite <- (length_fmap fst stats), Hkeys; apply length_fmap).
  assert (∀ (k : nat) b r, stats !! k = Some (b, r) →
            ∃ line, lines !! k = Some line
                    ∧ row_ok r ∧ Z.of_nat k + 1 < 10 ^ 640
                    ∧ console_line (Z.of_nat k) b r = Ok line) as Hrows.
  { intros k b r Hk. destruct (Hlines k b r Hk) as (line & Hline & Hcl).
    exists line. split; [done|]. rewrite Z.add_0_l in Hcl.
    split; [|split; [|done]].
    - rewrite Forall_forall in Hok.
      apply (Hok (b, r)). by eapply list_elem_of_lookup_2.
    - apply lookup_lt_Some in Hk. lia. }
  split; [done|]. split; [by rewrite Hc|]. split.
  - exists lines. split; [done|]. split.
    { unfold wprint. simpl. by rewrite !string_app_assoc. }
    split.
    + intros k b r Hk.
      destruct (Hrows k b r Hk) as (line & Hline & Hr & Hbound & Hcl).
      destruct (console_line_number _ _ _ _ Hr (Nat2Z.is_nonneg k) Hbound Hcl)
        as (_ & x & Hx & Hdec & Htext).
      exists line,
        (repeat_char " "
           (4 - String.length (pretty (Z.of_nat k + Z.b2z (status_of r))))
         +:+ pretty (Z.of_nat k + Z.b2z (status_of r))), x.
      split; [done|].
      split; [by intros ->|].
      split; [intros ->; simpl; by rewrite Z.add_0_r|].
      split; [done|]. split; [done|].
      rewrite Htext. by rewrite !string_app_assoc.
    + intros Hall. apply lines_numbered_by_position; [done|].
      intros k b r Hk.
      destruct (Hrows k b r Hk) as (line & Hline & Hr & Hbound & Hcl).
      split; [apply (Hall b r); by eapply list_elem_of_lookup_2|].
      exists line. split; [done|].
      by apply (console_line_number _ _ _ _ Hr (Nat2Z.is_nonneg k) Hbound Hcl).
  - by apply (main_summary e w bs).
Qed.


(** ** What can go wrong

    The only exceptions the script lets escape are the [OverflowError]
    of a quotient too large for a float, the [ValueError] of an integer
    too long to print, and its own [sys.exit]; in particular the
    operations on values that the model leaves out are never reached. *)

Lemma update_table_raises (t : table) (b log : string) (ex : exn) :
  update_table t b log = Raise ex →
  ex = OverflowError
  ∧ ipc_of (parse_retired_instructions log) (parse_cycles log)
    = Raise OverflowError.
Proof.
  rewrite update_table_unfold.
  destruct (ipc_of_spec (parse_retired_instructions log) (parse_cycles log))
    as (_ & Hzero & Hdiv).
  destruct (Z.eq_dec (parse_cycles log) 0) as [Hc|Hc].
  - by rewrite (Hzero Hc).
  - destruct (Hdiv Hc) as [->|(f & _ & -> & _)]; [|done].
    by intros [= <-].
Qed.

Lemma console_line_Ok (i : Z) (b : string) (r : row) :
  row_ok r → 0 ≤ i → i + 1 < 10 ^ 640 →
  ∃ line, console_line i b r = Ok line.
Proof.
  intros Hr Hi Hsmall. pose proof Hr as (ms & Hh & Hc).
  destruct (consistent_ipc_text ms Hc) as (x & Hx & _).
  unfold console_line, line_with_number.
  rewrite (getitem_status r Hr), !bind_Ok.
  rewrite py_format_d_small by (destruct (py_truth _); lia).
  rewrite bind_Ok.
  assert (getitem r "ipc" = Ok (ms_ipc ms)) as ->.
  { unfold getitem. by rewrite (proj1 (proj2 (proj2 (proj2 Hh)))). }
  rewrite bind_Ok, Hx, bind_Ok. by eexists.
Qed.

(** The main loop runs to its end unless a quotient overflows. *)
Lemma summary_loop_outcome (bs : list (string * string)) :
  ∀ (i : Z) (stats : table) (c : Z) (w : world),
    0 ≤ i → i + Z.of_nat (length bs) < 10 ^ 640 →
    Forall (fun item => row_ok item.2) stats →
    (∃ w1 stats' c', summary_loop i bs stats c w = (w1, Ok (stats', c')))
    ∨ (∃ w1, summary_loop i bs stats c w = (w1, Raise OverflowError)
             ∧ csv_file w1 = csv_file w
             ∧ ∃ b contents,
                 (b, contents) ∈ bs
                 ∧ ipc_of (parse_retired_instructions (report_of contents))
                          (parse_cycles (report_of contents))
                   = Raise OverflowError).
Proof.
  induction bs as [|[b contents] bs IH]; intros i stats c w Hi Hsmall Hok.
  - left. by eexists _, _, _.
  - cbn [summary_loop]. rewrite io_bind_unfold, summary_step_eq.
    cbn [length] in Hsmall.
    destruct (update_table stats b (report_of contents)) as [s1|ex] eqn:Hup.
    + rewrite bind_Ok.
      pose proof (update_table_rows_ok _ _ _ _ Hok Hup) as Hok1.
      destruct (update_table_row_ok _ _ _ _ Hup) as (r & Hr & Hrow).
      unfold table_getitem. rewrite Hr, bind_Ok.
      destruct (console_line_Ok i b r Hrow Hi ltac:(lia)) as (line & ->).
      rewrite bind_Ok, (getitem_status r Hrow), bind_Ok.
      destruct (IH (i + 1) s1
                  (if py_truth (VBool (status_of r)) then c + 1 else c)
                  (wprint w line) ltac:(lia) ltac:(lia) Hok1)
        as [(w1 & s2 & c2 & ->)|(w1 & -> & Hfile & b' & cn' & Hin & Hov)].
      * left. by eexists _, _, _.
      * right. exists w1. split; [done|]. split; [done|].
        exists b', cn'. split; [by right|done].
    + apply update_table_raises in Hup as [-> Hov]. rewrite bind_Raise.
      right. exists w. split; [done|]. split; [done|].
      exists b, contents. split; [by left|done].
Qed.

Lemma write_field_eq (r : row) (k sep : string) (w : world) :
  write_field r k sep w
  = match field_text r k with
    | Ok s => (wfile w (s +:+ sep), Ok ())
    | Raise ex => (w, Raise ex)
    end.
Proof.
  unfold write_field, field_text. rewrite io_lift_bind.
  destruct (getitem r k) as [v|ex]; [|done].
  rewrite bind_Ok, io_lift_bind. by destruct (py_str v).
Qed.

Lemma field_text_int_cases (r : row) (k : string) (z : Z) :
  r !! k = Some (VInt z) →
  field_text r k = Ok (pretty z) ∨ field_text r k = Raise ValueError.
Proof.
  intros Hk. unfold field_text, getitem. rewrite Hk, bind_Ok.
  unfold py_str, str_int. destruct (exceeds_str_digits _); auto.
Qed.

Ltac step_field H :=
  rewrite io_bind_unfold, write_field_eq;
  destruct (field_text_int_cases _ _ _ H) as [-> | ->];
  [|by intros [= _ <-]].

Lemma write_row_raises (b : string) (r : row) (w w' : world) (ex : exn) :
  row_ok r → write_row (b, r) w = (w', Raise ex) → ex = ValueError.
Proof.
  intros (ms & (H1&H2&H3&H4&H5&H6&H7&H8&H9&H10&H11&H12&H13&H14) & Hc).
  destruct (consistent_ipc_text ms Hc) as (x & Hx & _).
  unfold write_row. rewrite io_file_write_bind.
  rewrite io_bind_unfold, write_field_eq, (field_text_bool _ _ _ H1).
  step_field H2. step_field H3.
  rewrite io_bind_unfold, io_lift_bind. unfold getitem at 1.
  rewrite H4, io_lift_bind, Hx. unfold file_write at 1.
  step_field H5. step_field H6. step_field H7. step_field H8. step_field H9.
  step_field H10. step_field H11. step_field H12. step_field H13.
  rewrite write_field_eq.
  destruct (field_text_int_cases _ _ _ H14) as [-> | ->]; [done|].
  by intros [= _ <-].
Qed.

Lemma io_for_write_raises (t : table) :
  ∀ (w w' : world) (ex : exn),
    Forall (fun item => row_ok item.2) t →
    io_for t write_row w = (w', Raise ex) → ex = ValueError.
Proof.
  induction t as [|[b r] t IH]; intros w w' ex Hok; [done|].
  apply Forall_cons in Hok as [Hr Hok].
  cbn [io_for]. rewrite io_bind_unfold.
  destruct (write_row (b, r) w) as [w1 [[]|ex1]] eqn:Hrow.
  - by apply IH.
  - intros [= _ <-]. by eapply write_row_raises.
Qed.

Lemma gate_and_export_raises (PATH : string) (stats : table) (w w' : world)
    (ex : exn) :
  Forall (fun item => row_ok item.2) stats →
  gate_and_export PATH stats w = (w', Raise ex) →
  ex = SystemExit 1 ∨ ex = ValueError.
Proof.
  intros Hok. destruct (failing stats) as [|item rest] eqn:Hf.
  - rewrite (gate_and_export_pass _ _ _ Hok Hf).
    unfold print_table_to_file_csv.
    rewrite io_bind_unfold. unfold open_w at 1. rewrite io_file_write_bind.
    intros Hio. right. by eapply io_for_write_raises.
  - rewrite (gate_and_export_fail _ _ _ Hok) by (by rewrite Hf).
    intros [= _ <-]. by left.
Qed.

(** Whatever the two options and the directory, the script ends
    normally or with one of four exceptions. *)
Lemma main_raises (e : env) (w w' : world) (ex : exn) :
  (∀ bs, sim_logs e = Some bs → Z.of_nat (length bs) < 10 ^ 640) →
  main e w = (w', Raise ex) →
  ex = SystemExit 2 ∨ ex = SystemExit 1 ∨ ex = OverflowError ∨ ex = ValueError.
Proof.
  intros Hsmall.
  destruct (arg_missing (arg_s e)) eqn:Hs.
  { unfold main. rewrite Hs. intros [= _ <-]. by left. }
  destruct (arg_missing (arg_p e)) eqn:Hp.
  { unfold main. rewrite Hs, Hp. intros [= _ <-]. by left. }
  destruct (sim_logs e) as [bs|] eqn:Hl.
  - specialize (Hsmall bs eq_refl).
    rewrite (main_run e w bs Hs Hp Hl).
    destruct (summary_loop_outcome bs 0 init_table 0
                (wprint w ("Benchmark summary:" +:+ NL))
                ltac:(lia) ltac:(lia) ltac:(constructor))
      as [(w1 & stats & c & Hloop)|(w1 & Hloop & _)].
    + pose proof (main_summary e w bs w1 stats c Hs Hp Hl Hsmall Hloop) as Hm.
      rewrite (main_run e w bs Hs Hp Hl) in Hm. rewrite Hm.
      destruct (summary_loop_rows_ok _ _ _ _ _ Hloop) as [Hok _].
      intros [?|?]%gate_and_export_raises; auto.
    + rewrite Hloop. intros [= _ <-]. auto.
  - unfold main, get_benchmarks. rewrite Hs, Hp, Hl. intros [= _ <-]. by left.
Qed.

(** ** When the export succeeds *)

Lemma field_text_Ok_printable (r : row) (k : string) (z : Z) (s : string) :
  r !! k = Some (VInt z) → field_text r k = Ok s → printable z.
Proof.
  intros Hk. unfold field_text, getitem. rewrite Hk, bind_Ok.
  unfold py_str, str_int, printable.
  by destruct (exceeds_str_digits _).
Qed.

(** A row that [csv_row] can turn into text has nothing too long to
    print. *)
Lemma csv_row_printable (b : string) (r : row) (ms : metricset) (line : string) :
  holds r ms → csv_row (b, r) = Ok line → printable_metrics ms.
Proof.
  intros (H1&H2&H3&H4&H5&H6&H7&H8&H9&H10&H11&H12&H13&H14). unfold csv_row.
  destruct (field_text r "status") as [s1|?]; [rewrite bind_Ok|done].
  destruct (field_text r "instructions") as [s2|?] eqn:E2; [rewrite bind_Ok|done].
  destruct (field_text r "cycles") as [s3|?] eqn:E3; [rewrite bind_Ok|done].
  destruct (getitem r "ipc") as [v|?]; [rewrite bind_Ok|done].
  destruct (py_format_f2 v) as [s4|?]; [rewrite bind_Ok|done].
  destruct (field_text r "jumps") as [s5|?] eqn:E5; [rewrite bind_Ok|done].
  destruct (field_text r "branches") as [s6|?] eqn:E6; [rewrite bind_Ok|done].
  destruct (field_text r "branch/jump") as [s7|?] eqn:E7; [rewrite bind_Ok|done].
  destruct (field_text r "loads") as [s8|?] eqn:E8; [rewrite bind_Ok|done].
  destruct (field_text r "stores") as [s9|?] eqn:E9; [rewrite bind_Ok|done].
  destruct (field_text r "load/store") as [s10|?] eqn:E10; [rewrite bind_Ok|done].
  destruct (field_text r "instr_fetches") as [s11|?] eqn:E11; [rewrite bind_Ok|done].
  destruct (field_text r "read_req") as [s12|?] eqn:E12; [rewrite bind_Ok|done].
  destruct (field_text r "write_req") as [s13|?] eqn:E13; [rewrite bind_Ok|done].
  destruct (field_text r "memory_req") as [s14|?] eqn:E14; [rewrite bind_Ok|done].
  intros _. unfold printable_metrics.
  repeat split; eapply field_text_Ok_printable; eassumption.
Qed.

(** A row that was written in full is one that [csv_row] turns into
    text. *)
Lemma write_row_Ok_inv (item : string * row) (w w' : world) :
  write_row item w = (w', Ok ()) → ∃ line, csv_row item = Ok line.
Proof.
  destruct item as [b r]. unfold write_row, csv_row.
  rewrite io_file_write_bind.
  assert (∀ (k sep : string) (w0 : world) (f : unit → IO unit)
            (g : string → result string),
            (write_field r k sep ≫= f) w0 = (w', Ok ()) →
            ∃ s, field_text r k = Ok s
                 ∧ f () (wfile w0 (s +:+ sep)) = (w', Ok ())) as Hstep.
  { intros k sep w0 f _. rewrite io_bind_unfold, write_field_eq.
    destruct (field_text r k) as [s|ex]; [|done]. intros Hf. by exists s. }
  intros H.
  apply (Hstep _ _ _ _ (fun s => Ok s)) in H as (s1 & -> & H).
  apply (Hstep _ _ _ _ (fun s => Ok s)) in H as (s2 & -> & H).
  apply (Hstep _ _ _ _ (fun s => Ok s)) in H as (s3 & -> & H).
  rewrite io_bind_unfold, io_lift_bind in H.
  destruct (getitem r "ipc") as [v|ex]; [|done].
  rewrite io_lift_bind in H.
  destruct (py_format_f2 v) as [s4|ex] eqn:E4; [|done].
  unfold file_write at 1 in H.
  apply (Hstep _ _ _ _ (fun s => Ok s)) in H as (s5 & -> & H).
  apply (Hstep _ _ _ _ (fun s => Ok s)) in H as (s6 & -> & H).
  apply (Hstep _ _ _ _ (fun s => Ok s)) in H as (s7 & -> & H).
  apply (Hstep _ _ _ _ (fun s => Ok s)) in H as (s8 & -> & H).
  apply (Hstep _ _ _ _ (fun s => Ok s)) in H as (s9 & -> & H).
  apply (Hstep _ _ _ _ (fun s => Ok s)) in H as (s10 & -> & H).
  apply (Hstep _ _ _ _ (fun s => Ok s)) in H as (s11 & -> & H).
  apply (Hstep _ _ _ _ (fun s => Ok s)) in H as (s12 & -> & H).
  apply (Hstep _ _ _ _ (fun s => Ok s)) in H as (s13 & -> & H).
  rewrite write_field_eq in H.
  destruct (field_text r "memory_req") as [s14|ex]; [|done].
  rewrite !bind_Ok, E4, !bind_Ok. by eexists.
Qed.

Lemma io_for_write_Ok_inv (t : table) :
  ∀ w w' : world,
    io_for t write_row w = (w', Ok ()) →
    ∀ item, item ∈ t → ∃ line, csv_row item = Ok line.
Proof.
  induction t as [|item t IH]; intros w w' Hio item' Hin.
  - by apply elem_of_nil in Hin.
  - cbn [io_for] in Hio. rewrite io_bind_unfold in Hio.
    destruct (write_row item w) as [w1 [u|ex]] eqn:Hrow; [|done].
    destruct u. apply elem_of_cons in Hin as [->|Hin].
    + by eapply write_row_Ok_inv.
    + by eapply IH.
Qed.

(** The script ends with status 0 only after the gating check has
    passed and the whole table has been written: every number of the
    table was short enough to print. *)
Lemma exit_zero_printable (e : env) (w : world) (bs : list (string * string))
    (w1 : world) (stats : table) (c : Z) :
  arg_missing (arg_s e) = false →
  arg_missing (arg_p e) = false →
  sim_logs e = Some bs →
  Z.of_nat (length bs) < 10 ^ 640 →
  summary_loop 0 bs init_table 0 (wprint w ("Benchmark summary:" +:+ NL))
  = (w1, Ok (stats, c)) →
  (run e w).2 = 0 →
  failing stats = []
  ∧ ∀ b r ms, (b, r) ∈ stats → holds r ms → printable_metrics ms.
Proof.
  intros Hs Hp Hl Hsmall Hloop Hrun.
  pose proof (main_summary e w bs w1 stats c Hs Hp Hl Hsmall Hloop) as Hmain.
  destruct (summary_loop_rows_ok _ _ _ _ _ Hloop) as [Hok _].
  unfold run in Hrun. rewrite Hmain in Hrun.
  destruct (failing stats) as [|item rest] eqn:Hf.
  2:{ rewrite (gate_and_export_fail _ _ _ Hok) in Hrun by (by rewrite Hf).
      done. }
  split; [done|].
  rewrite (gate_and_export_pass _ _ _ Hok Hf) in Hrun.
  match type of Hrun with
  | context [print_table_to_file_csv stats ?w0] =>
      destruct (print_table_to_file_csv stats w0) as [w' [u|ex]] eqn:Hcsv
  end.
  - intros b r ms Hin Hh.
    unfold print_table_to_file_csv in Hcsv.
    rewrite io_bind_unfold in Hcsv. unfold open_w at 1 in Hcsv.
    rewrite io_file_write_bind in Hcsv. destruct u.
    destruct (io_for_write_Ok_inv _ _ _ Hcsv (b, r) Hin) as (line & Hline).
    by eapply csv_row_printable.
  - exfalso.
    unfold print_table_to_file_csv in Hcsv.
    rewrite io_bind_unfold in Hcsv. unfold open_w at 1 in Hcsv.
    rewrite io_file_write_bind in Hcsv.
    apply io_for_write_raises in Hcsv; [|done]. subst ex. done.
Qed.

(** ** How long the decimal text of a number is, at least *)

Lemma pretty_N_go_length_ge (x : N) :
  ∀ s : string,
    (String.length s ≤ String.length (pretty_N_go x s))%nat
    ∧ ∀ k : nat, (10 ^ N.of_nat k ≤ x)%N →
        (String.length s + k + 1 ≤ String.length (pretty_N_go x s))%nat.
Proof.
  induction x as [x IH] using (well_founded_induction N.lt_wf_0).
  intros s. destruct (decide (x = 0%N)) as [->|Hne].
  - rewrite pretty_N_go_0. split; [done|]. intros k Hk.
    assert (0 < 10 ^ N.of_nat k)%N by (apply N.neq_0_lt_0, N.pow_nonzero; lia).
    lia.
  - rewrite pretty_N_go_step by lia.
    assert (x `div` 10 < x)%N as Hlt by (apply N.div_lt; lia).
    destruct (IH _ Hlt (String (pretty_N_char (x `mod` 10)) s)) as [Hmono Hlog].
    cbn [String.length] in Hmono, Hlog.
    split; [lia|]. intros [|k] Hk; [lia|].
    assert (10 ^ N.of_nat k ≤ x `div` 10)%N as Hk'.
    { rewrite Nat2N.inj_succ, N.pow_succ_r' in Hk.
      apply N.div_le_lower_bound; lia. }
    specialize (Hlog k Hk'). lia.
Qed.

Lemma pretty_Z_length_ge (z : Z) (k : nat) :
  10 ^ Z.of_nat k ≤ z → (k + 1 ≤ String.length (pretty z))%nat.
Proof.
  intros Hz.
  assert (0 < 10 ^ Z.of_nat k) by (apply Z.pow_pos_nonneg; lia).
  destruct z as [|p|p]; [lia| |lia].
  unfold pretty, pretty_Z, pretty, pretty_positive, pretty, pretty_N.
  rewrite decide_False by done.
  destruct (pretty_N_go_length_ge (N.pos p) "") as [_ Hlog].
  apply (Hlog k). apply N2Z.inj_le. rewrite N2Z.inj_pow, nat_N_Z. simpl. lia.
Qed.

(** A number of more digits than the interpreter's limit cannot be
    printed. *)
Lemma long_unprintable (z : Z) (k : nat) :
  10 ^ Z.of_nat k ≤ Z.abs z →
  (640 ≤ k)%nat → (0 < int_max_str_digits)%N →
  (int_max_str_digits ≤ N.of_nat k)%N →
  ¬ printable z.
Proof.
  intros Hz Hk Hpos Hmax. unfold printable, exceeds_str_digits.
  pose proof (pretty_Z_length_ge _ _ Hz) as Hlen.
  set (n := String.length (pretty (Z.abs z))) in *. clearbody n.
  rewrite (proj2 (N.ltb_lt 640 (N.of_nat n))) by lia.
  rewrite (proj2 (N.ltb_lt 0 int_max_str_digits)) by done.
  rewrite (proj2 (N.ltb_lt int_max_str_digits (N.of_nat n))) by lia.
  done.
Qed.

(** ** The gating check and the exit status *)

(** C1, as the code has it: once every log has been read, a benchmark
    outside the whitelist with a false status makes the script print
    the names of all such benchmarks, joined by a comma and a space,
    and exit with status 1, the CSV file untouched; when there is none
    (failures among whitelisted names do not count) and every number of
    the table is short enough for the interpreter to print, the script
    writes the CSV file, the header and one line per row of the table
    in table order, and exits with status 0.  It exits with status 0 in
    no other case. *)
Theorem gating_exit_code (e : env) (w : world) (bs : list (string * string))
    (w1 : world) (stats : table) (c : Z) :
  arg_missing (arg_s e) = false →
  arg_missing (arg_p e) = false →
  sim_logs e = Some bs →
  Z.of_nat (length bs) < 10 ^ 640 →
  summary_loop 0 bs init_table 0 (wprint w ("Benchmark summary:" +:+ NL))
  = (w1, Ok (stats, c)) →
  let w2 := wprint w1 ("Correctly executed testbenches " +:+ pretty c
                         +:+ " out of " +:+ pretty (Z.of_nat (length stats))
                         +:+ "." +:+ NL) in
  (failing stats = [] ↔
   ∀ b r, (b, r) ∈ stats → whitelisted b = false → status_of r = true)
  ∧ (failing stats ≠ [] →
     run e w = (wprint w2 (failure_message stats), 1)
     ∧ csv_file (run e w).1 = csv_file w)
  ∧ (failing stats = [] →
     (∀ b r ms, (b, r) ∈ stats → holds r ms → printable_metrics ms) →
     ∃ lines,
       run e w
       = (mkworld (stdout w2 +:+ "Saving the csv report to "
                     +:+ default "" (arg_p e) +:+ "/output." +:+ NL)
                  (Some (csv_header +:+ concat_all lines)), 0)
       ∧ length lines = length stats
       ∧ ∀ k b r, stats !! k = Some (b, r) →
           ∃ ms x, holds r ms ∧ py_format_f2 (ms_ipc ms) = Ok x
                   ∧ lines !! k
                     = Some (String.concat "," (csv_fields b ms x) +:+ NL))
  ∧ ((run e w).2 = 0 →
     failing stats = []
     ∧ ∀ b r ms, (b, r) ∈ stats → holds r ms → printable_metrics ms).
Proof.
  intros Hs Hp Hl Hsmall Hloop w2.
  pose proof (main_summary e w bs w1 stats c Hs Hp Hl Hsmall Hloop) as Hmain.
  fold w2 in Hmain.
  destruct (summary_loop_rows_ok _ _ _ _ _ Hloop) as [Hok Hcsv].
  split; [apply failing_nil_iff|]. split; [|split].
  - intros Hfail. unfold run.
    rewrite Hmain, (gate_and_export_fail _ _ _ Hok Hfail). by split.
  - intros Hpass Hprint.
    destruct (csv_rows_Ok stats Hok Hprint) as (lines & Hlines).
    exists lines. unfold run.
    rewrite Hmain, (gate_and_export_pass _ _ _ Hok Hpass).
    rewrite (print_table_to_file_csv_Ok _ _ _ Hlines).
    split; [done|].
    destruct (io_for_write_rows stats lines (wfile w "") ltac:(by eexists) Hlines)
      as (_ & Hlen & Hk).
    split; [done|]. intros k b r Hkr.
    destruct (Hk k (b, r) Hkr) as (line & Hline & Hrow).
    assert (row_ok r) as (ms & Hh & Hc).
    { rewrite Forall_forall in Hok.
      apply (Hok (b, r)). by eapply list_elem_of_lookup_2. }
    destruct (csv_row_text b r ms Hh Hc) as (x & Hx & _ & Hrow').
    { apply (Hprint b r); [by eapply list_elem_of_lookup_2|done]. }
    exists ms, x. split; [done|]. split; [done|].
    rewrite Hrow' in Hrow. by injection Hrow as <-.
  - by apply (exit_zero_printable e w bs w1 stats c).
Qed.

(** * Further properties of the script *)

(** ** What comes before the marker *)

Lemma substring_prefix (p s : string) :
  String.substring 0 (String.length p) (p +:+ s) = p.
Proof.
  induction p as [|c p IH]; [apply substring_zero|].
  change (String c (String.substring 0 (String.length p) (p +:+ s)) = String c p).
  by rewrite IH.
Qed.

Lemma py_find_0 (s sub : string) :
  py_find s sub 0
  = match String.index 0 sub s with Some i => Z.of_nat i | None => -1 end.
Proof. done. Qed.

Lemma index_from (n i : nat) (sub s : string) :
  String.index 0 sub s = Some i → (n ≤ i)%nat → String.index n sub s = Some i.
Proof.
  intros Hi Hn.
  pose proof (String.index_correct1 _ _ _ _ Hi) as Hocc.
  pose proof (String.index_correct2 _ _ _ _ Hi) as Hfirst.
  destruct sub as [|c sub].
  { destruct s as [|a s]; simpl in Hi.
    - injection Hi as <-. by replace n with 0%nat by lia.
    - injection Hi as <-. by replace n with 0%nat by lia. }
  destruct (String.index n (String c sub) s) as [j|] eqn:Hj.
  - pose proof (String.index_correct1 _ _ _ _ Hj) as Hoccj.
    pose proof (String.index_correct2 _ _ _ _ Hj) as Hfirstj.
    f_equal. destruct (lt_eq_lt_dec i j) as [[Hlt|Heq]|Hgt]; [|done|].
    + exfalso. by apply (Hfirstj i).
    + exfalso. apply (Hfirst j); [lia|done|done].
  - exfalso. by apply (String.index_correct3 _ i _ _ Hj).
Qed.

Lemma py_slice_app_skip (p s : string) (a j : nat) :
  py_slice (p +:+ s) (Some (Z.of_nat (String.length p + a)))
                     (Some (Z.of_nat (String.length p + j)))
  = py_slice s (Some (Z.of_nat a)) (Some (Z.of_nat j)).
Proof.
  unfold py_slice, adjust_index, py_len. cbn [default from_option id].
  rewrite !of_nat_ltb_0, string_length_app.
  replace (Z.to_nat (Z.min (Z.of_nat (String.length p + a))
                           (Z.of_nat (String.length p + String.length s))))
    with (String.length p + Nat.min a (String.length s))%nat by lia.
  rewrite substring_app_skip. f_equal; lia.
Qed.

Lemma py_slice_app_skip_minus_one (p s : string) (a : nat) :
  py_slice (p +:+ s) (Some (Z.of_nat (String.length p + a))) (Some (-1))
  = py_slice s (Some (Z.of_nat a)) (Some (-1)).
Proof.
  unfold py_slice, adjust_index, py_len. cbn [default from_option id].
  rewrite !of_nat_ltb_0, string_length_app. change (-1 <? 0) with true. cbv iota.
  replace (Z.to_nat (Z.min (Z.of_nat (String.length p + a))
                           (Z.of_nat (String.length p + String.length s))))
    with (String.length p + Nat.min a (String.length s))%nat by lia.
  rewrite substring_app_skip.
  destruct s as [|c s].
  - by rewrite !substring_nil.
  - f_equal; [lia|]. simpl String.length. lia.
Qed.

(** A prefix that ends at or before the first occurrence of the marker
    can be dropped. *)
Lemma scrape_drop_prefix (M T : string) (base : N) (d : Z) (pre rest : string)
    (i : nat) :
  py_find (pre +:+ rest) M 0 = Z.of_nat i →
  (String.length pre ≤ i)%nat →
  py_find rest M 0 = Z.of_nat (i - String.length pre)
  ∧ scrape M T base d (pre +:+ rest) = scrape M T base d rest.
Proof.
  intros Hi Hle.
  assert (String.index 0 M (pre +:+ rest) = Some i) as Hidx.
  { rewrite py_find_0 in Hi.
    destruct (String.index 0 M (pre +:+ rest)) as [i'|]; [|lia].
    f_equal. lia. }
  apply (index_from (String.length pre)) in Hidx; [|done].
  rewrite <- (Nat.add_0_r (String.length pre)), index_app_skip in Hidx.
  destruct (String.index 0 M rest) as [k|] eqn:Hk; [|done].
  injection Hidx as Hik.
  assert (py_find rest M 0 = Z.of_nat k) as Hrest by (by rewrite py_find_0, Hk).
  split; [rewrite Hrest; f_equal; lia|].
  rewrite (scrape_found _ _ _ _ _ i Hi), (scrape_found _ _ _ _ _ k Hrest).
  unfold py_len. rewrite <- !Nat2Z.inj_add.
  replace (i + String.length M)%nat
    with (String.length pre + (k + String.length M))%nat by lia.
  rewrite py_find_app_skip.
  assert (py_find rest T (Z.of_nat (k + String.length M))
          = match String.index (k + String.length M) T rest with
            | Some j => Z.of_nat j
            | None => -1
            end) as ->.
  { unfold py_find. by rewrite of_nat_ltb_0, Nat2Z.id. }
  destruct (String.index (k + String.length M) T rest) as [j|].
  - by rewrite py_slice_app_skip.
  - by rewrite py_slice_app_skip_minus_one.
Qed.

(** X1: an extractor reads its value after the first occurrence of its
    marker, and nothing before that occurrence matters: a prefix of the
    log that ends at or before it can be removed without changing the
    value. *)
Theorem extract_first_occurrence (m : metric) (pre rest : string) (i : nat) :
  py_find (pre +:+ rest) (marker m) 0 = Z.of_nat i →
  (String.length pre ≤ i)%nat →
  extract m (pre +:+ rest) = extract m rest.
Proof.
  intros Hi Hle. rewrite !extract_scrape.
  by apply (scrape_drop_prefix _ _ _ _ _ _ i).
Qed.

(** ** Only the text up to the terminator is looked at *)

Lemma index_char_first (c : ascii) (u v : string) :
  char_in c u = false →
  String.index 0 (String c "") (u +:+ String c v) = Some (String.length u).
Proof.
  induction u as [|a u IH]; intros Hu.
  - change ("" +:+ String c v) with (String c v). simpl.
    destruct (ascii_dec c c); [|done]. by destruct v.
  - cbn [char_in] in Hu. apply orb_false_elim in Hu as [Ha Hu].
    apply Ascii.eqb_neq in Ha.
    change (String a u +:+ String c v) with (String a (u +:+ String c v)).
    simpl. destruct (ascii_dec c a) as [->|_]; [done|].
    change (match String.index 0 (String c "") (u +:+ String c v) with
            | Some n => Some (S n)
            | None => None
            end = Some (S (String.length u))).
    by rewrite (IH Hu).
Qed.

Lemma index_char_None (c : ascii) (u : string) :
  String.index 0 (String c "") u = None → char_in c u = false.
Proof.
  induction u as [|a u IH]; [done|].
  simpl. destruct (ascii_dec c a) as [->|Hne].
  - by destruct u.
  - destruct (String.index 0 (String c "") u); [done|].
    intros _. rewrite IH by done. rewrite orb_false_r.
    apply Ascii.eqb_neq. congruence.
Qed.

(** A report line read by [scrape]: the marker, the padded field, the
    one-character terminator. *)
Lemma scrape_line (M : string) (t : ascii) (base : N) (d : Z)
    (field rest : string) :
  M ≠ "" → char_in t field = false →
  scrape M (String t "") base d (M +:+ field +:+ String t rest)
  = default d (py_int base (py_strip " " field)).
Proof.
  intros HM Ht.
  assert (py_find (M +:+ field +:+ String t rest) M 0 = Z.of_nat 0) as Hi.
  { rewrite py_find_0, occurs_at_0_index; [done|done|].
    unfold occurs_at. apply substring_prefix. }
  rewrite (scrape_found _ _ _ _ _ 0 Hi).
  unfold py_len. rewrite <- !Nat2Z.inj_add. simpl (0 + _)%nat.
  rewrite <- (Nat.add_0_r (String.length M)) at 2.
  rewrite py_find_app_skip, index_char_first by done.
  rewrite py_slice_between
    by (rewrite !string_length_app; simpl; lia).
  replace (String.length M + String.length field - String.length M)%nat
    with (String.length field) by lia.
  pose proof (substring_app_skip M (field +:+ String t rest) 0
                (String.length field)) as Hsub.
  rewrite Nat.add_0_r in Hsub. by rewrite Hsub, substring_prefix.
Qed.

(** X2: the value of a metric depends on the log only through the text
    that lies between the first occurrence of its marker and the first
    terminator after it: with spaces stripped, that text is handed to
    [int], and the default is returned when [int] rejects it. *)
Theorem extract_local (m : metric) (pre field rest : string) :
  py_find (pre +:+ marker m +:+ field +:+ terminator m +:+ rest) (marker m) 0
  = Z.of_nat (String.length pre) →
  py_find field (terminator m) 0 = -1 →
  extract m (pre +:+ marker m +:+ field +:+ terminator m +:+ rest)
  = default (fallback_of m) (py_int (radix m) (py_strip " " field)).
Proof.
  intros Hfirst Hfield. rewrite extract_scrape.
  destruct (scrape_drop_prefix (marker m) (terminator m) (radix m)
              (fallback_of m) pre _ _ Hfirst ltac:(lia)) as [_ ->].
  assert (∃ t, terminator m = String t "") as (t & Ht)
    by (destruct m; by eexists).
  rewrite Ht in Hfield |- *.
  change (String t "" +:+ rest) with (String t rest).
  apply scrape_line; [by destruct m|].
  apply index_char_None. rewrite py_find_0 in Hfield.
  destruct (String.index 0 (String t "") field); [lia|done].
Qed.

(** ** Reading back a number that was written *)

Lemma pretty_N_char_facts (d : N) :
  (d < 10)%N →
  digit_value (pretty_N_char d) = Some d
  ∧ Ascii.eqb (pretty_N_char d) "_" = false
  ∧ pretty_N_char d ≠ " "%char ∧ pretty_N_char d ≠ "("%char
  ∧ pretty_N_char d ≠ LF.
Proof.
  intros Hd.
  assert (d = 0 ∨ d = 1 ∨ d = 2 ∨ d = 3 ∨ d = 4 ∨ d = 5 ∨ d = 6 ∨ d = 7
          ∨ d = 8 ∨ d = 9)%N as Hcases by lia.
  repeat (destruct Hcases as [->|Hcases]; [by vm_compute|]).
  subst d. by vm_compute.
Qed.

Lemma scan_digits_pretty_N_go (x : N) :
  ∀ (s : string) (acc nd : N),
    ∃ k : nat,
      String.length (pretty_N_go x s) = (k + String.length s)%nat
      ∧ ((0 < x)%N → (0 < k)%nat)
      ∧ scan_digits 10 false acc nd (pretty_N_go x s)
        = scan_digits 10 false (acc * 10 ^ N.of_nat k + x)%N
            (nd + N.of_nat k)%N s.
Proof.
  induction x as [x IH] using (well_founded_induction N.lt_wf_0).
  intros s acc nd. destruct (decide (x = 0%N)) as [->|Hne].
  - exists 0%nat. rewrite pretty_N_go_0. split; [done|]. split; [lia|].
    f_equal; simpl; lia.
  - rewrite pretty_N_go_step by lia.
    assert (x `div` 10 < x)%N as Hlt by (apply N.div_lt; lia).
    assert (x `mod` 10 < 10)%N as Hmod by (apply N.mod_lt; lia).
    destruct (IH _ Hlt (String (pretty_N_char (x `mod` 10)) s) acc nd)
      as (k & Hlen & _ & Hscan).
    exists (S k). split; [rewrite Hlen; simpl; lia|]. split; [lia|].
    rewrite Hscan. cbn [scan_digits].
    destruct (pretty_N_char_facts _ Hmod) as (-> & -> & _).
    replace (x `mod` 10 <? 10)%N with true by (symmetry; by apply N.ltb_lt).
    pose proof (N.div_mod x 10 ltac:(lia)) as Hdm.
    rewrite Nat2N.inj_succ, N.pow_succ_r'.
    f_equal; lia.
Qed.

Lemma pretty_N_go_head (x : N) :
  ∀ s : string,
    (0 < x)%N →
    ∃ d s', (d < 10)%N ∧ pretty_N_go x s = String (pretty_N_char d) s'.
Proof.
  induction x as [x IH] using (well_founded_induction N.lt_wf_0).
  intros s Hx. rewrite pretty_N_go_step by lia.
  assert (x `mod` 10 < 10)%N as Hmod by (apply N.mod_lt; lia).
  destruct (decide (x `div` 10 = 0)%N) as [->|Hne].
  - rewrite pretty_N_go_0. by eexists _, _.
  - apply IH; [apply N.div_lt; lia|]. by apply N.neq_0_lt_0.
Qed.

Lemma char_in_pretty_N_go (c : ascii) (x : N) :
  (∀ d, (d < 10)%N → pretty_N_char d ≠ c) →
  ∀ s : string, char_in c (pretty_N_go x s) = char_in c s.
Proof.
  intros Hc. induction x as [x IH] using (well_founded_induction N.lt_wf_0).
  intros s. destruct (decide (x = 0%N)) as [->|Hne].
  - by rewrite pretty_N_go_0.
  - rewrite pretty_N_go_step by lia.
    rewrite IH by (apply N.div_lt; lia). cbn [char_in].
    assert (x `mod` 10 < 10)%N as Hmod by (apply N.mod_lt; lia).
    by rewrite (proj2 (Ascii.eqb_neq _ _) (Hc _ Hmod)).
Qed.

Lemma py_int_digit_head (d : N) (s' : string) :
  (d < 10)%N →
  py_int 10 (String (pretty_N_char d) s')
  = match scan_digits 10 false 0 0 (String (pretty_N_char d) s') with
    | None => None
    | Some (v, nd, rest) =>
        if (nd =? 0)%N then None
        else if exceeds_str_digits nd then None
        else match skip_space rest with
             | EmptyString => Some (Z.of_N v)
             | _ => None
             end
    end
  ∧ py_int 10 (String "-" (String (pretty_N_char d) s'))
    = match scan_digits 10 false 0 0 (String (pretty_N_char d) s') with
      | None => None
      | Some (v, nd, rest) =>
          if (nd =? 0)%N then None
          else if exceeds_str_digits nd then None
          else match skip_space rest with
               | EmptyString => Some (- Z.of_N v)
               | _ => None
               end
      end.
Proof.
  intros Hd.
  assert (d = 0 ∨ d = 1 ∨ d = 2 ∨ d = 3 ∨ d = 4 ∨ d = 5 ∨ d = 6 ∨ d = 7
          ∨ d = 8 ∨ d = 9)%N as Hcases by lia.
  destruct Hcases as [->|Hcases]; [by destruct s'|].
  repeat (destruct Hcases as [->|Hcases]; [split; reflexivity|]).
  subst d. split; reflexivity.
Qed.

Lemma pretty_Zpos (p : positive) : pretty (Z.pos p) = pretty_N_go (N.pos p) "".
Proof.
  unfold pretty, pretty_Z, pretty, pretty_positive, pretty, pretty_N.
  by rewrite decide_False.
Qed.

Lemma pretty_Zneg (p : positive) :
  pretty (Z.neg p) = String "-" (pretty_N_go (N.pos p) "").
Proof.
  unfold pretty at 1, pretty_Z. by rewrite <- pretty_Zpos.
Qed.

(** [int] reads back the decimal text of an integer. *)
Lemma py_int_pretty (n : Z) : printable n → py_int 10 (pretty n) = Some n.
Proof.
  unfold printable. intros Hp.
  assert (∀ p : positive,
            exceeds_str_digits
              (N.of_nat (String.length (pretty_N_go (N.pos p) ""))) = false →
            ∃ d s', (d < 10)%N
              ∧ pretty_N_go (N.pos p) "" = String (pretty_N_char d) s'
              ∧ scan_digits 10 false 0 0 (pretty_N_go (N.pos p) "")
                = Some (N.pos p,
                        N.of_nat (String.length (pretty_N_go (N.pos p) "")), "")
              ∧ (N.of_nat (String.length (pretty_N_go (N.pos p) "")) =? 0)%N
                = false) as Hpos.
  { intros p _.
    destruct (pretty_N_go_head (N.pos p) "" ltac:(lia)) as (d & s' & Hd & Hhead).
    destruct (scan_digits_pretty_N_go (N.pos p) "" 0 0)
      as (k & Hlen & Hk & Hscan).
    exists d, s'. split; [done|]. split; [done|]. split.
    - rewrite Hscan, Hlen. simpl. do 3 f_equal. lia.
    - apply N.eqb_neq. rewrite Hlen. specialize (Hk ltac:(lia)). lia. }
  destruct n as [|p|p].
  - by vm_compute.
  - change (Z.abs (Z.pos p)) with (Z.pos p) in Hp.
    rewrite pretty_Zpos in Hp |- *.
    destruct (Hpos p Hp) as (d & s' & Hd & Hhead & Hscan & Hnz).
    rewrite Hhead, (proj1 (py_int_digit_head d s' Hd)), <- Hhead.
    by rewrite Hscan, Hnz, Hp.
  - change (Z.abs (Z.neg p)) with (Z.pos p) in Hp.
    rewrite pretty_Zpos in Hp. rewrite pretty_Zneg.
    destruct (Hpos p Hp) as (d & s' & Hd & Hhead & Hscan & Hnz).
    rewrite Hhead, (proj2 (py_int_digit_head d s' Hd)), <- Hhead.
    by rewrite Hscan, Hnz, Hp.
Qed.

Lemma char_in_app (c : ascii) (s t : string) :
  char_in c (s +:+ t) = char_in c s || char_in c t.
Proof.
  induction s as [|a s IH]; [done|].
  change (char_in c (String a (s +:+ t))
          = char_in c (String a s) || char_in c t).
  cbn [char_in]. by rewrite IH, orb_assoc.
Qed.

Lemma char_in_repeat_char (c a : ascii) (k : nat) :
  a ≠ c → char_in c (repeat_char a k) = false.
Proof.
  intros Hne. induction k as [|k IH]; [done|].
  cbn [repeat_char char_in]. by rewrite IH, (proj2 (Ascii.eqb_neq _ _) Hne).
Qed.

Lemma char_in_pretty (c : ascii) (n : Z) :
  (∀ d, (d < 10)%N → pretty_N_char d ≠ c) → c ≠ "-"%char →
  char_in c (pretty n) = false.
Proof.
  intros Hc Hdash. destruct n as [|p|p].
  - change (pretty 0) with "0". cbn [char_in].
    pose proof (Hc 0%N ltac:(lia)) as H0.
    change (pretty_N_char 0) with "0"%char in H0.
    by rewrite (proj2 (Ascii.eqb_neq _ _) H0).
  - by rewrite pretty_Zpos, char_in_pretty_N_go.
  - rewrite pretty_Zneg. cbn [char_in].
    rewrite char_in_pretty_N_go by done.
    rewrite (proj2 (Ascii.eqb_neq "-" c)); [done|congruence].
Qed.

Lemma py_lstrip_spaces (k : nat) (s : string) :
  py_lstrip " " (repeat_char " " k +:+ s) = py_lstrip " " s.
Proof. induction k as [|k IH]; [done|]. exact IH. Qed.

Lemma py_rstrip_spaces (k : nat) : py_rstrip " " (repeat_char " " k) = "".
Proof. induction k as [|k IH]; [done|]. cbn [repeat_char py_rstrip]. by rewrite IH. Qed.

Lemma py_rstrip_no_space (s : string) (k : nat) :
  char_in " " s = false → py_rstrip " " (s +:+ repeat_char " " k) = s.
Proof.
  induction s as [|a s IH]; intros Hs.
  - apply py_rstrip_spaces.
  - cbn [char_in] in Hs. apply orb_false_elim in Hs as [Ha Hs].
    change (String a s +:+ repeat_char " " k)
      with (String a (s +:+ repeat_char " " k)).
    cbn [py_rstrip]. rewrite (IH Hs).
    assert (char_in a " " = false) as ->.
    { cbn [char_in]. rewrite orb_false_r. apply Ascii.eqb_neq.
      apply Ascii.eqb_neq in Ha. congruence. }
    by destruct s.
Qed.

(** Spaces around a text without spaces are stripped. *)
Lemma py_strip_padded (s : string) (k1 k2 : nat) :
  char_in " " s = false →
  py_strip " " (repeat_char " " k1 +:+ s +:+ repeat_char " " k2) = s.
Proof.
  intros Hs. unfold py_strip. rewrite py_lstrip_spaces.
  destruct s as [|a s].
  - change ("" +:+ repeat_char " " k2) with (repeat_char " " k2).
    rewrite <- (string_app_nil_r (repeat_char " " k2)), py_lstrip_spaces.
    done.
  - change (String a s +:+ repeat_char " " k2)
      with (String a (s +:+ repeat_char " " k2)).
    cbn [py_lstrip].
    assert (char_in a " " = false) as ->.
    { cbn [char_in] in Hs |- *. apply orb_false_elim in Hs as [Ha _].
      rewrite orb_false_r. apply Ascii.eqb_neq.
      apply Ascii.eqb_neq in Ha. congruence. }
    change (String a (s +:+ repeat_char " " k2))
      with (String a s +:+ repeat_char " " k2).
    by apply py_rstrip_no_space.
Qed.

(** X3: the nine counters are read back as written.  When the first
    occurrence of the marker of a counter is followed by the decimal
    text of an integer, with any number of spaces on either side, and
    then by the terminator, the extractor returns that integer. *)
Theorem extract_reads_back (m : metric) (n : Z) (k1 k2 : nat)
    (pre rest : string) :
  m ≠ Status →
  printable n →
  py_find (pre +:+ marker m +:+ repeat_char " " k1 +:+ pretty n
             +:+ repeat_char " " k2 +:+ terminator m +:+ rest) (marker m) 0
  = Z.of_nat (String.length pre) →
  extract m (pre +:+ marker m +:+ repeat_char " " k1 +:+ pretty n
               +:+ repeat_char " " k2 +:+ terminator m +:+ rest)
  = n.
Proof.
  intros Hm Hn Hfirst. rewrite extract_scrape.
  destruct (scrape_drop_prefix (marker m) (terminator m) (radix m)
              (fallback_of m) pre _ _ Hfirst ltac:(lia)) as [_ ->].
  assert (∃ t, terminator m = String t "" ∧ t ≠ " "%char ∧ t ≠ "-"%char
               ∧ ∀ d, (d < 10)%N → pretty_N_char d ≠ t)
    as (t & Ht & Hsp & Hdash & Hdig).
  { destruct m;
      [exists "("%char|exists LF|exists LF|exists "("%char|exists "("%char
      |exists "("%char|exists "("%char|exists "("%char|exists "("%char
      |exists "("%char];
      (split; [done|]; split; [done|]; split; [done|];
       intros d Hd; destruct (pretty_N_char_facts d Hd) as (_ & _ & _ & ? & ?);
       done). }
  rewrite Ht.
  rewrite <- (string_app_assoc (pretty n)), <- (string_app_assoc (repeat_char " " k1)).
  change (String t "" +:+ rest) with (String t rest).
  rewrite scrape_line.
  - rewrite py_strip_padded.
    + assert (radix m = 10%N) as -> by (by destruct m).
      by rewrite py_int_pretty.
    + apply char_in_pretty; [|done].
      intros d Hd. by destruct (pretty_N_char_facts d Hd) as (_ & _ & ? & _).
  - by destruct m.
  - rewrite !char_in_app, !char_in_repeat_char by done.
    by rewrite char_in_pretty.
Qed.

(** ** The report and the whole log *)

(** X4: cutting the log at the exit-status line, as the main loop does
    before it calls [update_table], changes no metric whose marker first
    occurs at or after that line; the exit status itself is never
    changed. *)
Theorem report_keeps_later_metrics (raw : string) :
  parse_status (report_of raw) = parse_status raw
  ∧ ∀ (m : metric) (i : nat),
      py_find raw (marker m) 0 = Z.of_nat i →
      get_report_start raw ≤ Z.of_nat i →
      extract m (report_of raw) = extract m raw.
Proof.
  assert (∀ (m : metric) (i : nat),
            py_find raw (marker m) 0 = Z.of_nat i →
            get_report_start raw ≤ Z.of_nat i →
            extract m (report_of raw) = extract m raw) as Hlater.
  { intros m i Hi Hstart. unfold report_of.
    destruct (py_find_range raw "Program exit with code: " 0)
      as [Hno|(k & Hk & Hbound)].
    - unfold get_report_start. rewrite Hno. simpl. by rewrite py_slice_whole.
    - assert (get_report_start raw = Z.of_nat k) as Hg.
      { unfold get_report_start. rewrite Hk.
        destruct (Z.eqb_spec (Z.of_nat k) (-1)); [lia|done]. }
      rewrite Hg in Hstart |- *.
      rewrite py_slice_from by lia.
      pose proof (substring_split k raw) as Hsplit.
      set (pre := String.substring 0 k raw) in *.
      set (rest := String.substring k (String.length raw - k) raw) in *.
      assert (String.length pre = k) as Hpre.
      { unfold pre. rewrite substring_length. lia. }
      rewrite Hsplit in Hi |- *. symmetry.
      rewrite !extract_scrape.
      apply (scrape_drop_prefix _ _ _ _ _ _ i); [done|lia]. }
  split; [|done].
  destruct (py_find_range raw "Program exit with code: " 0)
    as [Hno|(k & Hk & Hbound)].
  - unfold report_of, get_report_start. rewrite Hno. simpl.
    by rewrite py_slice_whole.
  - apply (Hlater Status k); [done|].
    unfold get_report_start. rewrite Hk.
    destruct (Z.eqb_spec (Z.of_nat k) (-1)); lia.
Qed.

(** ** The table outside the row that is updated *)

Lemma dict_set_lookup_ne (t : table) (k : string) (x : row) (n : nat)
    (k' : string) (r : row) :
  t !! n = Some (k', r) → k' ≠ k → dict_set t k x !! n = Some (k', r).
Proof.
  revert n. induction t as [|[k0 r0] t IH]; intros n; [done|].
  simpl. destruct (decide (k0 = k)) as [->|Hne].
  - destruct n as [|n]; simpl; [by intros [= -> ->]|done].
  - destruct n as [|n]; simpl; [done|]. apply IH.
Qed.

(** X5: a call of [update_table] that returns leaves every row of
    another benchmark where it was and as it was; the benchmark's own row
    keeps its place when it was there, and is appended at the end of the
    table when it was not. *)
Theorem update_table_frame (t : table) (b log : string) (t' : table) :
  update_table t b log = Ok t' →
  (∀ (n : nat) (b' : string) (r : row),
     t !! n = Some (b', r) → b' ≠ b → t' !! n = Some (b', r))
  ∧ (∀ b', b' ≠ b → dict_get t' b' = dict_get t b')
  ∧ (dict_mem t b = true → t'.*1 = t.*1)
  ∧ (dict_mem t b = false → ∃ r, t' = t ++ [(b, r)]).
Proof.
  intros (ipc & _ & ->)%update_table_Ok. repeat split.
  - intros n b' r. apply dict_set_lookup_ne.
  - intros b' Hne. by apply dict_get_set_ne.
  - apply dict_set_keys_present.
  - intros Hm. eexists. by apply dict_set_keys_absent.
Qed.

(** ** When the quotient overflows *)

Lemma true_divide_overflow (a b : Z) (ex : exn) :
  b ≠ 0 → true_divide a b = Raise ex →
  ex = OverflowError ∧ 2 ^ 1023 * Z.abs b ≤ Z.abs a.
Proof.
  intros Hb. unfold true_divide.
  destruct (Z.eqb_spec b 0) as [?|_]; [done|].
  destruct (Z.eqb_spec a 0) as [?|Ha]; [done|].
  set (neg := xorb _ _). clearbody neg.
  set (A := Z.abs a). set (B := Z.abs b).
  assert (0 < A) as HA by (unfold A; lia).
  assert (0 < B) as HB by (unfold B; lia).
  clearbody A B. clear a b Ha Hb.
  set (e := Z.max _ (-1074)). clearbody e.
  destruct (Z.leb_spec 0 e) as [He|He]; [|done]. simpl.
  rewrite (Z.max_l 0 (- e)), (Z.max_r 0 e) by lia.
  rewrite Z.pow_0_r, Z.mul_1_r.
  assert (0 < 2 ^ e) as HP by (apply Z.pow_pos_nonneg; lia).
  set (P := 2 ^ e) in *. clearbody P.
  pose proof (round_half_even_near A (B * P) ltac:(nia)) as Hnear.
  set (m := round_half_even A (B * P)) in *. clearbody m.
  change (2 ^ 1024) with (2 * 2 ^ 1023).
  set (K := 2 ^ 1023). assert (0 < K) as HK by done. clearbody K.
  destruct (Z.leb_spec (2 * K) (m * P)) as [Hov|_]; [|done].
  intros [= <-]. split; [done|].
  assert (1 ≤ m) as Hm by nia.
  assert (m * P * B ≤ 2 * A) by nia.
  nia.
Qed.

Lemma ipc_of_raises (instructions cycles : Z) (ex : exn) :
  ipc_of instructions cycles = Raise ex →
  ex = OverflowError ∧ cycles ≠ 0
  ∧ 2 ^ 1023 * Z.abs cycles ≤ Z.abs instructions.
Proof.
  unfold ipc_of. destruct (Z.eqb_spec cycles 0) as [?|Hc]; [done|].
  destruct (true_divide _ _) as [f|ex'] eqn:Hdiv; [done|].
  intros [= <-]. by apply true_divide_overflow in Hdiv as [-> ?].
Qed.

(** X6: [update_table] can fail in one way only, with the
    [OverflowError] of the division [instructions / cycles], and only
    for a quotient of [2^1023] or more in absolute value; on a log whose
    cycle count is zero, or whose quotient is below that, it returns. *)
Theorem update_table_fails_only_on_overflow (t : table) (b log : string) :
  (∀ ex, update_table t b log = Raise ex →
         ex = OverflowError
         ∧ parse_cycles log ≠ 0
         ∧ 2 ^ 1023 * Z.abs (parse_cycles log)
           ≤ Z.abs (parse_retired_instructions log))
  ∧ (parse_cycles log = 0
     ∨ Z.abs (parse_retired_instructions log)
       < 2 ^ 1023 * Z.abs (parse_cycles log) →
     ∃ t', update_table t b log = Ok t').
Proof.
  assert (∀ ex, update_table t b log = Raise ex →
            ex = OverflowError ∧ parse_cycles log ≠ 0
            ∧ 2 ^ 1023 * Z.abs (parse_cycles log)
              ≤ Z.abs (parse_retired_instructions log)) as Hfail.
  { intros ex [-> Hov]%update_table_raises. by apply ipc_of_raises in Hov. }
  split; [done|]. intros Hgood.
  destruct (update_table t b log) as [t'|ex] eqn:Hup; [by eexists|].
  destruct (Hfail ex eq_refl) as (_ & Hc & Hbig).
  destruct Hgood as [?|Hlt]; [done|]. exfalso. clear - Hbig Hlt. lia.
Qed.

(** ** A later log replaces an earlier one *)

(** X7: when a benchmark is aggregated a second time, with another
    log, nothing of the first log remains: the table is the one the
    second log alone would have given. *)
Theorem update_table_last_wins (t : table) (b log1 log2 : string) (t1 : table) :
  update_table t b log1 = Ok t1 →
  update_table t1 b log2 = update_table t b log2.
Proof.
  intros (ipc1 & _ & ->)%update_table_Ok.
  rewrite !update_table_unfold.
  destruct (ipc_of _ _) as [ipc2|ex]; [|done]. simpl.
  rewrite dict_get_set_eq, dict_set_set. simpl. do 2 f_equal.
  apply store_metrics_overwrites. intros k Hk.
  by apply store_metrics_other.
Qed.

(** ** A log without any marker *)

(** X8: a log in which no marker occurs (an empty log, for one) gives
    the row of a failed benchmark: a false status, the integer 0 for
    the IPC and 0 for every counter; its line in the CSV file is the
    identifier followed by [False,0,0, 0.00] and ten zeros. *)
Theorem blank_log_row (t : table) (b log : string) :
  (∀ m, py_find log (marker m) 0 = -1) →
  ∃ t' r,
    update_table t b log = Ok t'
    ∧ dict_get t' b = Some r
    ∧ holds r blank_metrics
    ∧ status_of r = false
    ∧ ∀ w, write_row (b, r) w
           = (wfile w (bench_id b +:+ ",False,0,0, 0.00,0,0,0,0,0,0,0,0,0,0"
                       +:+ NL), Ok ()).
Proof.
  intros Hblank.
  assert (∀ m, extract m log = fallback_of m) as Hex
    by (intros m; by apply extract_missing).
  pose proof (Hex Status) as E0. pose proof (Hex Instructions) as E1.
  pose proof (Hex Cycles) as E2. pose proof (Hex Jumps) as E3.
  pose proof (Hex Branches) as E4. pose proof (Hex Loads) as E5.
  pose proof (Hex Stores) as E6. pose proof (Hex InstrFetches) as E7.
  pose proof (Hex WriteReq) as E8. pose proof (Hex ReadReq) as E9.
  cbn [extract fallback_of] in *.
  assert (ipc_of (parse_retired_instructions log) (parse_cycles log)
          = Ok (VInt 0)) as Hipc by (by rewrite E1, E2).
  set (r := store_metrics log (VInt 0) (default ∅ (dict_get t b))).
  exists (dict_set t b r), r.
  split; [apply update_table_Ok; by exists (VInt 0)|].
  split; [apply dict_get_set_eq|].
  pose proof (store_metrics_holds log (VInt 0) (default ∅ (dict_get t b)))
    as Hh. fold r in Hh.
  unfold metrics_of in Hh. rewrite E0, E1, E2, E3, E4, E5, E6, E7, E8, E9 in Hh.
  change (holds r blank_metrics) in Hh.
  split; [done|].
  split; [unfold status_of; by rewrite (proj1 Hh)|].
  intros w. apply write_row_Ok.
  destruct (csv_row_text b r blank_metrics Hh) as (x & Hx & _ & ->).
  - repeat split; try done. by left.
  - repeat split; by apply small_printable.
  - vm_compute in Hx. injection Hx as <-.
    unfold csv_fields. cbn [String.concat]. by rewrite string_app_assoc.
Qed.

(** ** One turn of the main loop *)

(** X9: a turn of the main loop whose call of [update_table] returns
    prints exactly one line and adds the status of the benchmark to the
    count of successes.  The line opens with the number [i + 1] for a
    benchmark that succeeded and with [i] for one that failed, [i] being
    the 0-based position in the listing, padded to four characters. *)
Theorem summary_step_prints (i : Z) (b contents : string) (stats stats' : table)
    (c : Z) (w : world) :
  0 ≤ i → i + 1 < 10 ^ 640 →
  update_table stats b (report_of contents) = Ok stats' →
  ∃ r x,
    dict_get stats' b = Some r
    ∧ (∃ ms, holds r ms ∧ py_format_f2 (ms_ipc ms) = Ok x)
    ∧ two_decimals x
    ∧ summary_step i b contents stats c w
      = (wprint w
           (repeat_char " "
              (4 - String.length (pretty (i + Z.b2z (status_of r))))
            +:+ pretty (i + Z.b2z (status_of r)) +:+ ") "
            +:+ py_format_s 15 (bench_id b) +:+ ": "
            +:+ (if status_of r then SUCCESS_TAG else FAILURE_TAG)
            +:+ " (IPC=" +:+ x +:+ ")" +:+ NL),
         Ok (stats', c + Z.b2z (status_of r))).
Proof.
  intros Hi Hsmall Hup.
  destruct (update_table_row_ok _ _ _ _ Hup) as (r & Hr & Hrow).
  pose proof Hrow as (ms & Hh & Hc).
  destruct (consistent_ipc_text ms Hc) as (x & Hx & Hd).
  exists r, x. split; [done|]. split; [by exists ms|]. split; [done|].
  rewrite summary_step_eq, Hup, bind_Ok.
  unfold table_getitem. rewrite Hr, bind_Ok.
  unfold console_line, line_with_number.
  rewrite (getitem_status r Hrow), !bind_Ok. cbn [py_truth].
  assert (getitem r "ipc" = Ok (ms_ipc ms)) as Hipc.
  { unfold getitem. by rewrite (proj1 (proj2 (proj2 (proj2 Hh)))). }
  destruct (status_of r); cbn [Z.b2z].
  - rewrite py_format_d_small by lia.
    rewrite bind_Ok, Hipc, bind_Ok, Hx, !bind_Ok.
    by rewrite !string_app_assoc.
  - rewrite !Z.add_0_r, py_format_d_small by lia.
    rewrite bind_Ok, Hipc, bind_Ok, Hx, !bind_Ok.
    by rewrite !string_app_assoc.
Qed.

(** ** The table the main loop builds *)

Lemma summary_pure_rows (bs : list (string * string)) :
  ∀ (i : Z) (stats : table) (c : Z) lines stats' c',
    NoDup bs.*1 →
    (∀ b, b ∈ bs.*1 → b ∉ stats.*1) →
    summary_pure i bs stats c = Ok (lines, stats', c') →
    ∀ (k : nat) b contents,
      bs !! k = Some (b, contents) →
      ∃ ipc,
        ipc_of (parse_retired_instructions (report_of contents))
               (parse_cycles (report_of contents)) = Ok ipc
        ∧ stats' !! (length stats + k)%nat
          = Some (b, store_metrics (report_of contents) ipc ∅).
Proof.
  induction bs as [|[b0 cn0] bs IH];
    intros i stats c lines stats' c' Hnd Hfresh Hp k b contents Hk; [done|].
  cbn [summary_pure] in Hp.
  destruct (update_table stats b0 (report_of cn0)) as [s1|e] eqn:Hup;
    [rewrite bind_Ok in Hp|done].
  destruct (table_getitem s1 b0) as [r|e]; [rewrite bind_Ok in Hp|done].
  destruct (console_line i b0 r) as [line|e]; [rewrite bind_Ok in Hp|done].
  destruct (getitem r "status") as [status|e]; [rewrite bind_Ok in Hp|done].
  destruct (summary_pure _ _ _ _) as [[[lines' s2] c2]|e] eqn:Hrest;
    [rewrite bind_Ok in Hp|done].
  injection Hp as <- <- <-.
  rewrite fmap_cons in Hnd. apply NoDup_cons in Hnd as [Hb0 Hnd].
  apply update_table_Ok in Hup as (ipc & Hipc & Hs1).
  assert (b0 ∉ stats.*1) as Hnew by (apply Hfresh; left).
  rewrite (dict_get_None stats b0 Hnew) in Hs1. simpl in Hs1.
  rewrite dict_set_fresh in Hs1 by done.
  assert (∀ b', b' ∈ bs.*1 → b' ∉ s1.*1) as Hfresh1.
  { intros b' Hin. rewrite Hs1, fmap_app. simpl.
    intros [Hold|Heq%list_elem_of_singleton]%elem_of_app.
    - revert Hold. apply Hfresh. by right.
    - by subst b'. }
  destruct k as [|k].
  - injection Hk as -> ->. exists ipc. split; [done|].
    destruct (summary_pure_fresh bs _ _ _ _ _ _ Hnd Hfresh1 Hrest)
      as (new & -> & _).
    rewrite Hs1, Nat.add_0_r, <- app_assoc.
    by rewrite lookup_app_r, Nat.sub_diag by lia.
  - destruct (IH _ _ _ _ _ _ Hnd Hfresh1 Hrest k b contents Hk)
      as (ipc' & Hipc' & Hrow).
    exists ipc'. split; [done|].
    rewrite Hs1, length_app in Hrow. simpl in Hrow.
    by replace (length stats + S k)%nat with (length stats + 1 + k)%nat by lia.
Qed.

Lemma quotient_fits_ipc (contents : string) :
  quotient_fits contents →
  ipc_of (parse_retired_instructions (report_of contents))
         (parse_cycles (report_of contents)) ≠ Raise OverflowError.
Proof.
  intros Hfit (_ & Hc & Hbig)%ipc_of_raises.
  destruct Hfit as [?|Hlt]; [done|]. clear - Hbig Hlt. lia.
Qed.

(** X10: when the listing has distinct names and no quotient overflows,
    the main loop runs to its end without touching the CSV file, and
    the table it returns has one row per log, in the order of the
    listing; each row holds what the extractors read in the report of
    its own log and nothing else, and the count returned is the number
    of rows with a true status. *)
Theorem summary_loop_table (bs : list (string * string)) (w : world) :
  NoDup bs.*1 →
  Z.of_nat (length bs) < 10 ^ 640 →
  Forall (fun item => quotient_fits item.2) bs →
  ∃ w1 stats c,
    summary_loop 0 bs init_table 0 w = (w1, Ok (stats, c))
    ∧ csv_file w1 = csv_file w
    ∧ stats.*1 = bs.*1
    ∧ (∀ (k : nat) b contents,
         bs !! k = Some (b, contents) →
         ∃ ipc,
           ipc_of (parse_retired_instructions (report_of contents))
                  (parse_cycles (report_of contents)) = Ok ipc
           ∧ stats !! k = Some (b, store_metrics (report_of contents) ipc ∅))
    ∧ c = Z.of_nat (length (filter (fun item : string * row =>
                                      status_of item.2 = true) stats)).
Proof.
  intros Hnd Hsmall Hfit.
  destruct (summary_loop_outcome bs 0 init_table 0 w
              ltac:(lia) ltac:(lia) ltac:(constructor))
    as [(w1 & stats & c & Hloop)|(w1 & _ & _ & b & contents & Hin & Hov)].
  - exists w1, stats, c. split; [done|].
    pose proof Hloop as (lines & Hpure & ->)%summary_loop_Ok.
    split; [done|].
    assert (∀ b', b' ∈ bs.*1 → b' ∉ init_table.*1) as Hfresh
      by (by intros ? _ ?%elem_of_nil).
    pose proof (summary_pure_rows bs _ _ _ _ _ _ Hnd Hfresh Hpure) as Hrows.
    apply summary_pure_fresh in Hpure as (new & Hnew & Hkeys & _ & _ & Hc);
      [|done|done].
    simpl in Hnew. subst new.
    split; [done|]. split; [|by rewrite Hc].
    intros k b contents Hk. by apply Hrows.
  - exfalso. rewrite Forall_forall in Hfit.
    by apply (quotient_fits_ipc contents (Hfit (b, contents) Hin)).
Qed.

(** ** A run cut short by an overflow *)

Lemma summary_loop_app (bs1 bs2 : list (string * string)) :
  ∀ (i : Z) (stats : table) (c : Z) (w : world),
    summary_loop i (bs1 ++ bs2) stats c w
    = match summary_loop i bs1 stats c w with
      | (w1, Ok (stats1, c1)) =>
          summary_loop (i + Z.of_nat (length bs1)) bs2 stats1 c1 w1
      | (w1, Raise ex) => (w1, Raise ex)
      end.
Proof.
  induction bs1 as [|[b contents] bs1 IH]; intros i stats c w.
  - simpl. by rewrite Z.add_0_r.
  - cbn [app summary_loop length]. rewrite !io_bind_unfold.
    destruct (summary_step i b contents stats c w) as [w1 [[s1 c1]|ex]];
      [|done].
    rewrite IH. by replace (i + 1 + Z.of_nat (length bs1))
      with (i + Z.of_nat (S (length bs1))) by lia.
Qed.

Lemma summary_loop_fits (bs : list (string * string)) (w : world) :
  Z.of_nat (length bs) < 10 ^ 640 →
  Forall (fun item => quotient_fits item.2) bs →
  ∃ w1 stats c, summary_loop 0 bs init_table 0 w = (w1, Ok (stats, c)).
Proof.
  intros Hsmall Hfit.
  destruct (summary_loop_outcome bs 0 init_table 0 w
              ltac:(lia) ltac:(lia) ltac:(constructor))
    as [Hok|(w1 & _ & _ & b & contents & Hin & Hov)]; [done|].
  exfalso. rewrite Forall_forall in Hfit.
  by apply (quotient_fits_ipc contents (Hfit (b, contents) Hin)).
Qed.

(** X11: the first log whose quotient [instructions / cycles] overflows
    ends the run there and then.  The lines of the logs before it have
    been printed and nothing more is: no line for that log or the later
    ones, no count of successes, no list of failed tests; the CSV file
    is not touched and the exit status is 1. *)
Theorem overflow_aborts_run (e : env) (w : world)
    (bs1 bs2 : list (string * string)) (b contents : string) :
  arg_missing (arg_s e) = false →
  arg_missing (arg_p e) = false →
  sim_logs e = Some (bs1 ++ (b, contents) :: bs2) →
  Z.of_nat (length bs1) < 10 ^ 640 →
  Forall (fun item => quotient_fits item.2) bs1 →
  ipc_of (parse_retired_instructions (report_of contents))
         (parse_cycles (report_of contents)) = Raise OverflowError →
  ∃ w1 stats c,
    summary_loop 0 bs1 init_table 0 (wprint w ("Benchmark summary:" +:+ NL))
    = (w1, Ok (stats, c))
    ∧ csv_file w1 = csv_file w
    ∧ main e w = (w1, Raise OverflowError)
    ∧ run e w = (w1, 1).
Proof.
  intros Hs Hp Hl Hsmall Hfit Hov.
  destruct (summary_loop_fits bs1 (wprint w ("Benchmark summary:" +:+ NL))
              Hsmall Hfit) as (w1 & stats & c & Hloop).
  exists w1, stats, c. split; [done|].
  destruct (summary_loop_rows_ok _ _ _ _ _ Hloop) as [_ Hcsv].
  split; [done|].
  assert (main e w = (w1, Raise OverflowError)) as Hmain.
  { rewrite (main_run e w _ Hs Hp Hl), summary_loop_app, Hloop.
    cbn [summary_loop]. rewrite io_bind_unfold, summary_step_eq.
    by rewrite update_table_unfold, Hov. }
  split; [done|]. unfold run. by rewrite Hmain.
Qed.

(** ** The command line and the exit status *)

Lemma main_configured_raises (e : env) (w w' : world)
    (bs : list (string * string)) (ex : exn) :
  arg_missing (arg_s e) = false →
  arg_missing (arg_p e) = false →
  sim_logs e = Some bs →
  Z.of_nat (length bs) < 10 ^ 640 →
  main e w = (w', Raise ex) →
  ex = SystemExit 1 ∨ ex = OverflowError ∨ ex = ValueError.
Proof.
  intros Hs Hp Hl Hsmall.
  rewrite (main_run e w bs Hs Hp Hl).
  destruct (summary_loop_outcome bs 0 init_table 0
              (wprint w ("Benchmark summary:" +:+ NL))
              ltac:(lia) ltac:(lia) ltac:(constructor))
    as [(w1 & stats & c & Hloop)|(w1 & Hloop & _)].
  - pose proof (main_summary e w bs w1 stats c Hs Hp Hl Hsmall Hloop) as Hm.
    rewrite (main_run e w bs Hs Hp Hl) in Hm. rewrite Hm.
    destruct (summary_loop_rows_ok _ _ _ _ _ Hloop) as [Hok _].
    intros [?|?]%gate_and_export_raises; auto.
  - rewrite Hloop. intros [= _ <-]. auto.
Qed.

(** X12: the three ways the script refuses to start.  A missing or empty
    [-s] option is reported first, then a missing or empty [-p] option,
    each with its usage line; with both options given, a missing log
    directory is reported after the title line.  In each case the exit
    status is 2, nothing else is printed and the CSV file is not
    touched. *)
Theorem usage_errors (e : env) (w : world) :
  (arg_missing (arg_s e) = true →
   run e w
   = (wprint w ("Usage: python parse_benchmarks.py -s <suite>" +:+ NL), 2))
  ∧ (arg_missing (arg_s e) = false → arg_missing (arg_p e) = true →
     run e w
     = (wprint w ("Usage: python parse_benchmarks.py -p <path>" +:+ NL), 2))
  ∧ (arg_missing (arg_s e) = false → arg_missing (arg_p e) = false →
     sim_logs e = None →
     run e w
     = (wprint w
          ("Benchmark summary:" +:+ NL +:+ "Error: "
           +:+ path_join (path_join (cwd e) (default "" (arg_p e))) "logs/sim"
           +:+ " does not exist" +:+ NL), 2)).
Proof.
  unfold run, main, get_benchmarks. repeat split.
  - by intros ->.
  - by intros -> ->.
  - intros -> -> ->. rewrite !io_ret_bind, !io_print_bind.
    rewrite io_bind_unfold, io_print_bind, io_bind_unfold.
    unfold sys_exit. rewrite wprint_wprint. cbn [exit_status].
    by rewrite !string_app_assoc.
Qed.

(** X13: once [parse_args] has returned the two options, whatever their
    values, and whatever the directory and the logs hold, the exit
    status of the script is 0, 1 or 2, and it is 2 exactly when an
    option is missing or empty or the log directory does not exist.  No
    [KeyError], [TypeError] or [ZeroDivisionError] ever escapes.  (A
    command line that [argparse] refuses, or [-h], ends the process
    inside [parse_args], before the code this is about.) *)
Theorem exit_status_range (e : env) (w : world) :
  (∀ bs, sim_logs e = Some bs → Z.of_nat (length bs) < 10 ^ 640) →
  ((run e w).2 = 0 ∨ (run e w).2 = 1 ∨ (run e w).2 = 2)
  ∧ ((run e w).2 = 2 ↔
     arg_missing (arg_s e) = true ∨ arg_missing (arg_p e) = true
     ∨ sim_logs e = None)
  ∧ (∀ w' ex, main e w = (w', Raise ex) →
       ex ≠ KeyError ∧ ex ≠ TypeError ∧ ex ≠ ZeroDivisionError).
Proof.
  intros Hsmall.
  assert (∀ w' ex, main e w = (w', Raise ex) →
            ex = SystemExit 2 ∨ ex = SystemExit 1
            ∨ ex = OverflowError ∨ ex = ValueError) as Hraise
    by (intros w' ex; by apply main_raises).
  split; [|split].
  - unfold run. destruct (main e w) as [w' [u|ex]] eqn:Hm; [by left|].
    destruct (Hraise w' ex eq_refl) as [-> | [-> | [-> | ->]]]; simpl; auto.
  - split.
    + intros H2.
      destruct (arg_missing (arg_s e)) eqn:Hs; [by left|].
      destruct (arg_missing (arg_p e)) eqn:Hp; [by right; left|].
      destruct (sim_logs e) as [bs|] eqn:Hl; [|by right; right].
      exfalso. revert H2. unfold run.
      destruct (main e w) as [w' [u|ex]] eqn:Hm; [done|].
      destruct (main_configured_raises e w w' bs ex Hs Hp Hl
                  (Hsmall bs eq_refl) Hm) as [-> | [-> | ->]]; done.
    + unfold run, main, get_benchmarks.
      destruct (arg_missing (arg_s e)) eqn:Hs; [done|].
      destruct (arg_missing (arg_p e)) eqn:Hp; [done|].
      intros [?|[?|Hl]]; [done|done|]. by rewrite Hl.
  - intros w' ex Hm.
    destruct (Hraise w' ex Hm) as [-> | [-> | [-> | ->]]]; done.
Qed.

(** ** The whitelist *)

Lemma bench_id_app (name ext : string) :
  String.length ext = 4%nat → bench_id (name +:+ ext) = name.
Proof.
  intros Hext. unfold bench_id, py_slice, adjust_index, py_len.
  cbn [default from_option id]. change (-4 <? 0) with true. cbv iota.
  change (0 <? 0) with false. cbv iota.
  rewrite string_length_app, Hext.
  rewrite Z.min_l by lia. change (Z.to_nat 0) with 0%nat. rewrite Z.sub_0_r.
  rewrite Z.max_l by lia.
  replace (Z.to_nat (-4 + Z.of_nat (String.length name + 4)))
    with (String.length name) by lia.
  apply substring_prefix.
Qed.

(** X14: the gating check exempts a log file exactly when its name is
    one of the five whitelisted names followed by four more characters,
    whatever these four characters are. *)
Theorem whitelisted_iff (b : string) :
  whitelisted b = true ↔
  ∃ name ext, name ∈ BENCH_WHITE_LISTE ∧ String.length ext = 4%nat
              ∧ b = name +:+ ext.
Proof.
  unfold whitelisted. rewrite bool_decide_eq_true. split.
  - intros Hin. destruct (bench_id_spec b) as [Hlong Hshort].
    destruct (le_lt_dec 4 (String.length b)) as [Hlen|Hlen].
    + destruct (Hlong Hlen) as (ext & Hb & Hext). by exists (bench_id b), ext.
    + rewrite (Hshort Hlen) in Hin. exfalso. revert Hin.
      apply (bool_decide_eq_false_1 ("" ∈ BENCH_WHITE_LISTE)). by vm_compute.
  - intros (name & ext & Hin & Hext & ->). by rewrite bench_id_app.
Qed.

(** ** The CSV file while it is written *)

Lemma file_grows_lift {A : Type} (r : result A) : file_grows (lift r).
Proof.
  intros [o c] f Hf. simpl in Hf. subst c. exists "".
  by rewrite string_app_nil_r.
Qed.

Lemma file_grows_ret {A : Type} (a : A) : file_grows (mret a : IO A).
Proof.
  intros [o c] f Hf. simpl in Hf. subst c. exists "".
  by rewrite string_app_nil_r.
Qed.

Lemma file_grows_file_write (s : string) : file_grows (file_write s).
Proof. intros w f Hf. exists s. unfold file_write. by rewrite Hf. Qed.

Lemma file_grows_bind {A B : Type} (m : IO A) (k : A → IO B) :
  file_grows m → (∀ a, file_grows (k a)) → file_grows (m ≫= k).
Proof.
  intros Hm Hk w f Hf. rewrite io_bind_unfold.
  destruct (Hm w f Hf) as (s & Hs).
  destruct (m w) as [w1 [a|ex]]; simpl in Hs; subst w1.
  - destruct (Hk a (mkworld (stdout w) (Some (f +:+ s))) (f +:+ s) eq_refl)
      as (s' & Hs').
    exists (s +:+ s'). by rewrite Hs', string_app_assoc.
  - by exists s.
Qed.

Lemma file_grows_write_field (r : row) (k sep : string) :
  file_grows (write_field r k sep).
Proof.
  unfold write_field.
  repeat (apply file_grows_bind; [apply file_grows_lift|intros ?]).
  apply file_grows_file_write.
Qed.

Lemma file_grows_write_row (item : string * row) : file_grows (write_row item).
Proof.
  destruct item as [b r]. unfold write_row.
  apply file_grows_bind; [apply file_grows_file_write|intros _].
  do 3 (apply file_grows_bind; [apply file_grows_write_field|intros _]).
  apply file_grows_bind.
  { repeat (apply file_grows_bind; [apply file_grows_lift|intros ?]).
    apply file_grows_file_write. }
  intros _.
  do 9 (apply file_grows_bind; [apply file_grows_write_field|intros _]).
  apply file_grows_write_field.
Qed.

Lemma file_grows_io_for (t : table) : file_grows (io_for t write_row).
Proof.
  induction t as [|item t IH]; [apply (file_grows_ret ())|].
  cbn [io_for]. apply file_grows_bind; [apply file_grows_write_row|done].
Qed.

Lemma print_table_to_file_csv_world (t : table) (w : world) :
  ∃ body,
    (print_table_to_file_csv t w).1
    = mkworld (stdout w) (Some (csv_header +:+ body)).
Proof.
  unfold print_table_to_file_csv.
  rewrite io_bind_unfold. unfold open_w at 1. rewrite io_file_write_bind.
  destruct (file_grows_io_for t (wfile (mkworld (stdout w) (Some "")) csv_header)
              csv_header eq_refl) as (body & Hb).
  by exists body.
Qed.

(** X15: the script replaces the CSV file only when the main loop has
    run to its end and the gating check has passed; in every other run
    (a usage error, a missing directory, an overflow, a failed
    benchmark) the file is left as it was.  Once the script has started
    to write it, the file begins with the header line, even when the
    writing is cut short by an integer too long to print. *)
Theorem csv_replaced_only_after_gate (e : env) (w : world) :
  (∀ bs, sim_logs e = Some bs → Z.of_nat (length bs) < 10 ^ 640) →
  csv_file (run e w).1 = csv_file w
  ∨ ∃ bs w1 stats c body,
      arg_missing (arg_s e) = false
      ∧ arg_missing (arg_p e) = false
      ∧ sim_logs e = Some bs
      ∧ summary_loop 0 bs init_table 0 (wprint w ("Benchmark summary:" +:+ NL))
        = (w1, Ok (stats, c))
      ∧ failing stats = []
      ∧ csv_file (run e w).1 = Some (csv_header +:+ body).
Proof.
  intros Hsmall.
  assert ((run e w).1 = (main e w).1) as ->
    by (unfold run; by destruct (main e w)).
  destruct (arg_missing (arg_s e)) eqn:Hs.
  { left. unfold main. by rewrite Hs. }
  destruct (arg_missing (arg_p e)) eqn:Hp.
  { left. unfold main. by rewrite Hs, Hp. }
  destruct (sim_logs e) as [bs|] eqn:Hl.
  2:{ left. unfold main, get_benchmarks. by rewrite Hs, Hp, Hl. }
  specialize (Hsmall bs eq_refl).
  destruct (summary_loop_outcome bs 0 init_table 0
              (wprint w ("Benchmark summary:" +:+ NL))
              ltac:(lia) ltac:(lia) ltac:(constructor))
    as [(w1 & stats & c & Hloop)|(w1 & Hloop & Hfile & _)].
  - rewrite (main_summary e w bs w1 stats c Hs Hp Hl Hsmall Hloop).
    destruct (summary_loop_rows_ok _ _ _ _ _ Hloop) as [Hok Hcsv].
    destruct (failing stats) as [|item rest] eqn:Hf.
    + right. exists bs, w1, stats, c.
      rewrite (gate_and_export_pass _ _ _ Hok Hf).
      match goal with
      | |- context [print_table_to_file_csv stats ?w0] =>
          destruct (print_table_to_file_csv_world stats w0) as (body & Hb)
      end.
      exists body. repeat split; try done. by rewrite Hb.
    + left. rewrite (gate_and_export_fail _ _ _ Hok) by (by rewrite Hf).
      unfold wprint in *. simpl in *. congruence.
  - left. rewrite (main_run e w bs Hs Hp Hl), Hloop. simpl. by rewrite Hfile.
Qed.

(** ** The two request columns of the CSV file *)

(** X16: in the header of the CSV file the title [Write Requests] comes
    before [Read Requests], while in every data line the number of read
    requests is written before the number of write requests: the
    thirteenth field of a line is the read requests and the fourteenth
    the write requests. *)
Theorem csv_request_columns :
  (∃ h, csv_header
        = h +:+ ",Write Requests,Read Requests,Memory Requests" +:+ NL)
  ∧ ∀ (b : string) (r : row) (ms : metricset) (w : world),
      holds r ms → consistent ms → printable_metrics ms →
      ∃ l, length l = 12%nat
           ∧ write_row (b, r) w
             = (wfile w (String.concat "," l +:+ ","
                         +:+ pretty (ms_read_req ms) +:+ ","
                         +:+ pretty (ms_write_req ms) +:+ ","
                         +:+ pretty (ms_memory_req ms) +:+ NL),
                Ok ()).
Proof.
  split.
  { eexists "Benchmark,Status,Instructions,Cycles,IPC,Jumps,Branches,Branch/Jump Instructions,Loads,Stores,Load/Store Instructions,Instruction fetches".
    reflexivity. }
  intros b r ms w Hh Hc Hp.
  destruct (csv_row_text b r ms Hh Hc Hp) as (x & _ & _ & Hrow).
  exists (take 12 (csv_fields b ms x)). split; [done|].
  rewrite (write_row_Ok _ _ w Hrow). do 2 f_equal.
  unfold csv_fields. cbn [take String.concat].
  by rewrite !string_app_assoc.
Qed.

(** ** Running the loop on a given listing *)

(** One turn of the main loop on a benchmark that is not yet in the
    table. *)
Lemma summary_loop_cons_fresh (i : Z) (b contents : string)
    (rest : list (string * string)) (stats : table) (c : Z) (w : world)
    (ipc : pyval) (line : string) :
  ipc_of (parse_retired_instructions (report_of contents))
         (parse_cycles (report_of contents)) = Ok ipc →
  b ∉ stats.*1 →
  console_line i b (store_metrics (report_of contents) ipc ∅) = Ok line →
  summary_loop i ((b, contents) :: rest) stats c w
  = summary_loop (i + 1) rest
      (stats ++ [(b, store_metrics (report_of contents) ipc ∅)])
      (c + Z.b2z (parse_status (report_of contents) =? 0))
      (wprint w line).
Proof.
  intros Hipc Hnew Hline. cbn [summary_loop].
  rewrite io_bind_unfold, summary_step_eq, update_table_unfold, Hipc, !bind_Ok.
  rewrite (dict_get_None stats b Hnew). cbn [default from_option id].
  unfold table_getitem. rewrite dict_get_set_eq, !bind_Ok, Hline, !bind_Ok.
  assert (getitem (store_metrics (report_of contents) ipc ∅) "status"
          = Ok (VBool (parse_status (report_of contents) =? 0))) as ->.
  { unfold getitem.
    by rewrite (proj1 (store_metrics_holds (report_of contents) ipc ∅)). }
  rewrite !bind_Ok, dict_set_fresh by done. cbn [py_truth].
  by destruct (parse_status (report_of contents) =? 0);
    rewrite ?Z.add_0_r.
Qed.

(** A row just written holds the metrics of its log and no others. *)
Lemma holds_store_metrics (log : string) (ipc : pyval) (r : row)
    (ms : metricset) :
  holds (store_metrics log ipc r) ms → ms = metrics_of log ipc.
Proof.
  intros Hh. apply (holds_functional (store_metrics log ipc r)); [done|].
  apply store_metrics_holds.
Qed.


End Scraper.


(** * Concrete runs

    The statements above hold for every setting of the interpreter's
    digit limit; the runs below take CPython's default. *)

#[local] Existing Instance cpython_default.

Lemma exit_status_parsed_base16_witness :
  parse_status "Program exit with code: 1F (" = 31
  ∧ parse_status "Program exit with code: zz (" = 1
  ∧ parse_status "Program exit with code: 0 (ok)" = 0.
Proof.
  split; [|split].
  - destruct (exit_status_parsed_base16 "Program exit with code: 1F (")
      as (_ & _ & _ & H).
    destruct (H 0%nat 27%nat "1F") as (Hhex & _ & _);
      [vm_compute; reflexivity..|].
    rewrite Hhex; [vm_compute; reflexivity|discriminate|reflexivity].
  - destruct (exit_status_parsed_base16 "Program exit with code: zz (")
      as (_ & _ & _ & H).
    destruct (H 0%nat 27%nat "zz") as (_ & _ & Hbad);
      [vm_compute; reflexivity..|].
    apply (Hbad "z"%char "z"); [reflexivity|simpl; lia|discriminate..|reflexivity].
  - destruct (exit_status_parsed_base16 "Program exit with code: 0 (ok)")
      as (_ & _ & _ & H).
    destruct (H 0%nat 26%nat "0") as (Hhex & _ & _);
      [vm_compute; reflexivity..|].
    rewrite Hhex; [vm_compute; reflexivity|discriminate|reflexivity].
Defined.

(** C3 as the specification words it fails: a log without the
    exit-status marker is searched whole, so its counters are whatever
    the text gives. *)
Lemma counters_survive_missing_exit_marker :
  ¬ (∀ log : string,
       py_find log (marker Status) 0 = -1 →
       parse_status (report_of log) ≠ 0
       ∧ ∀ m, m ≠ Status → extract m (report_of log) = 0).
Proof.
  intros H.
  destruct (H ("total CPU cycles: 500" +:+ NL) eq_refl) as [_ Hc].
  specialize (Hc Cycles ltac:(discriminate)).
  vm_compute in Hc. discriminate Hc.
Defined.

Lemma missing_or_malformed_gives_default_witness :
  extract Cycles ("total CPU cycles: abc" +:+ NL) = 0
  ∧ report_of ("retired instructions: 7" +:+ NL) = "retired instructions: 7" +:+ NL
  ∧ extract Cycles (report_of ("retired instructions: 7" +:+ NL)) = 0.
Proof.
  split.
  - destruct (missing_or_malformed_gives_default Cycles
                ("total CPU cycles: abc" +:+ NL)) as (_ & H & _).
    apply (H 0%nat); vm_compute; reflexivity.
  - destruct (missing_or_malformed_gives_default Cycles
                ("retired instructions: 7" +:+ NL)) as (_ & _ & _ & H).
    destruct (H eq_refl) as (H1 & _ & H3 & _).
    split; [exact H1|]. apply H3. vm_compute. reflexivity.
Defined.

Lemma missing_terminator_drops_last_char_witness :
  parse_cycles ("boot" +:+ NL +:+ "total CPU cycles: 500") = 50
  ∧ parse_status "Program exit with code: 0" = 1.
Proof.
  destruct missing_terminator_drops_last_char as (_ & Hc & Hs).
  split.
  - apply (Hc ("boot" +:+ NL)). vm_compute. reflexivity.
  - apply (Hs ""). vm_compute. reflexivity.
Defined.

Lemma ipc_zero_guard_witness :
  (parse_cycles "Program exit with code: 0 (" = 0
   ∧ ∃ t' r, update_table init_table "aha.log" "Program exit with code: 0 (" = Ok t'
             ∧ dict_get t' "aha.log" = Some r
             ∧ r !! "cycles" = Some (VInt 0)
             ∧ r !! "ipc" = Some (VInt 0))
  ∧ ∃ t' r,
      update_table init_table "aha.log"
        ("retired instructions: 1000" +:+ NL +:+ "total CPU cycles: 500" +:+ NL)
      = Ok t'
      ∧ dict_get t' "aha.log" = Some r
      ∧ r !! "instructions" = Some (VInt 1000)
      ∧ r !! "cycles" = Some (VInt 500)
      ∧ r !! "ipc" = Some (VFloat (mkfloat false 4503599627370496 (-51))).
Proof.
  split.
  - split; [vm_compute; reflexivity|].
    destruct (ipc_zero_guard init_table "aha.log" "Program exit with code: 0 (")
      as (_ & H & _).
    apply H. vm_compute. reflexivity.
  - assert (update_table init_table "aha.log"
              ("retired instructions: 1000" +:+ NL
               +:+ "total CPU cycles: 500" +:+ NL)
            = Ok (dict_set init_table "aha.log"
                    (store_metrics ("retired instructions: 1000" +:+ NL
                                    +:+ "total CPU cycles: 500" +:+ NL)
                       (VFloat (mkfloat false 4503599627370496 (-51))) ∅)))
      as Hup
      by (apply update_table_Ok; eexists;
          split; [vm_compute; reflexivity|reflexivity]).
    destruct (ipc_zero_guard init_table "aha.log"
                ("retired instructions: 1000" +:+ NL
                 +:+ "total CPU cycles: 500" +:+ NL))
      as (_ & _ & H).
    destruct (H ltac:(vm_compute; discriminate) _ Hup)
      as (r & f & Hr & Hi & Hc & Hipc & Hf & _ & _ & _ & Hexact).
    destruct (Hexact 2 ltac:(vm_compute; reflexivity) ltac:(lia)) as [Hval _].
    vm_compute in Hf. injection Hf as <-.
    vm_compute in Hi, Hc.
    eexists _, r. exact (conj Hup (conj Hr (conj Hi (conj Hc Hipc)))).
Defined.

Lemma update_table_idempotent_witness :
  ∃ t1, update_table init_table "aha.log" "Program exit with code: 0 (" = Ok t1
        ∧ update_table t1 "aha.log" "Program exit with code: 0 (" = Ok t1.
Proof.
  exists (dict_set init_table "aha.log"
            (store_metrics "Program exit with code: 0 (" (VInt 0) ∅)).
  assert (update_table init_table "aha.log" "Program exit with code: 0 ("
          = Ok (dict_set init_table "aha.log"
                  (store_metrics "Program exit with code: 0 (" (VInt 0) ∅)))
    as H
    by (apply update_table_Ok; exists (VInt 0);
        split; [vm_compute; reflexivity|reflexivity]).
  exact (conj H (proj1 update_table_idempotent _ _ _ _ H)).
Defined.

Lemma derived_sums_hold_witness :
  ∃ t' r ms,
    update_table init_table "aha.log" ("- jumps: 3 (" +:+ NL +:+ "- branches: 4 (") = Ok t'
    ∧ dict_get t' "aha.log" = Some r ∧ holds r ms
    ∧ ms_branch_jump ms = ms_jumps ms + ms_branches ms.
Proof.
  destruct derived_sums_hold as [H _].
  assert (update_table init_table "aha.log"
            ("- jumps: 3 (" +:+ NL +:+ "- branches: 4 (")
          = Ok (dict_set init_table "aha.log"
                  (store_metrics ("- jumps: 3 (" +:+ NL +:+ "- branches: 4 (")
                     (VInt 0) ∅)))
    as E
    by (apply update_table_Ok; exists (VInt 0);
        split; [vm_compute; reflexivity|reflexivity]).
  destruct (H _ _ _ _ E) as (r & ms & Hr & Hms & _ & Hbj & _).
  eexists _, r, ms. exact (conj E (conj Hr (conj Hms Hbj))).
Defined.

(** C8 as the specification words it fails: with a failed benchmark
    first and a successful one second, the lines are numbered 0 and 2,
    which is neither a count of successes nor a 1-based position. *)
Lemma console_numbers_are_not_a_success_counter :
  match summary_loop 0 [("aha.log", "Program exit with code: 1 (");
                        ("crc.log", "Program exit with code: 0 (")]
          init_table 0 (mkworld "" None) with
  | (w1, Ok (stats, c)) =>
      stdout w1
      = "   0) aha            : " +:+ FAILURE_TAG +:+ " (IPC= 0.00)" +:+ NL
        +:+ "   2) crc            : " +:+ SUCCESS_TAG +:+ " (IPC= 0.00)" +:+ NL
      ∧ specified_summary successes_upto stats ≠ Ok (stdout w1)
      ∧ specified_summary positions_from_one stats ≠ Ok (stdout w1)
      ∧ specified_summary one_plus_successes_before stats ≠ Ok (stdout w1)
  | _ => False
  end.
Proof.
  vm_compute. split; [reflexivity|]. repeat split; discriminate.
Defined.

Lemma one_failed_loop :
  summary_loop 0 [("crc.log", "Program exit with code: 1 (")] init_table 0
    (wprint (mkworld "" None) ("Benchmark summary:" +:+ NL))
  = (wprint (wprint (mkworld "" None) ("Benchmark summary:" +:+ NL))
       (concat_all ["   0) crc            : " +:+ FAILURE_TAG
                      +:+ " (IPC= 0.00)" +:+ NL]),
     Ok ([("crc.log",
           store_metrics (report_of "Program exit with code: 1 (") (VInt 0) ∅)],
         0)).
Proof.
  apply summary_loop_Ok. eexists. split; [|reflexivity].
  cbn [summary_pure]. rewrite update_table_unfold.
  assert (ipc_of (parse_retired_instructions (report_of "Program exit with code: 1 ("))
                 (parse_cycles (report_of "Program exit with code: 1 ("))
          = Ok (VInt 0)) as -> by (vm_compute; reflexivity).
  rewrite bind_Ok.
  change (dict_set init_table "crc.log"
            (store_metrics (report_of "Program exit with code: 1 (") (VInt 0)
               (default ∅ (dict_get init_table "crc.log"))))
    with [("crc.log",
           store_metrics (report_of "Program exit with code: 1 (") (VInt 0) ∅)].
  set (r := store_metrics (report_of "Program exit with code: 1 (") (VInt 0) ∅).
  rewrite bind_Ok.
  assert (table_getitem [("crc.log", r)] "crc.log" = Ok r) as ->.
  { unfold table_getitem. cbn [dict_get]. by rewrite decide_True. }
  rewrite bind_Ok.
  assert (console_line 0 "crc.log" r
          = Ok ("   0) crc            : " +:+ FAILURE_TAG
                  +:+ " (IPC= 0.00)" +:+ NL)) as ->
    by (vm_compute; reflexivity).
  rewrite bind_Ok.
  assert (getitem r "status" = Ok (VBool false)) as ->
    by (vm_compute; reflexivity).
  rewrite bind_Ok. reflexivity.
Qed.

Lemma whitelisted_failure_loop :
  summary_loop 0 [("cubic.log", "Program exit with code: 1 (");
                  ("crc.log", "Program exit with code: 0 (")] init_table 0
    (wprint (mkworld "" None) ("Benchmark summary:" +:+ NL))
  = (wprint (wprint (wprint (mkworld "" None) ("Benchmark summary:" +:+ NL))
               ("   0) cubic          : " +:+ FAILURE_TAG +:+ " (IPC= 0.00)" +:+ NL))
       ("   2) crc            : " +:+ SUCCESS_TAG +:+ " (IPC= 0.00)" +:+ NL),
     Ok ([("cubic.log",
           store_metrics (report_of "Program exit with code: 1 (") (VInt 0) ∅);
          ("crc.log",
           store_metrics (report_of "Program exit with code: 0 (") (VInt 0) ∅)],
         1)).
Proof.
  rewrite (summary_loop_cons_fresh 0 "cubic.log" _ _ _ _ _ (VInt 0)
             ("   0) cubic          : " +:+ FAILURE_TAG +:+ " (IPC= 0.00)" +:+ NL));
    [|vm_compute; reflexivity|by intros ?%elem_of_nil|vm_compute; reflexivity].
  rewrite (summary_loop_cons_fresh (0 + 1) "crc.log" _ _ _ _ _ (VInt 0)
             ("   2) crc            : " +:+ SUCCESS_TAG +:+ " (IPC= 0.00)" +:+ NL));
    [|vm_compute; reflexivity
     |apply (bool_decide_unpack _); vm_compute; reflexivity
     |vm_compute; reflexivity].
  reflexivity.
Qed.

Lemma long_sum_metrics :
  ipc_of (parse_retired_instructions (report_of long_sum_log))
         (parse_cycles (report_of long_sum_log)) = Ok (VInt 0)
  ∧ parse_status (report_of long_sum_log) = 0
  ∧ parse_jumps (report_of long_sum_log) + parse_branches (report_of long_sum_log)
    = 10 ^ 4300.
Proof. vm_compute. repeat split; reflexivity. Qed.

Lemma long_sum_loop :
  summary_loop 0 [("aha.log", long_sum_log)] init_table 0
    (wprint (mkworld "" None) ("Benchmark summary:" +:+ NL))
  = (wprint (wprint (mkworld "" None) ("Benchmark summary:" +:+ NL))
       ("   1) aha            : " +:+ SUCCESS_TAG +:+ " (IPC= 0.00)" +:+ NL),
     Ok ([("aha.log", store_metrics (report_of long_sum_log) (VInt 0) ∅)], 1)).
Proof.
  rewrite (summary_loop_cons_fresh 0 "aha.log" long_sum_log [] init_table 0 _
             (VInt 0)
             ("   1) aha            : " +:+ SUCCESS_TAG +:+ " (IPC= 0.00)" +:+ NL));
    [|exact (proj1 long_sum_metrics)|by intros ?%elem_of_nil
     |vm_compute; reflexivity].
  rewrite (proj1 (proj2 long_sum_metrics)). reflexivity.
Qed.

(** C1 as the specification words it fails: a benchmark that succeeded
    with 4300 digits of jumps and one branch passes the gating check,
    but the sum of the two takes 4301 digits, more than the interpreter
    prints; the export stops in the middle of the row and the exit
    status is not 0. *)
Lemma unprintable_sum_stops_the_export :
  ¬ (∀ (e : env) (w : world) (bs : list (string * string)) (w1 : world)
       (stats : table) (c : Z),
       arg_missing (arg_s e) = false →
       arg_missing (arg_p e) = false →
       sim_logs e = Some bs →
       Z.of_nat (length bs) < 10 ^ 640 →
       summary_loop 0 bs init_table 0 (wprint w ("Benchmark summary:" +:+ NL))
       = (w1, Ok (stats, c)) →
       (∀ b r, (b, r) ∈ stats → whitelisted b = false → status_of r = true) →
       (run e w).2 = 0).
Proof.
  intros H.
  assert (Z.of_nat (length [("aha.log", long_sum_log)]) < 10 ^ 640) as Hsmall
    by (vm_compute; reflexivity).
  assert ((run long_sum (mkworld "" None)).2 = 0) as Hrun.
  { apply (H long_sum (mkworld "" None) _ _ _ _ eq_refl eq_refl eq_refl
             Hsmall long_sum_loop).
    intros b r [= -> ->]%list_elem_of_singleton _. unfold status_of.
    rewrite (proj1 (store_metrics_holds (report_of long_sum_log) (VInt 0) ∅)).
    cbn [py_truth ms_status metrics_of]. by rewrite (proj1 (proj2 long_sum_metrics)). }
  destruct (exit_zero_printable long_sum (mkworld "" None) _ _ _ _
              eq_refl eq_refl eq_refl Hsmall long_sum_loop Hrun) as [_ Hprint].
  destruct (Hprint "aha.log" _ (metrics_of (report_of long_sum_log) (VInt 0))
              ltac:(by apply list_elem_of_singleton)
              (store_metrics_holds (report_of long_sum_log) (VInt 0) ∅))
    as (_ & _ & _ & _ & Hbj & _).
  cbn [ms_branch_jump metrics_of] in Hbj.
  rewrite (proj2 (proj2 long_sum_metrics)) in Hbj.
  revert Hbj. apply (long_unprintable (10 ^ 4300) 4300).
  - rewrite Z.abs_eq by (by apply Z.pow_nonneg). done.
  - lia.
  - done.
  - done.
Defined.

Lemma gating_exit_code_witness :
  run one_failed (mkworld "" None)
  = (mkworld ("Benchmark summary:" +:+ NL
              +:+ "   0) crc            : " +:+ FAILURE_TAG
              +:+ " (IPC= 0.00)" +:+ NL
              +:+ "Correctly executed testbenches 0 out of 1." +:+ NL
              +:+ String ESC "[91mFailed tests: crc." +:+ String ESC "[00m" +:+ NL)
             None,
     1)
  ∧ run whitelisted_failure (mkworld "" None)
    = (mkworld ("Benchmark summary:" +:+ NL
                +:+ "   0) cubic          : " +:+ FAILURE_TAG
                +:+ " (IPC= 0.00)" +:+ NL
                +:+ "   2) crc            : " +:+ SUCCESS_TAG
                +:+ " (IPC= 0.00)" +:+ NL
                +:+ "Correctly executed testbenches 1 out of 2." +:+ NL
                +:+ "Saving the csv report to run/output." +:+ NL)
               (Some (csv_header
                      +:+ "cubic,False,0,0, 0.00,0,0,0,0,0,0,0,0,0,0" +:+ NL
                      +:+ "crc,True,0,0, 0.00,0,0,0,0,0,0,0,0,0,0" +:+ NL)),
       0).
Proof.
  split.
  - destruct (gating_exit_code one_failed (mkworld "" None) _ _ _ _
                eq_refl eq_refl eq_refl ltac:(vm_compute; reflexivity)
                one_failed_loop)
      as (_ & Hfail & _).
    destruct Hfail as [-> _].
    + intros Hnil.
      pose proof (proj1 (failing_nil_iff _) Hnil "crc.log" _
                    ltac:(left) ltac:(vm_compute; reflexivity)) as Hs.
      vm_compute in Hs. discriminate Hs.
    + vm_compute. reflexivity.
  - destruct (gating_exit_code whitelisted_failure (mkworld "" None) _ _ _ _
                eq_refl eq_refl eq_refl ltac:(vm_compute; reflexivity)
                whitelisted_failure_loop)
      as (_ & _ & Hpass & _).
    destruct Hpass as (lines & Hrun & Hlen & Hk).
    + apply failing_nil_iff. intros b r Hin Hw.
      apply elem_of_cons in Hin as [[= -> ->]|[= -> ->]%list_elem_of_singleton].
      * vm_compute in Hw. discriminate Hw.
      * vm_compute. reflexivity.
    + intros b r ms Hin Hh.
      apply elem_of_cons in Hin as [[= -> ->]|[= -> ->]%list_elem_of_singleton];
        apply holds_store_metrics in Hh as ->;
        vm_compute; repeat split; reflexivity.
    + destruct lines as [|l0 [|l1 [|l2 lines]]]; try discriminate Hlen.
      destruct (Hk 0%nat _ _ eq_refl) as (ms0 & x0 & Hh0 & Hx0 & Hl0).
      destruct (Hk 1%nat _ _ eq_refl) as (ms1 & x1 & Hh1 & Hx1 & Hl1).
      apply holds_store_metrics in Hh0 as ->.
      apply holds_store_metrics in Hh1 as ->.
      vm_compute in Hx0, Hx1. injection Hx0 as <-. injection Hx1 as <-.
      vm_compute in Hl0, Hl1. injection Hl0 as ->. injection Hl1 as ->.
      rewrite Hrun. vm_compute. reflexivity.
Defined.

Lemma failed_then_ok_loop :
  summary_loop 0 [("aha.log", "Program exit with code: 1 (");
                  ("crc.log", "Program exit with code: 0 (")] init_table 0
    (wprint (mkworld "" None) ("Benchmark summary:" +:+ NL))
  = (wprint (wprint (wprint (mkworld "" None) ("Benchmark summary:" +:+ NL))
               ("   0) aha            : " +:+ FAILURE_TAG +:+ " (IPC= 0.00)" +:+ NL))
       ("   2) crc            : " +:+ SUCCESS_TAG +:+ " (IPC= 0.00)" +:+ NL),
     Ok ([("aha.log",
           store_metrics (report_of "Program exit with code: 1 (") (VInt 0) ∅);
          ("crc.log",
           store_metrics (report_of "Program exit with code: 0 (") (VInt 0) ∅)],
         1)).
Proof.
  rewrite (summary_loop_cons_fresh 0 "aha.log" _ _ _ _ _ (VInt 0)
             ("   0) aha            : " +:+ FAILURE_TAG +:+ " (IPC= 0.00)" +:+ NL));
    [|vm_compute; reflexivity|by intros ?%elem_of_nil|vm_compute; reflexivity].
  rewrite (summary_loop_cons_fresh (0 + 1) "crc.log" _ _ _ _ _ (VInt 0)
             ("   2) crc            : " +:+ SUCCESS_TAG +:+ " (IPC= 0.00)" +:+ NL));
    [|vm_compute; reflexivity
     |apply (bool_decide_unpack _); vm_compute; reflexivity
     |vm_compute; reflexivity].
  reflexivity.
Qed.

Lemma console_summary_witness :
  ∃ lines,
    stdout (wprint (wprint (wprint (mkworld "" None) ("Benchmark summary:" +:+ NL))
                      ("   0) aha            : " +:+ FAILURE_TAG
                         +:+ " (IPC= 0.00)" +:+ NL))
              ("   2) crc            : " +:+ SUCCESS_TAG +:+ " (IPC= 0.00)" +:+ NL))
    = "" +:+ "Benchmark summary:" +:+ NL +:+ concat_all lines
    ∧ lines = ["   0) aha            : " +:+ FAILURE_TAG +:+ " (IPC= 0.00)" +:+ NL;
               "   2) crc            : " +:+ SUCCESS_TAG +:+ " (IPC= 0.00)" +:+ NL].
Proof.
  destruct (console_summary failed_then_ok (mkworld "" None) _ _ _ _
              eq_refl eq_refl eq_refl
              ltac:(apply (bool_decide_unpack _); vm_compute; reflexivity)
              ltac:(vm_compute; reflexivity)
              failed_then_ok_loop)
    as (_ & _ & (lines & Hlen & Hout & Hk & _) & _).
  exists lines. split; [exact Hout|].
  destruct lines as [|l0 [|l1 [|l2 lines]]]; try discriminate Hlen.
  destruct (Hk 0%nat _ _ eq_refl)
    as (line0 & n0 & x0 & Hl0 & _ & Hn0 & (ms0 & Hh0 & Hx0) & _ & Ht0).
  destruct (Hk 1%nat _ _ eq_refl)
    as (line1 & n1 & x1 & Hl1 & Hn1 & _ & (ms1 & Hh1 & Hx1) & _ & Ht1).
  apply holds_store_metrics in Hh0 as ->.
  apply holds_store_metrics in Hh1 as ->.
  vm_compute in Hx0, Hx1. injection Hx0 as <-. injection Hx1 as <-.
  rewrite (Hn0 ltac:(vm_compute; reflexivity)) in Ht0.
  rewrite (Hn1 ltac:(vm_compute; reflexivity)) in Ht1.
  vm_compute in Ht0, Ht1. subst line0 line1.
  vm_compute in Hl0, Hl1. injection Hl0 as ->. injection Hl1 as ->.
  vm_compute. reflexivity.
Defined.



Lemma extract_first_occurrence_witness :
  extract Cycles (("boot" +:+ NL) +:+ ("total CPU cycles: 500" +:+ NL))
  = extract Cycles ("total CPU cycles: 500" +:+ NL).
Proof.
  apply (extract_first_occurrence Cycles ("boot" +:+ NL)
           ("total CPU cycles: 500" +:+ NL) 5).
  - vm_compute. reflexivity.
  - vm_compute. lia.
Defined.

Lemma extract_local_witness :
  extract Jumps ("" +:+ marker Jumps +:+ " 12 " +:+ terminator Jumps +:+ "3%)")
  = 12.
Proof.
  pose proof (extract_local Jumps "" " 12 " "3%)"
                ltac:(vm_compute; reflexivity) ltac:(vm_compute; reflexivity))
    as H.
  vm_compute in H |- *. exact H.
Defined.

Lemma extract_reads_back_witness :
  extract Cycles (("boot" +:+ NL) +:+ marker Cycles +:+ repeat_char " " 1
                  +:+ pretty 500 +:+ repeat_char " " 0 +:+ terminator Cycles
                  +:+ "")
  = 500.
Proof.
  apply (extract_reads_back Cycles 500 1 0 ("boot" +:+ NL) "").
  - discriminate.
  - vm_compute. reflexivity.
  - vm_compute. reflexivity.
Defined.

Lemma report_keeps_later_metrics_witness :
  extract Cycles
    (report_of ("boot" +:+ NL +:+ "Program exit with code: 0 (ok)" +:+ NL
                +:+ "total CPU cycles: 500" +:+ NL))
  = extract Cycles
      ("boot" +:+ NL +:+ "Program exit with code: 0 (ok)" +:+ NL
       +:+ "total CPU cycles: 500" +:+ NL).
Proof.
  apply (proj2 (report_keeps_later_metrics
                  ("boot" +:+ NL +:+ "Program exit with code: 0 (ok)" +:+ NL
                   +:+ "total CPU cycles: 500" +:+ NL)) Cycles 36%nat).
  - vm_compute. reflexivity.
  - vm_compute. discriminate.
Defined.

Lemma update_table_first_blank :
  update_table init_table "crc.log" ""
  = Ok (dict_set init_table "crc.log" (store_metrics "" (VInt 0) ∅)).
Proof.
  apply update_table_Ok. exists (VInt 0).
  split; [vm_compute; reflexivity|reflexivity].
Qed.

Lemma update_table_frame_witness :
  ∃ r, dict_set init_table "crc.log" (store_metrics "" (VInt 0) ∅)
       = init_table ++ [("crc.log", r)].
Proof.
  destruct (update_table_frame init_table "crc.log" "" _ update_table_first_blank)
    as (_ & _ & _ & Hnew).
  apply Hnew. reflexivity.
Defined.

Lemma update_table_fails_only_on_overflow_witness :
  ∃ t', update_table init_table "crc.log" "" = Ok t'.
Proof.
  apply (proj2 (update_table_fails_only_on_overflow init_table "crc.log" "")).
  left. vm_compute. reflexivity.
Defined.

Lemma update_table_last_wins_witness :
  update_table (dict_set init_table "crc.log" (store_metrics "" (VInt 0) ∅))
    "crc.log" ("total CPU cycles: 500" +:+ NL)
  = update_table init_table "crc.log" ("total CPU cycles: 500" +:+ NL).
Proof.
  exact (update_table_last_wins init_table "crc.log" ""
           ("total CPU cycles: 500" +:+ NL) _ update_table_first_blank).
Defined.

Lemma blank_log_row_witness :
  ∃ t' r,
    update_table init_table "crc.log" "" = Ok t'
    ∧ dict_get t' "crc.log" = Some r
    ∧ holds r blank_metrics
    ∧ status_of r = false
    ∧ ∀ w, write_row ("crc.log", r) w
           = (wfile w (bench_id "crc.log"
                       +:+ ",False,0,0, 0.00,0,0,0,0,0,0,0,0,0,0" +:+ NL),
              Ok ()).
Proof.
  apply (blank_log_row init_table "crc.log" "").
  intros m. destruct m; vm_compute; reflexivity.
Defined.

Lemma update_table_first_failed :
  update_table init_table "crc.log" (report_of "Program exit with code: 1 (")
  = Ok (dict_set init_table "crc.log"
          (store_metrics (report_of "Program exit with code: 1 (") (VInt 0) ∅)).
Proof.
  apply update_table_Ok. exists (VInt 0).
  split; [vm_compute; reflexivity|reflexivity].
Qed.

Lemma summary_step_prints_witness :
  ∃ r x,
    dict_get (dict_set init_table "crc.log"
                (store_metrics (report_of "Program exit with code: 1 (")
                   (VInt 0) ∅)) "crc.log" = Some r
    ∧ (∃ ms, holds r ms ∧ py_format_f2 (ms_ipc ms) = Ok x)
    ∧ two_decimals x
    ∧ summary_step 0 "crc.log" "Program exit with code: 1 (" init_table 0
        (mkworld "" None)
      = (wprint (mkworld "" None)
           (repeat_char " "
              (4 - String.length (pretty (0 + Z.b2z (status_of r))))
            +:+ pretty (0 + Z.b2z (status_of r)) +:+ ") "
            +:+ py_format_s 15 (bench_id "crc.log") +:+ ": "
            +:+ (if status_of r then SUCCESS_TAG else FAILURE_TAG)
            +:+ " (IPC=" +:+ x +:+ ")" +:+ NL),
         Ok (dict_set init_table "crc.log"
               (store_metrics (report_of "Program exit with code: 1 (")
                  (VInt 0) ∅),
             0 + Z.b2z (status_of r))).
Proof.
  apply (summary_step_prints 0 "crc.log" "Program exit with code: 1 ("
           init_table _ 0 (mkworld "" None)).
  - lia.
  - vm_compute. reflexivity.
  - exact update_table_first_failed.
Defined.

Lemma summary_loop_table_witness :
  ∃ w1 stats c,
    summary_loop 0 [("crc.log", "Program exit with code: 1 (")] init_table 0
      (mkworld "" None) = (w1, Ok (stats, c))
    ∧ csv_file w1 = None
    ∧ stats.*1 = ["crc.log"].
Proof.
  destruct (summary_loop_table [("crc.log", "Program exit with code: 1 (")]
              (mkworld "" None))
    as (w1 & stats & c & Hloop & Hfile & Hkeys & _).
  - apply NoDup_singleton.
  - vm_compute. reflexivity.
  - constructor; [left; vm_compute; reflexivity|constructor].
  - exists w1, stats, c. exact (conj Hloop (conj Hfile Hkeys)).
Defined.

Lemma overflow_aborts_run_witness :
  ∃ w1, run one_overflows (mkworld "" None) = (w1, 1) ∧ csv_file w1 = None.
Proof.
  destruct (overflow_aborts_run one_overflows (mkworld "" None)
              [("crc.log", "Program exit with code: 1 (")] []
              "big.log" huge_log)
    as (w1 & stats & c & _ & Hfile & _ & Hrun).
  - reflexivity.
  - reflexivity.
  - reflexivity.
  - vm_compute. reflexivity.
  - constructor; [left; vm_compute; reflexivity|constructor].
  - vm_compute. reflexivity.
  - exists w1. exact (conj Hrun Hfile).
Defined.

Lemma usage_errors_witness :
  run (mkenv None (Some "run") "/home/len5" None) (mkworld "" None)
  = (wprint (mkworld "" None)
       ("Usage: python parse_benchmarks.py -s <suite>" +:+ NL), 2).
Proof.
  apply (proj1 (usage_errors (mkenv None (Some "run") "/home/len5" None)
                  (mkworld "" None))).
  reflexivity.
Defined.

Lemma exit_status_range_witness :
  (run one_failed (mkworld "" None)).2 = 0
  ∨ (run one_failed (mkworld "" None)).2 = 1
  ∨ (run one_failed (mkworld "" None)).2 = 2.
Proof.
  apply (exit_status_range one_failed (mkworld "" None)).
  intros bs [= <-]. vm_compute. reflexivity.
Defined.

Lemma csv_replaced_only_after_gate_witness :
  csv_file (run one_failed (mkworld "" None)).1 = None
  ∨ ∃ bs w1 stats c body,
      arg_missing (arg_s one_failed) = false
      ∧ arg_missing (arg_p one_failed) = false
      ∧ sim_logs one_failed = Some bs
      ∧ summary_loop 0 bs init_table 0
          (wprint (mkworld "" None) ("Benchmark summary:" +:+ NL))
        = (w1, Ok (stats, c))
      ∧ failing stats = []
      ∧ csv_file (run one_failed (mkworld "" None)).1
        = Some (csv_header +:+ body).
Proof.
  apply (csv_replaced_only_after_gate one_failed (mkworld "" None)).
  intros bs [= <-]. vm_compute. reflexivity.
Defined.

Lemma csv_request_columns_witness :
  ∃ l, length l = 12%nat
       ∧ write_row ("aha.log",
                    store_metrics ("- read requests: 5 (" +:+ NL
                                   +:+ "- write requests: 7 (")
                      (VInt 0) ∅) (mkworld "" (Some ""))
         = (wfile (mkworld "" (Some ""))
              (String.concat "," l +:+ "," +:+ pretty 5 +:+ ","
               +:+ pretty 7 +:+ "," +:+ pretty 12 +:+ NL),
            Ok ()).
Proof.
  destruct csv_request_columns as [_ H].
  apply (H "aha.log" _
           (metrics_of ("- read requests: 5 (" +:+ NL +:+ "- write requests: 7 (")
              (VInt 0))).
  - apply store_metrics_holds.
  - apply metrics_of_consistent. vm_compute. reflexivity.
  - vm_compute. repeat split; reflexivity.
Defined.
